(** * bot4.py: the address book, embedded and verified

    The development follows the layout of [bot4.py]:
    - Python values as the program meets them (text, JSON-loaded objects,
      exceptions);
    - the parts of the Python runtime the program calls ([str.isalpha],
      [str.isdigit], [str.title], [datetime.strptime], [datetime] comparison,
      [json]);
    - the classes [Name], [Phone], [Birthday], [Record] and [AddressBook];
    - the properties of the specification, one theorem each. *)

From Stdlib Require Import List NArith ZArith Lia Bool String Ascii.
Import ListNotations.

Set Implicit Arguments.

(** ** Text

    A Python [str] is a sequence of Unicode code points.  Literals of the
    source are written as Rocq strings and converted with [u]. *)

Definition str := list N.

Definition u (s : string) : str := map N_of_ascii (list_ascii_of_string s).

Fixpoint str_eqb (a b : str) : bool :=
  match a, b with
  | [], [] => true
  | x :: a', y :: b' => N.eqb x y && str_eqb a' b'
  | _, _ => false
  end.

(** ** The Unicode character database

    [str.isalpha], [str.isdigit], [str.title] and the regular expression
    class [\d] are driven by the character database compiled into CPython
    (here: CPython 3.11, Unicode 14.0.0).  The tables list, as inclusive
    ranges of code points, the characters with each property, and the simple
    and full case mappings as arithmetic runs [(first, last, step, image of
    first)]. *)

Module Unicode.

Definition decimal_ranges : list (N * N) :=
  [(48,57); (1632,1641); (1776,1785); (1984,1993); (2406,2415); (2534,2543); (2662,2671);
   (2790,2799); (2918,2927); (3046,3055); (3174,3183); (3302,3311); (3430,3439); (3558,3567);
   (3664,3673); (3792,3801); (3872,3881); (4160,4169); (4240,4249); (6112,6121); (6160,6169);
   (6470,6479); (6608,6617); (6784,6793); (6800,6809); (6992,7001); (7088,7097); (7232,7241);
   (7248,7257); (42528,42537); (43216,43225); (43264,43273); (43472,43481); (43504,43513);
   (43600,43609); (44016,44025); (65296,65305); (66720,66729); (68912,68921); (69734,69743);
   (69872,69881); (69942,69951); (70096,70105); (70384,70393); (70736,70745); (70864,70873);
   (71248,71257); (71360,71369); (71472,71481); (71904,71913); (72016,72025); (72784,72793);
   (73040,73049); (73120,73129); (92768,92777); (92864,92873); (93008,93017); (120782,120831);
   (123200,123209); (123632,123641); (125264,125273); (130032,130041)]%N.

Definition digit_ranges : list (N * N) :=
  [(48,57); (178,179); (185,185); (1632,1641); (1776,1785); (1984,1993); (2406,2415);
   (2534,2543); (2662,2671); (2790,2799); (2918,2927); (3046,3055); (3174,3183); (3302,3311);
   (3430,3439); (3558,3567); (3664,3673); (3792,3801); (3872,3881); (4160,4169); (4240,4249);
   (4969,4977); (6112,6121); (6160,6169); (6470,6479); (6608,6618); (6784,6793); (6800,6809);
   (6992,7001); (7088,7097); (7232,7241); (7248,7257); (8304,8304); (8308,8313); (8320,8329);
   (9312,9320); (9332,9340); (9352,9360); (9450,9450); (9461,9469); (9471,9471);
   (10102,10110); (10112,10120); (10122,10130); (42528,42537); (43216,43225); (43264,43273);
   (43472,43481); (43504,43513); (43600,43609); (44016,44025); (65296,65305); (66720,66729);
   (68160,68163); (68912,68921); (69216,69224); (69714,69722); (69734,69743); (69872,69881);
   (69942,69951); (70096,70105); (70384,70393); (70736,70745); (70864,70873); (71248,71257);
   (71360,71369); (71472,71481); (71904,71913); (72016,72025); (72784,72793); (73040,73049);
   (73120,73129); (92768,92777); (92864,92873); (93008,93017); (120782,120831);
   (123200,123209); (123632,123641); (125264,125273); (127232,127242); (130032,130041)]%N.

Definition alpha_ranges : list (N * N) :=
  [(65,90); (97,122); (170,170); (181,181); (186,186); (192,214); (216,246); (248,705);
   (710,721); (736,740); (748,748); (750,750); (880,884); (886,887); (890,893); (895,895);
   (902,902); (904,906); (908,908); (910,929); (931,1013); (1015,1153); (1162,1327);
   (1329,1366); (1369,1369); (1376,1416); (1488,1514); (1519,1522); (1568,1610); (1646,1647);
   (1649,1747); (1749,1749); (1765,1766); (1774,1775); (1786,1788); (1791,1791); (1808,1808);
   (1810,1839); (1869,1957); (1969,1969); (1994,2026); (2036,2037); (2042,2042); (2048,2069);
   (2074,2074); (2084,2084); (2088,2088); (2112,2136); (2144,2154); (2160,2183); (2185,2190);
   (2208,2249); (2308,2361); (2365,2365); (2384,2384); (2392,2401); (2417,2432); (2437,2444);
   (2447,2448); (2451,2472); (2474,2480); (2482,2482); (2486,2489); (2493,2493); (2510,2510);
   (2524,2525); (2527,2529); (2544,2545); (2556,2556); (2565,2570); (2575,2576); (2579,2600);
   (2602,2608); (2610,2611); (2613,2614); (2616,2617); (2649,2652); (2654,2654); (2674,2676);
   (2693,2701); (2703,2705); (2707,2728); (2730,2736); (2738,2739); (2741,2745); (2749,2749);
   (2768,2768); (2784,2785); (2809,2809); (2821,2828); (2831,2832); (2835,2856); (2858,2864);
   (2866,2867); (2869,2873); (2877,2877); (2908,2909); (2911,2913); (2929,2929); (2947,2947);
   (2949,2954); (2958,2960); (2962,2965); (2969,2970); (2972,2972); (2974,2975); (2979,2980);
   (2984,2986); (2990,3001); (3024,3024); (3077,3084); (3086,3088); (3090,3112); (3114,3129);
   (3133,3133); (3160,3162); (3165,3165); (3168,3169); (3200,3200); (3205,3212); (3214,3216);
   (3218,3240); (3242,3251); (3253,3257); (3261,3261); (3293,3294); (3296,3297); (3313,3314);
   (3332,3340); (3342,3344); (3346,3386); (3389,3389); (3406,3406); (3412,3414); (3423,3425);
   (3450,3455); (3461,3478); (3482,3505); (3507,3515); (3517,3517); (3520,3526); (3585,3632);
   (3634,3635); (3648,3654); (3713,3714); (3716,3716); (3718,3722); (3724,3747); (3749,3749);
   (3751,3760); (3762,3763); (3773,3773); (3776,3780); (3782,3782); (3804,3807); (3840,3840);
   (3904,3911); (3913,3948); (3976,3980); (4096,4138); (4159,4159); (4176,4181); (4186,4189);
   (4193,4193); (4197,4198); (4206,4208); (4213,4225); (4238,4238); (4256,4293); (4295,4295);
   (4301,4301); (4304,4346); (4348,4680); (4682,4685); (4688,4694); (4696,4696); (4698,4701);
   (4704,4744); (4746,4749); (4752,4784); (4786,4789); (4792,4798); (4800,4800); (4802,4805);
   (4808,4822); (4824,4880); (4882,4885); (4888,4954); (4992,5007); (5024,5109); (5112,5117);
   (5121,5740); (5743,5759); (5761,5786); (5792,5866); (5873,5880); (5888,5905); (5919,5937);
   (5952,5969); (5984,5996); (5998,6000); (6016,6067); (6103,6103); (6108,6108); (6176,6264);
   (6272,6276); (6279,6312); (6314,6314); (6320,6389); (6400,6430); (6480,6509); (6512,6516);
   (6528,6571); (6576,6601); (6656,6678); (6688,6740); (6823,6823); (6917,6963); (6981,6988);
   (7043,7072); (7086,7087); (7098,7141); (7168,7203); (7245,7247); (7258,7293); (7296,7304);
   (7312,7354); (7357,7359); (7401,7404); (7406,7411); (7413,7414); (7418,7418); (7424,7615);
   (7680,7957); (7960,7965); (7968,8005); (8008,8013); (8016,8023); (8025,8025); (8027,8027);
   (8029,8029); (8031,8061); (8064,8116); (8118,8124); (8126,8126); (8130,8132); (8134,8140);
   (8144,8147); (8150,8155); (8160,8172); (8178,8180); (8182,8188); (8305,8305); (8319,8319);
   (8336,8348); (8450,8450); (8455,8455); (8458,8467); (8469,8469); (8473,8477); (8484,8484);
   (8486,8486); (8488,8488); (8490,8493); (8495,8505); (8508,8511); (8517,8521); (8526,8526);
   (8579,8580); (11264,11492); (11499,11502); (11506,11507); (11520,11557); (11559,11559);
   (11565,11565); (11568,11623); (11631,11631); (11648,11670); (11680,11686); (11688,11694);
   (11696,11702); (11704,11710); (11712,11718); (11720,11726); (11728,11734); (11736,11742);
   (11823,11823); (12293,12294); (12337,12341); (12347,12348); (12353,12438); (12445,12447);
   (12449,12538); (12540,12543); (12549,12591); (12593,12686); (12704,12735); (12784,12799);
   (13312,19903); (19968,42124); (42192,42237); (42240,42508); (42512,42527); (42538,42539);
   (42560,42606); (42623,42653); (42656,42725); (42775,42783); (42786,42888); (42891,42954);
   (42960,42961); (42963,42963); (42965,42969); (42994,43009); (43011,43013); (43015,43018);
   (43020,43042); (43072,43123); (43138,43187); (43250,43255); (43259,43259); (43261,43262);
   (43274,43301); (43312,43334); (43360,43388); (43396,43442); (43471,43471); (43488,43492);
   (43494,43503); (43514,43518); (43520,43560); (43584,43586); (43588,43595); (43616,43638);
   (43642,43642); (43646,43695); (43697,43697); (43701,43702); (43705,43709); (43712,43712);
   (43714,43714); (43739,43741); (43744,43754); (43762,43764); (43777,43782); (43785,43790);
   (43793,43798); (43808,43814); (43816,43822); (43824,43866); (43868,43881); (43888,44002);
   (44032,55203); (55216,55238); (55243,55291); (63744,64109); (64112,64217); (64256,64262);
   (64275,64279); (64285,64285); (64287,64296); (64298,64310); (64312,64316); (64318,64318);
   (64320,64321); (64323,64324); (64326,64433); (64467,64829); (64848,64911); (64914,64967);
   (65008,65019); (65136,65140); (65142,65276); (65313,65338); (65345,65370); (65382,65470);
   (65474,65479); (65482,65487); (65490,65495); (65498,65500); (65536,65547); (65549,65574);
   (65576,65594); (65596,65597); (65599,65613); (65616,65629); (65664,65786); (66176,66204);
   (66208,66256); (66304,66335); (66349,66368); (66370,66377); (66384,66421); (66432,66461);
   (66464,66499); (66504,66511); (66560,66717); (66736,66771); (66776,66811); (66816,66855);
   (66864,66915); (66928,66938); (66940,66954); (66956,66962); (66964,66965); (66967,66977);
   (66979,66993); (66995,67001); (67003,67004); (67072,67382); (67392,67413); (67424,67431);
   (67456,67461); (67463,67504); (67506,67514); (67584,67589); (67592,67592); (67594,67637);
   (67639,67640); (67644,67644); (67647,67669); (67680,67702); (67712,67742); (67808,67826);
   (67828,67829); (67840,67861); (67872,67897); (67968,68023); (68030,68031); (68096,68096);
   (68112,68115); (68117,68119); (68121,68149); (68192,68220); (68224,68252); (68288,68295);
   (68297,68324); (68352,68405); (68416,68437); (68448,68466); (68480,68497); (68608,68680);
   (68736,68786); (68800,68850); (68864,68899); (69248,69289); (69296,69297); (69376,69404);
   (69415,69415); (69424,69445); (69488,69505); (69552,69572); (69600,69622); (69635,69687);
   (69745,69746); (69749,69749); (69763,69807); (69840,69864); (69891,69926); (69956,69956);
   (69959,69959); (69968,70002); (70006,70006); (70019,70066); (70081,70084); (70106,70106);
   (70108,70108); (70144,70161); (70163,70187); (70272,70278); (70280,70280); (70282,70285);
   (70287,70301); (70303,70312); (70320,70366); (70405,70412); (70415,70416); (70419,70440);
   (70442,70448); (70450,70451); (70453,70457); (70461,70461); (70480,70480); (70493,70497);
   (70656,70708); (70727,70730); (70751,70753); (70784,70831); (70852,70853); (70855,70855);
   (71040,71086); (71128,71131); (71168,71215); (71236,71236); (71296,71338); (71352,71352);
   (71424,71450); (71488,71494); (71680,71723); (71840,71903); (71935,71942); (71945,71945);
   (71948,71955); (71957,71958); (71960,71983); (71999,71999); (72001,72001); (72096,72103);
   (72106,72144); (72161,72161); (72163,72163); (72192,72192); (72203,72242); (72250,72250);
   (72272,72272); (72284,72329); (72349,72349); (72368,72440); (72704,72712); (72714,72750);
   (72768,72768); (72818,72847); (72960,72966); (72968,72969); (72971,73008); (73030,73030);
   (73056,73061); (73063,73064); (73066,73097); (73112,73112); (73440,73458); (73648,73648);
   (73728,74649); (74880,75075); (77712,77808); (77824,78894); (82944,83526); (92160,92728);
   (92736,92766); (92784,92862); (92880,92909); (92928,92975); (92992,92995); (93027,93047);
   (93053,93071); (93760,93823); (93952,94026); (94032,94032); (94099,94111); (94176,94177);
   (94179,94179); (94208,100343); (100352,101589); (101632,101640); (110576,110579);
   (110581,110587); (110589,110590); (110592,110882); (110928,110930); (110948,110951);
   (110960,111355); (113664,113770); (113776,113788); (113792,113800); (113808,113817);
   (119808,119892); (119894,119964); (119966,119967); (119970,119970); (119973,119974);
   (119977,119980); (119982,119993); (119995,119995); (119997,120003); (120005,120069);
   (120071,120074); (120077,120084); (120086,120092); (120094,120121); (120123,120126);
   (120128,120132); (120134,120134); (120138,120144); (120146,120485); (120488,120512);
   (120514,120538); (120540,120570); (120572,120596); (120598,120628); (120630,120654);
   (120656,120686); (120688,120712); (120714,120744); (120746,120770); (120772,120779);
   (122624,122654); (123136,123180); (123191,123197); (123214,123214); (123536,123565);
   (123584,123627); (124896,124902); (124904,124907); (124909,124910); (124912,124926);
   (124928,125124); (125184,125251); (125259,125259); (126464,126467); (126469,126495);
   (126497,126498); (126500,126500); (126503,126503); (126505,126514); (126516,126519);
   (126521,126521); (126523,126523); (126530,126530); (126535,126535); (126537,126537);
   (126539,126539); (126541,126543); (126545,126546); (126548,126548); (126551,126551);
   (126553,126553); (126555,126555); (126557,126557); (126559,126559); (126561,126562);
   (126564,126564); (126567,126570); (126572,126578); (126580,126583); (126585,126588);
   (126590,126590); (126592,126601); (126603,126619); (126625,126627); (126629,126633);
   (126635,126651); (131072,173791); (173824,177976); (177984,178205); (178208,183969);
   (183984,191456); (194560,195101); (196608,201546)]%N.

Definition cased_ranges : list (N * N) :=
  [(65,90); (97,122); (170,170); (181,181); (186,186); (192,214); (216,246); (248,442);
   (444,447); (452,659); (661,696); (704,705); (736,740); (837,837); (880,883); (886,887);
   (890,893); (895,895); (902,902); (904,906); (908,908); (910,929); (931,1013); (1015,1153);
   (1162,1327); (1329,1366); (1376,1416); (4256,4293); (4295,4295); (4301,4301); (4304,4346);
   (4349,4351); (5024,5109); (5112,5117); (7296,7304); (7312,7354); (7357,7359); (7424,7615);
   (7680,7957); (7960,7965); (7968,8005); (8008,8013); (8016,8023); (8025,8025); (8027,8027);
   (8029,8029); (8031,8061); (8064,8116); (8118,8124); (8126,8126); (8130,8132); (8134,8140);
   (8144,8147); (8150,8155); (8160,8172); (8178,8180); (8182,8188); (8305,8305); (8319,8319);
   (8336,8348); (8450,8450); (8455,8455); (8458,8467); (8469,8469); (8473,8477); (8484,8484);
   (8486,8486); (8488,8488); (8490,8493); (8495,8500); (8505,8505); (8508,8511); (8517,8521);
   (8526,8526); (8544,8575); (8579,8580); (9398,9449); (11264,11492); (11499,11502);
   (11506,11507); (11520,11557); (11559,11559); (11565,11565); (42560,42605); (42624,42653);
   (42786,42887); (42891,42894); (42896,42954); (42960,42961); (42963,42963); (42965,42969);
   (42997,42998); (43000,43002); (43824,43866); (43868,43880); (43888,43967); (64256,64262);
   (64275,64279); (65313,65338); (65345,65370); (66560,66639); (66736,66771); (66776,66811);
   (66928,66938); (66940,66954); (66956,66962); (66964,66965); (66967,66977); (66979,66993);
   (66995,67001); (67003,67004); (67456,67456); (67459,67461); (67463,67504); (67506,67514);
   (68736,68786); (68800,68850); (71840,71903); (93760,93823); (119808,119892);
   (119894,119964); (119966,119967); (119970,119970); (119973,119974); (119977,119980);
   (119982,119993); (119995,119995); (119997,120003); (120005,120069); (120071,120074);
   (120077,120084); (120086,120092); (120094,120121); (120123,120126); (120128,120132);
   (120134,120134); (120138,120144); (120146,120485); (120488,120512); (120514,120538);
   (120540,120570); (120572,120596); (120598,120628); (120630,120654); (120656,120686);
   (120688,120712); (120714,120744); (120746,120770); (120772,120779); (122624,122633);
   (122635,122654); (125184,125251); (127280,127305); (127312,127337); (127344,127369)]%N.

Definition case_ignorable_ranges : list (N * N) :=
  [(39,39); (46,46); (58,58); (94,94); (96,96); (168,168); (173,173); (175,175); (180,180);
   (183,184); (688,879); (884,885); (890,890); (900,901); (903,903); (1155,1161); (1369,1369);
   (1375,1375); (1425,1469); (1471,1471); (1473,1474); (1476,1477); (1479,1479); (1524,1524);
   (1536,1541); (1552,1562); (1564,1564); (1600,1600); (1611,1631); (1648,1648); (1750,1757);
   (1759,1768); (1770,1773); (1807,1807); (1809,1809); (1840,1866); (1958,1968); (2027,2037);
   (2042,2042); (2045,2045); (2070,2093); (2137,2139); (2184,2184); (2192,2193); (2200,2207);
   (2249,2306); (2362,2362); (2364,2364); (2369,2376); (2381,2381); (2385,2391); (2402,2403);
   (2417,2417); (2433,2433); (2492,2492); (2497,2500); (2509,2509); (2530,2531); (2558,2558);
   (2561,2562); (2620,2620); (2625,2626); (2631,2632); (2635,2637); (2641,2641); (2672,2673);
   (2677,2677); (2689,2690); (2748,2748); (2753,2757); (2759,2760); (2765,2765); (2786,2787);
   (2810,2815); (2817,2817); (2876,2876); (2879,2879); (2881,2884); (2893,2893); (2901,2902);
   (2914,2915); (2946,2946); (3008,3008); (3021,3021); (3072,3072); (3076,3076); (3132,3132);
   (3134,3136); (3142,3144); (3146,3149); (3157,3158); (3170,3171); (3201,3201); (3260,3260);
   (3263,3263); (3270,3270); (3276,3277); (3298,3299); (3328,3329); (3387,3388); (3393,3396);
   (3405,3405); (3426,3427); (3457,3457); (3530,3530); (3538,3540); (3542,3542); (3633,3633);
   (3636,3642); (3654,3662); (3761,3761); (3764,3772); (3782,3782); (3784,3789); (3864,3865);
   (3893,3893); (3895,3895); (3897,3897); (3953,3966); (3968,3972); (3974,3975); (3981,3991);
   (3993,4028); (4038,4038); (4141,4144); (4146,4151); (4153,4154); (4157,4158); (4184,4185);
   (4190,4192); (4209,4212); (4226,4226); (4229,4230); (4237,4237); (4253,4253); (4348,4348);
   (4957,4959); (5906,5908); (5938,5939); (5970,5971); (6002,6003); (6068,6069); (6071,6077);
   (6086,6086); (6089,6099); (6103,6103); (6109,6109); (6155,6159); (6211,6211); (6277,6278);
   (6313,6313); (6432,6434); (6439,6440); (6450,6450); (6457,6459); (6679,6680); (6683,6683);
   (6742,6742); (6744,6750); (6752,6752); (6754,6754); (6757,6764); (6771,6780); (6783,6783);
   (6823,6823); (6832,6862); (6912,6915); (6964,6964); (6966,6970); (6972,6972); (6978,6978);
   (7019,7027); (7040,7041); (7074,7077); (7080,7081); (7083,7085); (7142,7142); (7144,7145);
   (7149,7149); (7151,7153); (7212,7219); (7222,7223); (7288,7293); (7376,7378); (7380,7392);
   (7394,7400); (7405,7405); (7412,7412); (7416,7417); (7468,7530); (7544,7544); (7579,7679);
   (8125,8125); (8127,8129); (8141,8143); (8157,8159); (8173,8175); (8189,8190); (8203,8207);
   (8216,8217); (8228,8228); (8231,8231); (8234,8238); (8288,8292); (8294,8303); (8305,8305);
   (8319,8319); (8336,8348); (8400,8432); (11388,11389); (11503,11505); (11631,11631);
   (11647,11647); (11744,11775); (11823,11823); (12293,12293); (12330,12333); (12337,12341);
   (12347,12347); (12441,12446); (12540,12542); (40981,40981); (42232,42237); (42508,42508);
   (42607,42610); (42612,42621); (42623,42623); (42652,42655); (42736,42737); (42752,42785);
   (42864,42864); (42888,42890); (42994,42996); (43000,43001); (43010,43010); (43014,43014);
   (43019,43019); (43045,43046); (43052,43052); (43204,43205); (43232,43249); (43263,43263);
   (43302,43309); (43335,43345); (43392,43394); (43443,43443); (43446,43449); (43452,43453);
   (43471,43471); (43493,43494); (43561,43566); (43569,43570); (43573,43574); (43587,43587);
   (43596,43596); (43632,43632); (43644,43644); (43696,43696); (43698,43700); (43703,43704);
   (43710,43711); (43713,43713); (43741,43741); (43756,43757); (43763,43764); (43766,43766);
   (43867,43871); (43881,43883); (44005,44005); (44008,44008); (44013,44013); (64286,64286);
   (64434,64450); (65024,65039); (65043,65043); (65056,65071); (65106,65106); (65109,65109);
   (65279,65279); (65287,65287); (65294,65294); (65306,65306); (65342,65342); (65344,65344);
   (65392,65392); (65438,65439); (65507,65507); (65529,65531); (66045,66045); (66272,66272);
   (66422,66426); (67456,67461); (67463,67504); (67506,67514); (68097,68099); (68101,68102);
   (68108,68111); (68152,68154); (68159,68159); (68325,68326); (68900,68903); (69291,69292);
   (69446,69456); (69506,69509); (69633,69633); (69688,69702); (69744,69744); (69747,69748);
   (69759,69761); (69811,69814); (69817,69818); (69821,69821); (69826,69826); (69837,69837);
   (69888,69890); (69927,69931); (69933,69940); (70003,70003); (70016,70017); (70070,70078);
   (70089,70092); (70095,70095); (70191,70193); (70196,70196); (70198,70199); (70206,70206);
   (70367,70367); (70371,70378); (70400,70401); (70459,70460); (70464,70464); (70502,70508);
   (70512,70516); (70712,70719); (70722,70724); (70726,70726); (70750,70750); (70835,70840);
   (70842,70842); (70847,70848); (70850,70851); (71090,71093); (71100,71101); (71103,71104);
   (71132,71133); (71219,71226); (71229,71229); (71231,71232); (71339,71339); (71341,71341);
   (71344,71349); (71351,71351); (71453,71455); (71458,71461); (71463,71467); (71727,71735);
   (71737,71738); (71995,71996); (71998,71998); (72003,72003); (72148,72151); (72154,72155);
   (72160,72160); (72193,72202); (72243,72248); (72251,72254); (72263,72263); (72273,72278);
   (72281,72283); (72330,72342); (72344,72345); (72752,72758); (72760,72765); (72767,72767);
   (72850,72871); (72874,72880); (72882,72883); (72885,72886); (73009,73014); (73018,73018);
   (73020,73021); (73023,73029); (73031,73031); (73104,73105); (73109,73109); (73111,73111);
   (73459,73460); (78896,78904); (92912,92916); (92976,92982); (92992,92995); (94031,94031);
   (94095,94111); (94176,94177); (94179,94180); (110576,110579); (110581,110587);
   (110589,110590); (113821,113822); (113824,113827); (118528,118573); (118576,118598);
   (119143,119145); (119155,119170); (119173,119179); (119210,119213); (119362,119364);
   (121344,121398); (121403,121452); (121461,121461); (121476,121476); (121499,121503);
   (121505,121519); (122880,122886); (122888,122904); (122907,122913); (122915,122916);
   (122918,122922); (123184,123197); (123566,123566); (123628,123631); (125136,125142);
   (125252,125259); (127995,127999); (917505,917505); (917536,917631); (917760,917999)]%N.

Definition lower_runs : list (N * N * N * N) :=
  [(65,90,1,97); (192,214,1,224); (216,222,1,248); (256,302,2,257); (306,310,2,307);
   (313,327,2,314); (330,374,2,331); (376,376,1,255); (377,381,2,378); (385,385,1,595);
   (386,388,2,387); (390,390,1,596); (391,391,1,392); (393,394,1,598); (395,395,1,396);
   (398,398,1,477); (399,399,1,601); (400,400,1,603); (401,401,1,402); (403,403,1,608);
   (404,404,1,611); (406,406,1,617); (407,407,1,616); (408,408,1,409); (412,412,1,623);
   (413,413,1,626); (415,415,1,629); (416,420,2,417); (422,422,1,640); (423,423,1,424);
   (425,425,1,643); (428,428,1,429); (430,430,1,648); (431,431,1,432); (433,434,1,650);
   (435,437,2,436); (439,439,1,658); (440,440,1,441); (444,444,1,445); (452,452,1,454);
   (453,453,1,454); (455,455,1,457); (456,456,1,457); (458,458,1,460); (459,475,2,460);
   (478,494,2,479); (497,497,1,499); (498,500,2,499); (502,502,1,405); (503,503,1,447);
   (504,542,2,505); (544,544,1,414); (546,562,2,547); (570,570,1,11365); (571,571,1,572);
   (573,573,1,410); (574,574,1,11366); (577,577,1,578); (579,579,1,384); (580,580,1,649);
   (581,581,1,652); (582,590,2,583); (880,882,2,881); (886,886,1,887); (895,895,1,1011);
   (902,902,1,940); (904,906,1,941); (908,908,1,972); (910,911,1,973); (913,929,1,945);
   (931,939,1,963); (975,975,1,983); (984,1006,2,985); (1012,1012,1,952); (1015,1015,1,1016);
   (1017,1017,1,1010); (1018,1018,1,1019); (1021,1023,1,891); (1024,1039,1,1104);
   (1040,1071,1,1072); (1120,1152,2,1121); (1162,1214,2,1163); (1216,1216,1,1231);
   (1217,1229,2,1218); (1232,1326,2,1233); (1329,1366,1,1377); (4256,4293,1,11520);
   (4295,4295,1,11559); (4301,4301,1,11565); (5024,5103,1,43888); (5104,5109,1,5112);
   (7312,7354,1,4304); (7357,7359,1,4349); (7680,7828,2,7681); (7838,7838,1,223);
   (7840,7934,2,7841); (7944,7951,1,7936); (7960,7965,1,7952); (7976,7983,1,7968);
   (7992,7999,1,7984); (8008,8013,1,8000); (8025,8031,2,8017); (8040,8047,1,8032);
   (8072,8079,1,8064); (8088,8095,1,8080); (8104,8111,1,8096); (8120,8121,1,8112);
   (8122,8123,1,8048); (8124,8124,1,8115); (8136,8139,1,8050); (8140,8140,1,8131);
   (8152,8153,1,8144); (8154,8155,1,8054); (8168,8169,1,8160); (8170,8171,1,8058);
   (8172,8172,1,8165); (8184,8185,1,8056); (8186,8187,1,8060); (8188,8188,1,8179);
   (8486,8486,1,969); (8490,8490,1,107); (8491,8491,1,229); (8498,8498,1,8526);
   (8544,8559,1,8560); (8579,8579,1,8580); (9398,9423,1,9424); (11264,11311,1,11312);
   (11360,11360,1,11361); (11362,11362,1,619); (11363,11363,1,7549); (11364,11364,1,637);
   (11367,11371,2,11368); (11373,11373,1,593); (11374,11374,1,625); (11375,11375,1,592);
   (11376,11376,1,594); (11378,11378,1,11379); (11381,11381,1,11382); (11390,11391,1,575);
   (11392,11490,2,11393); (11499,11501,2,11500); (11506,11506,1,11507); (42560,42604,2,42561);
   (42624,42650,2,42625); (42786,42798,2,42787); (42802,42862,2,42803); (42873,42875,2,42874);
   (42877,42877,1,7545); (42878,42886,2,42879); (42891,42891,1,42892); (42893,42893,1,613);
   (42896,42898,2,42897); (42902,42920,2,42903); (42922,42922,1,614); (42923,42923,1,604);
   (42924,42924,1,609); (42925,42925,1,620); (42926,42926,1,618); (42928,42928,1,670);
   (42929,42929,1,647); (42930,42930,1,669); (42931,42931,1,43859); (42932,42946,2,42933);
   (42948,42948,1,42900); (42949,42949,1,642); (42950,42950,1,7566); (42951,42953,2,42952);
   (42960,42960,1,42961); (42966,42968,2,42967); (42997,42997,1,42998); (65313,65338,1,65345);
   (66560,66599,1,66600); (66736,66771,1,66776); (66928,66938,1,66967); (66940,66954,1,66979);
   (66956,66962,1,66995); (66964,66965,1,67003); (68736,68786,1,68800); (71840,71871,1,71872);
   (93760,93791,1,93792); (125184,125217,1,125218)]%N.

Definition lower_full : list (N * list N) :=
  [(304,[105;775])]%N.

Definition title_runs : list (N * N * N * N) :=
  [(97,122,1,65); (181,181,1,924); (224,246,1,192); (248,254,1,216); (255,255,1,376);
   (257,303,2,256); (305,305,1,73); (307,311,2,306); (314,328,2,313); (331,375,2,330);
   (378,382,2,377); (383,383,1,83); (384,384,1,579); (387,389,2,386); (392,392,1,391);
   (396,396,1,395); (402,402,1,401); (405,405,1,502); (409,409,1,408); (410,410,1,573);
   (414,414,1,544); (417,421,2,416); (424,424,1,423); (429,429,1,428); (432,432,1,431);
   (436,438,2,435); (441,441,1,440); (445,445,1,444); (447,447,1,503); (452,452,1,453);
   (454,454,1,453); (455,455,1,456); (457,457,1,456); (458,458,1,459); (460,476,2,459);
   (477,477,1,398); (479,495,2,478); (497,497,1,498); (499,501,2,498); (505,543,2,504);
   (547,563,2,546); (572,572,1,571); (575,576,1,11390); (578,578,1,577); (583,591,2,582);
   (592,592,1,11375); (593,593,1,11373); (594,594,1,11376); (595,595,1,385); (596,596,1,390);
   (598,599,1,393); (601,601,1,399); (603,603,1,400); (604,604,1,42923); (608,608,1,403);
   (609,609,1,42924); (611,611,1,404); (613,613,1,42893); (614,614,1,42922); (616,616,1,407);
   (617,617,1,406); (618,618,1,42926); (619,619,1,11362); (620,620,1,42925); (623,623,1,412);
   (625,625,1,11374); (626,626,1,413); (629,629,1,415); (637,637,1,11364); (640,640,1,422);
   (642,642,1,42949); (643,643,1,425); (647,647,1,42929); (648,648,1,430); (649,649,1,580);
   (650,651,1,433); (652,652,1,581); (658,658,1,439); (669,669,1,42930); (670,670,1,42928);
   (837,837,1,921); (881,883,2,880); (887,887,1,886); (891,893,1,1021); (940,940,1,902);
   (941,943,1,904); (945,961,1,913); (962,962,1,931); (963,971,1,931); (972,972,1,908);
   (973,974,1,910); (976,976,1,914); (977,977,1,920); (981,981,1,934); (982,982,1,928);
   (983,983,1,975); (985,1007,2,984); (1008,1008,1,922); (1009,1009,1,929);
   (1010,1010,1,1017); (1011,1011,1,895); (1013,1013,1,917); (1016,1016,1,1015);
   (1019,1019,1,1018); (1072,1103,1,1040); (1104,1119,1,1024); (1121,1153,2,1120);
   (1163,1215,2,1162); (1218,1230,2,1217); (1231,1231,1,1216); (1233,1327,2,1232);
   (1377,1414,1,1329); (5112,5117,1,5104); (7296,7296,1,1042); (7297,7297,1,1044);
   (7298,7298,1,1054); (7299,7300,1,1057); (7301,7301,1,1058); (7302,7302,1,1066);
   (7303,7303,1,1122); (7304,7304,1,42570); (7545,7545,1,42877); (7549,7549,1,11363);
   (7566,7566,1,42950); (7681,7829,2,7680); (7835,7835,1,7776); (7841,7935,2,7840);
   (7936,7943,1,7944); (7952,7957,1,7960); (7968,7975,1,7976); (7984,7991,1,7992);
   (8000,8005,1,8008); (8017,8023,2,8025); (8032,8039,1,8040); (8048,8049,1,8122);
   (8050,8053,1,8136); (8054,8055,1,8154); (8056,8057,1,8184); (8058,8059,1,8170);
   (8060,8061,1,8186); (8064,8071,1,8072); (8080,8087,1,8088); (8096,8103,1,8104);
   (8112,8113,1,8120); (8115,8115,1,8124); (8126,8126,1,921); (8131,8131,1,8140);
   (8144,8145,1,8152); (8160,8161,1,8168); (8165,8165,1,8172); (8179,8179,1,8188);
   (8526,8526,1,8498); (8560,8575,1,8544); (8580,8580,1,8579); (9424,9449,1,9398);
   (11312,11359,1,11264); (11361,11361,1,11360); (11365,11365,1,570); (11366,11366,1,574);
   (11368,11372,2,11367); (11379,11379,1,11378); (11382,11382,1,11381); (11393,11491,2,11392);
   (11500,11502,2,11499); (11507,11507,1,11506); (11520,11557,1,4256); (11559,11559,1,4295);
   (11565,11565,1,4301); (42561,42605,2,42560); (42625,42651,2,42624); (42787,42799,2,42786);
   (42803,42863,2,42802); (42874,42876,2,42873); (42879,42887,2,42878); (42892,42892,1,42891);
   (42897,42899,2,42896); (42900,42900,1,42948); (42903,42921,2,42902); (42933,42947,2,42932);
   (42952,42954,2,42951); (42961,42961,1,42960); (42967,42969,2,42966); (42998,42998,1,42997);
   (43859,43859,1,42931); (43888,43967,1,5024); (65345,65370,1,65313); (66600,66639,1,66560);
   (66776,66811,1,66736); (66967,66977,1,66928); (66979,66993,1,66940); (66995,67001,1,66956);
   (67003,67004,1,66964); (68800,68850,1,68736); (71872,71903,1,71840); (93792,93823,1,93760);
   (125218,125251,1,125184)]%N.

Definition title_full : list (N * list N) :=
  [(223,[83;115]); (329,[700;78]); (496,[74;780]); (912,[921;776;769]); (944,[933;776;769]);
   (1415,[1333;1410]); (7830,[72;817]); (7831,[84;776]); (7832,[87;778]); (7833,[89;778]);
   (7834,[65;702]); (8016,[933;787]); (8018,[933;787;768]); (8020,[933;787;769]);
   (8022,[933;787;834]); (8114,[8122;837]); (8116,[902;837]); (8118,[913;834]);
   (8119,[913;834;837]); (8130,[8138;837]); (8132,[905;837]); (8134,[919;834]);
   (8135,[919;834;837]); (8146,[921;776;768]); (8147,[921;776;769]); (8150,[921;834]);
   (8151,[921;776;834]); (8162,[933;776;768]); (8163,[933;776;769]); (8164,[929;787]);
   (8166,[933;834]); (8167,[933;776;834]); (8178,[8186;837]); (8180,[911;837]);
   (8182,[937;834]); (8183,[937;834;837]); (64256,[70;102]); (64257,[70;105]);
   (64258,[70;108]); (64259,[70;102;105]); (64260,[70;102;108]); (64261,[83;116]);
   (64262,[83;116]); (64275,[1348;1398]); (64276,[1348;1381]); (64277,[1348;1387]);
   (64278,[1358;1398]); (64279,[1348;1389])]%N.

Definition in_ranges (table : list (N * N)) (c : N) : bool :=
  existsb (fun r => (fst r <=? c)%N && (c <=? snd r)%N) table.

(** [Py_UNICODE_ISDECIMAL]: general category Nd. *)
Definition isdecimal (c : N) : bool := in_ranges decimal_ranges c.

(** [Py_UNICODE_ISDIGIT]: numeric type Decimal or Digit. *)
Definition isdigit (c : N) : bool := in_ranges digit_ranges c.

(** [Py_UNICODE_ISALPHA]: general categories Lu, Ll, Lt, Lm, Lo. *)
Definition isalpha (c : N) : bool := in_ranges alpha_ranges c.

Definition iscased (c : N) : bool := in_ranges cased_ranges c.

Definition iscaseignorable (c : N) : bool := in_ranges case_ignorable_ranges c.

(** [Py_UNICODE_TODECIMAL] on a decimal character: every block of decimal
    digits is a run of ten code points in increasing value. *)
Definition todecimal (c : N) : N :=
  match find (fun r => (fst r <=? c)%N && (c <=? snd r)%N) decimal_ranges with
  | Some r => ((c - fst r) mod 10)%N
  | None => 0%N
  end.

Definition in_run (c : N) (r : N * N * N * N) : bool :=
  let '(lo, hi, step, _) := r in
  (lo <=? c)%N && (c <=? hi)%N && (((c - lo) mod step) =? 0)%N.

Definition case_map (runs : list (N * N * N * N)) (full : list (N * list N))
                    (c : N) : list N :=
  match find (fun e => (fst e =? c)%N) full with
  | Some e => snd e
  | None =>
      match find (in_run c) runs with
      | Some (lo, _, _, img) => [(img + (c - lo))%N]
      | None => [c]
      end
  end.

(** [_PyUnicode_ToLowerFull] and [_PyUnicode_ToTitleFull]. *)
Definition tolower_full : N -> list N := case_map lower_runs lower_full.
Definition totitle_full : N -> list N := case_map title_runs title_full.

End Unicode.

(** ** Methods of [str] *)

(** [s.isalpha()]: every character alphabetic, and at least one character. *)
Definition isalpha (s : str) : bool :=
  negb (Nat.eqb (List.length s) 0) && forallb Unicode.isalpha s.

(** [s.isdigit()]: every character a digit, and at least one character. *)
Definition isdigit (s : str) : bool :=
  negb (Nat.eqb (List.length s) 0) && forallb Unicode.isdigit s.

(** [handle_capital_sigma] of [unicodeobject.c]: the lower case of U+03A3
    is the final sigma U+03C2 when a cased letter precedes it and none
    follows it, case-ignorable characters skipped on both sides.  [before]
    holds the characters to the left, nearest first. *)
Fixpoint skip_ignorable (s : str) : option N :=
  match s with
  | [] => None
  | c :: s' => if Unicode.iscaseignorable c then skip_ignorable s' else Some c
  end.

Definition handle_capital_sigma (before after : str) : N :=
  let cased_at o := match o with Some c => Unicode.iscased c | None => false end in
  if cased_at (skip_ignorable before) && negb (cased_at (skip_ignorable after))
  then 962%N else 963%N.

Definition lower_ucs4 (before : str) (c : N) (after : str) : list N :=
  if (c =? 931)%N then [handle_capital_sigma before after]
  else Unicode.tolower_full c.

(** [do_title]: a character that follows a cased character is lowered, any
    other is mapped to title case. *)
Fixpoint do_title (before : str) (previous_is_cased : bool) (s : str) : str :=
  match s with
  | [] => []
  | c :: s' =>
      (if previous_is_cased then lower_ucs4 before c s' else Unicode.totitle_full c)
      ++ do_title (c :: before) (Unicode.iscased c) s'
  end.

(** [s.title()]. *)
Definition title (s : str) : str := do_title [] false s.

(** [sep.join(parts)]. *)
Fixpoint join (sep : str) (parts : list str) : str :=
  match parts with
  | [] => []
  | [p] => p
  | p :: rest => p ++ sep ++ join sep rest
  end.

(** ** Exceptions

    The classes the program can meet.  [JSONDecodeError] and
    [UnicodeDecodeError] are subclasses of [ValueError]; [OSError] stands for
    the subclasses of [OSError] other than [FileNotFoundError], such as
    [PermissionError] and [IsADirectoryError].  The specification calls the
    [ValueError] of a validator a validation error, and the [KeyError] of a
    missing key "key not found". *)

Inductive exn : Type :=
| ValueError (msg : string)
| JSONDecodeError
| UnicodeDecodeError
| KeyError (key : str)
| TypeError
| AttributeError
| FileNotFoundError
| OSError
| RecursionError
| OverflowError.

Inductive result (A : Type) : Type :=
| Val (a : A)
| Raise (e : exn).

Arguments Raise {A} e.

Definition bind {A B : Type} (r : result A) (k : A -> result B) : result B :=
  match r with
  | Val a => k a
  | Raise e => Raise e
  end.

Notation "x <- c ;; k" := (bind c (fun x => k))
  (at level 61, c at next level, right associativity).

(** [except ValueError] handles the class and its subclasses. *)
Definition is_ValueError (e : exn) : bool :=
  match e with
  | ValueError _ | JSONDecodeError | UnicodeDecodeError => true
  | _ => false
  end.

(** ** Python objects

    The objects that reach the program: text typed by the user and whatever
    [json.load] builds.  A float is kept as its binary64 bit pattern; no
    arithmetic is done on it.  A [dict] keeps its keys in insertion order. *)

Definition dict (V : Type) : Type := list (str * V).

#[warnings="-register-all"]
Inductive pyval : Type :=
| PyNone
| PyBool (b : bool)
| PyInt (z : Z)
| PyFloat (bits : N)
| PyStr (s : str)
| PyList (l : list pyval)
| PyDict (d : list (str * pyval)).

(** [d.get(key)]. *)
Fixpoint dict_get {V : Type} (key : str) (d : dict V) : option V :=
  match d with
  | [] => None
  | (k, v) :: d' => if str_eqb k key then Some v else dict_get key d'
  end.

(** [d[key] = value]: a present key keeps its place, a new one goes last. *)
Fixpoint dict_set {V : Type} (key : str) (value : V) (d : dict V) : dict V :=
  match d with
  | [] => [(key, value)]
  | (k, v) :: d' =>
      if str_eqb k key then (k, value) :: d' else (k, v) :: dict_set key value d'
  end.

(** The entries left by [del d[key]]. *)
Fixpoint dict_remove {V : Type} (key : str) (d : dict V) : dict V :=
  match d with
  | [] => []
  | (k, v) :: d' => if str_eqb k key then d' else (k, v) :: dict_remove key d'
  end.

Definition dict_keys {V : Type} (d : dict V) : list str := map fst d.
Definition dict_values {V : Type} (d : dict V) : list V := map snd d.

(** Truth value of an object in [if x:]. *)
Definition truthy (v : pyval) : bool :=
  match v with
  | PyNone => false
  | PyBool b => b
  | PyInt z => negb (z =? 0)%Z
  | PyFloat bits => negb (N.land bits (2 ^ 63 - 1) =? 0)%N
  | PyStr s => negb (Nat.eqb (List.length s) 0)
  | PyList l => negb (Nat.eqb (List.length l) 0)
  | PyDict d => negb (Nat.eqb (List.length d) 0)
  end.

(** [len(v)]. *)
Definition py_len (v : pyval) : result nat :=
  match v with
  | PyStr s => Val (List.length s)
  | PyList l => Val (List.length l)
  | PyDict d => Val (List.length d)
  | _ => Raise TypeError
  end.

(** The objects [for x in v] goes through. *)
Definition py_iter (v : pyval) : result (list pyval) :=
  match v with
  | PyStr s => Val (map (fun c => PyStr [c]) s)
  | PyList l => Val l
  | PyDict d => Val (map (fun kv => PyStr (fst kv)) d)
  | _ => Raise TypeError
  end.

(** [v[key]] for a text key. *)
Definition py_getitem (v : pyval) (key : str) : result pyval :=
  match v with
  | PyDict d =>
      match dict_get key d with
      | Some x => Val x
      | None => Raise (KeyError key)
      end
  | _ => Raise TypeError
  end.

(** [v.items()]. *)
Definition py_items (v : pyval) : result (list (str * pyval)) :=
  match v with
  | PyDict d => Val d
  | _ => Raise AttributeError
  end.

(** ** Regular expressions, as [_strptime] uses them *)

Module Re.

Inductive re : Type :=
| Class (p : N -> bool)
| Cat (r1 r2 : re)
| Alt (r1 r2 : re).

(** Every way [r] matches at the start of [s], as (matched text, rest), in
    the order a backtracking matcher tries them: the left branch of an
    alternation first. *)
Fixpoint matches (r : re) (s : str) : list (str * str) :=
  match r with
  | Class p =>
      match s with
      | c :: s' => if p c then [([c], s')] else []
      | [] => []
      end
  | Cat r1 r2 =>
      flat_map (fun m1 =>
                  map (fun m2 => (fst m1 ++ fst m2, snd m2)) (matches r2 (snd m1)))
               (matches r1 s)
  | Alt r1 r2 => matches r1 s ++ matches r2 s
  end.

Definition chr (a : ascii) : re := Class (N.eqb (N_of_ascii a)).

Definition range (a b : ascii) : re :=
  Class (fun c => (N_of_ascii a <=? c)%N && (c <=? N_of_ascii b)%N).

(** [\d] in a text pattern: any decimal digit of Unicode. *)
Definition digit : re := Class Unicode.isdecimal.

End Re.

(** ** [datetime] *)

Module datetime.

Definition MINYEAR : Z := 1.
Definition MAXYEAR : Z := 9999.

Definition is_leap (year : Z) : bool :=
  ((year mod 4 =? 0) && (negb (year mod 100 =? 0) || (year mod 400 =? 0)))%Z.

Definition days_in_month (year month : Z) : Z :=
  if (month =? 2)%Z then (if is_leap year then 29 else 28)%Z
  else if ((month =? 4) || (month =? 6) || (month =? 9) || (month =? 11))%Z then 30%Z
  else 31%Z.

Definition days_before_year (year : Z) : Z :=
  let y := (year - 1)%Z in (y * 365 + y / 4 - y / 100 + y / 400)%Z.

Definition DAYS_BEFORE_MONTH : list Z :=
  [0; 0; 31; 59; 90; 120; 151; 181; 212; 243; 273; 304; 334]%Z.

Definition days_before_month (year month : Z) : Z :=
  (nth (Z.to_nat month) DAYS_BEFORE_MONTH 0 +
   (if (2 <? month) && is_leap year then 1 else 0))%Z.

(** [_ymd2ord]: the day number of a date, 1 for 1 January of year 1. *)
Definition ymd2ord (year month day : Z) : Z :=
  (days_before_year year + days_before_month year month + day)%Z.

Definition MAXORDINAL : Z := 3652059.

(** A [datetime] without time zone is a day of the proleptic Gregorian
    calendar and a time of that day.  It is kept as the day number
    ([toordinal]) and the microseconds since midnight: Python orders two of
    them field by field from the year down, which is the order of these
    pairs, and adds a [timedelta] through the day number. *)
Record t : Type := mk { ordinal : Z; microsecond : Z }.

Definition DAY : Z := 86400000000.

(** [_check_date_fields]. *)
Definition check_date_fields (year month day : Z) : result unit :=
  if negb ((MINYEAR <=? year) && (year <=? MAXYEAR))%Z
  then Raise (ValueError "year is out of range")
  else if negb ((1 <=? month) && (month <=? 12))%Z
  then Raise (ValueError "month must be in 1..12")
  else if negb ((1 <=? day) && (day <=? days_in_month year month))%Z
  then Raise (ValueError "day is out of range for month")
  else Val tt.

(** [datetime(year, month, day)]: midnight of that day. *)
Definition of_date (year month day : Z) : result t :=
  _ <- check_date_fields year month day ;;
  Val (mk (ymd2ord year month day) 0).

(** [datetime(year, month, day, hour, minute, second)]. *)
Definition of_fields (year month day hour minute second : Z) : result t :=
  _ <- check_date_fields year month day ;;
  if ((0 <=? hour) && (hour <? 24) && (0 <=? minute) && (minute <? 60)
      && (0 <=? second) && (second <? 60))%Z
  then Val (mk (ymd2ord year month day)
               (((hour * 60 + minute) * 60 + second) * 1000000))
  else Raise (ValueError "time field out of range").

(** [a <= b]. *)
Definition le (a b : t) : bool :=
  ((ordinal a <? ordinal b)
   || ((ordinal a =? ordinal b) && (microsecond a <=? microsecond b)))%Z.

(** [d + timedelta(days=n)]. *)
Definition add_days (d : t) (n : Z) : result t :=
  if ((0 <? ordinal d + n) && (ordinal d + n <=? MAXORDINAL))%Z
  then Val (mk (ordinal d + n) (microsecond d))
  else Raise OverflowError.

(** The value [datetime.today()] can return. *)
Definition wf (d : t) : Prop :=
  (1 <= ordinal d <= MAXORDINAL /\ 0 <= microsecond d < DAY)%Z.

(** *** [datetime.strptime(data_string, "%d/%m/%Y")] *)

Import Re.

(** [%d]: [3[0-1]|[1-2]\d|0[1-9]|[1-9]| [1-9]]. *)
Definition directive_d : re :=
  Alt (Cat (chr "3") (range "0" "1"))
 (Alt (Cat (range "1" "2") digit)
 (Alt (Cat (chr "0") (range "1" "9"))
 (Alt (range "1" "9")
      (Cat (chr " ") (range "1" "9"))))).

(** [%m]: [1[0-2]|0[1-9]|[1-9]]. *)
Definition directive_m : re :=
  Alt (Cat (chr "1") (range "0" "2"))
 (Alt (Cat (chr "0") (range "1" "9"))
      (range "1" "9")).

(** [%Y]: [\d\d\d\d]. *)
Definition directive_Y : re := Cat digit (Cat digit (Cat digit digit)).

(** The pattern [(?P<d>...)/(?P<m>...)/(?P<Y>...)] on [data_string]: the
    groups and the unmatched rest of every match, in the order a
    backtracking search meets them. *)
Definition format_regex_matches (data_string : str) : list (str * str * str * str) :=
  flat_map (fun d =>
  flat_map (fun s1 =>
  flat_map (fun m =>
  flat_map (fun s2 =>
  map (fun y => (fst d, fst m, fst y, snd y))
      (matches directive_Y (snd s2)))
      (matches (chr "/") (snd m)))
      (matches directive_m (snd s1)))
      (matches (chr "/") (snd d)))
      (matches directive_d data_string).

(** [format_regex.match(data_string)]: the first of them. *)
Definition format_regex_match (data_string : str) : option (str * str * str * str) :=
  hd_error (format_regex_matches data_string).

(** [int(text)] on the text of a group: decimal digits of any script, after
    blanks that [int] ignores. *)
Fixpoint lstrip (s : str) : str :=
  match s with
  | c :: s' => if (c =? 32)%N then lstrip s' else s
  | [] => []
  end.

Definition int (s : str) : Z :=
  fold_left (fun acc c => (10 * acc + Z.of_N (Unicode.todecimal c))%Z) (lstrip s) 0%Z.

Definition strptime (data_string : pyval) : result t :=
  match data_string with
  | PyStr s =>
      match format_regex_match s with
      | None => Raise (ValueError "time data does not match format")
      | Some (d, m, y, rest) =>
          if negb (Nat.eqb (List.length rest) 0)
          then Raise (ValueError "unconverted data remains")
          else of_date (int y) (int m) (int d)
      end
  | _ => Raise TypeError
  end.

End datetime.

(** * The program *)

(** ** [Field] and its subclasses

    A [Field] wraps one value.  [validate] either raises or lets the value
    through; a value that gets through is text in each of the three
    subclasses, and the embedding returns that text where Python returns
    [None], so that a record can hold its fields as text. *)

Module Field.

(** [Field.__str__] on a field that holds text. *)
Definition to_str (value : str) : str := value.

End Field.

Module Name.

Definition validate (value : pyval) : result str :=
  match value with
  | PyStr s =>
      if negb (isalpha s)
      then Raise (ValueError "Name should contain only letters.")
      else Val s
  | _ => Raise AttributeError
  end.

End Name.

Module Phone.

Definition MESSAGE : string :=
  "Phone number must be 10 digits and contain only digits.".

Definition validate (value : pyval) : result str :=
  n <- py_len value ;;
  if negb (Nat.eqb n 10) then Raise (ValueError MESSAGE)
  else match value with
       | PyStr s => if negb (isdigit s) then Raise (ValueError MESSAGE) else Val s
       | _ => Raise AttributeError
       end.

End Phone.

Module Birthday.

Definition MESSAGE : string :=
  "Invalid birthday format. Please use DD/MM/YYYY.".

(** [strptime] returns for text only, so the second case never runs. *)
Definition validate (value : pyval) : result str :=
  match datetime.strptime value, value with
  | Val _, PyStr s => Val s
  | Val _, _ => Raise TypeError
  | Raise e, _ => if is_ValueError e then Raise (ValueError MESSAGE) else Raise e
  end.

End Birthday.

(** ** [Record] *)

Module Record.

Record t : Type := mk { name : str; phones : list str; birthday : option str }.

(** A method works on [self] and may raise after it has changed it: it
    yields its outcome and the object as the call leaves it. *)
Definition method (A : Type) : Type := t -> result A * t.

Definition ret {A : Type} (a : A) : method A := fun self => (Val a, self).

Definition seq {A B : Type} (m : method A) (k : A -> method B) : method B :=
  fun self =>
    match m self with
    | (Val a, self') => k a self'
    | (Raise e, self') => (Raise e, self')
    end.

Definition lift {A : Type} (r : result A) : method A := fun self => (r, self).

Notation "x <~ m ;; k" := (seq m (fun x => k))
  (at level 61, m at next level, right associativity).

(** [for x in xs: body(x)]. *)
Fixpoint for_each {A : Type} (body : A -> method unit) (xs : list A) : method unit :=
  match xs with
  | [] => ret tt
  | x :: xs' => _ <~ body x ;; for_each body xs'
  end.

Definition add_phone (phone : pyval) : method unit :=
  phone_obj <~ lift (Phone.validate phone) ;;
  fun self => (Val tt, mk (name self) (phones self ++ [phone_obj]) (birthday self)).

(** [ph.value == phone]: text equals text of the same characters only. *)
Definition value_eq (value : str) (phone : pyval) : bool :=
  match phone with
  | PyStr s => str_eqb value s
  | _ => false
  end.

Definition find_phone (phone : pyval) (self : t) : option str :=
  find (fun ph => value_eq ph phone) (phones self).

(** [self.phones.remove(ph)] for the object [find_phone] returned: each
    phone of a record is an object of its own, so the one removed is the
    first whose value is [phone]. *)
Fixpoint list_remove (phone : pyval) (l : list str) : list str :=
  match l with
  | [] => []
  | ph :: l' => if value_eq ph phone then l' else ph :: list_remove phone l'
  end.

Definition remove_phone (phone : pyval) : method unit :=
  fun self =>
    match find_phone phone self with
    | Some _ => (Val tt, mk (name self) (list_remove phone (phones self)) (birthday self))
    | None => (Val tt, self)
    end.

Definition edit_phone (old_phone new_phone : pyval) : method unit :=
  _ <~ remove_phone old_phone ;;
  add_phone new_phone.

Definition add_birthday (birthday_ : pyval) : method unit :=
  birthday_obj <~ lift (Birthday.validate birthday_) ;;
  fun self => (Val tt, mk (name self) (phones self) (Some birthday_obj)).

Definition show_birthday (self : t) : str :=
  match birthday self with
  | Some b => b
  | None => u "No birthday set"
  end.

(** [Record.__str__]. *)
Definition to_str (self : t) : str :=
  u "Contact name: " ++ name self ++ u ", phones: "
    ++ join (u ", ") (map Field.to_str (phones self))
    ++ u ", Birthday: " ++ show_birthday self.

(** [Record(name, phones, birthday)]: an exception leaves no object. *)
Definition init (name_ phones_ birthday_ : pyval) : result t :=
  n <- Name.validate name_ ;;
  let body : method unit :=
    _ <~ (if truthy phones_
          then items <~ lift (py_iter phones_) ;; for_each add_phone items
          else ret tt) ;;
    if truthy birthday_ then add_birthday birthday_ else ret tt in
  match body (mk n [] None) with
  | (Val _, self) => Val self
  | (Raise e, _) => Raise e
  end.

End Record.

(** ** [AddressBook] *)

Module AddressBook.

(** [self.data]. *)
Definition t : Type := dict Record.t.

(** The file [self.filename], by what [open(self.filename, "r")] and
    [json.load] do with it.  The file is missing, or it is one of these:
    - [Refused]: a file, or something else under that name, that [open]
      does not open for reading ([PermissionError], [IsADirectoryError]),
      so that nothing is read from it;
    - [Undecodable]: bytes that are no text in the encoding of [open];
    - [NotJson]: text that is not JSON;
    - [Oversized]: JSON with an integer of more digits than [int] converts,
      which raises the interpreter's [ValueError], of message [msg];
    - [TooDeep]: JSON nested deeper than the recursion limit allows;
    - [Json]: JSON, read as the document [doc].
    [json.dump] and [json.load] are taken at the level of documents: what
    one writes the other reads back. *)
Inductive file : Type :=
| Refused
| Undecodable
| NotJson
| Oversized (msg : string)
| TooDeep
| Json (doc : pyval).

Definition storage : Type := option file.

(** [open(self.filename, "r")]. *)
Definition open_read (fs : storage) : result file :=
  match fs with
  | Some Refused => Raise OSError
  | Some f => Val f
  | None => Raise FileNotFoundError
  end.

(** [json.load(f)]: the text is read, which decodes it, and parsed. *)
Definition json_load (f : file) : result pyval :=
  match f with
  | Refused => Raise OSError
  | Undecodable => Raise UnicodeDecodeError
  | NotJson => Raise JSONDecodeError
  | Oversized msg => Raise (ValueError msg)
  | TooDeep => Raise RecursionError
  | Json doc => Val doc
  end.

(** [Record(v["name"], v["phones"], v["birthday"])]. *)
Definition entry_record (v : pyval) : result Record.t :=
  a <- py_getitem v (u "name") ;;
  b <- py_getitem v (u "phones") ;;
  c <- py_getitem v (u "birthday") ;;
  Record.init a b c.

(** [{k: Record(v["name"], v["phones"], v["birthday"]) for k, v in items}]. *)
Fixpoint comprehension (items : list (str * pyval)) (acc : t) : result t :=
  match items with
  | [] => Val acc
  | (k, v) :: rest =>
      r <- entry_record v ;;
      comprehension rest (dict_set k r acc)
  end.

Definition load (fs : storage) : result t :=
  let body :=
    f <- open_read fs ;;
    doc <- json_load f ;;
    items <- py_items doc ;;
    comprehension items [] in
  match body with
  | Raise FileNotFoundError | Raise JSONDecodeError => Val []
  | r => r
  end.

(** [default=lambda o: o.__dict__] on a field and on a record. *)
Definition field_dict (value : str) : pyval := PyDict [(u "value", PyStr value)].

Definition record_dict (r : Record.t) : pyval :=
  PyDict [(u "name", field_dict (Record.name r));
          (u "phones", PyList (map field_dict (Record.phones r)));
          (u "birthday", match Record.birthday r with
                         | Some b => field_dict b
                         | None => PyNone
                         end)].

(** [json.dump(self.data, f, default=..., indent=4)]: the document. *)
Definition json_dump (data : t) : pyval :=
  PyDict (map (fun kv => (fst kv, record_dict (snd kv))) data).

(** The file [json.dump] leaves. *)
Definition written (data : t) : storage := Some (Json (json_dump data)).

(** [save]: [open(self.filename, "w")] is refused, which raises [OSError]
    and leaves the file as it was, or it is granted, and the file is
    replaced by the dumped document, the writing once begun being
    completed. *)
Definition save (granted : bool) (data : t) (fs : storage) : result unit * storage :=
  if granted then (Val tt, written data) else (Raise OSError, fs).

Definition add_record (record : Record.t) (data : t) : t :=
  dict_set (Record.name record) record data.

Definition find (name : str) (data : t) : option Record.t :=
  let name := title name in
  dict_get name data.

(** [del self.data[name]]: the outcome and the book as the call leaves it. *)
Definition delete (name : str) (data : t) : result unit * t :=
  match dict_get name data with
  | Some _ => (Val tt, dict_remove name data)
  | None => (Raise (KeyError name), data)
  end.

(** [show_all]: the lines printed. *)
Definition show_all (data : t) : list str :=
  if negb (Nat.eqb (List.length data) 0)
  then map Record.to_str (dict_values data)
  else [u "No contacts found."].

(** The loop of [get_birthdays_per_week] over [self.data.values()]. *)
Fixpoint birthdays_loop (today next_week : datetime.t) (records : list Record.t)
                        (birthdays : list (str * str)) : result (list (str * str)) :=
  match records with
  | [] => Val birthdays
  | record :: rest =>
      match Record.birthday record with
      | Some b =>
          birthday_date <- datetime.strptime (PyStr b) ;;
          if datetime.le today birthday_date && datetime.le birthday_date next_week
          then birthdays_loop today next_week rest
                              (birthdays ++ [(Record.name record, b)])
          else birthdays_loop today next_week rest birthdays
      | None => birthdays_loop today next_week rest birthdays
      end
  end.

(** [get_birthdays_per_week], with the value [datetime.today()] returned. *)
Definition get_birthdays_per_week (today : datetime.t) (data : t)
  : result (list (str * str)) :=
  next_week <- datetime.add_days today 7 ;;
  birthdays_loop today next_week (dict_values data) [].

End AddressBook.

(** * Vocabulary of the properties *)

(** [sub in s]. *)
Definition contains (sub s : str) : Prop :=
  exists pre post, s = pre ++ sub ++ post.

(** A Python [dict] holds a key once. *)
Definition dict_wf {V : Type} (d : dict V) : Prop := NoDup (dict_keys d).

(** The outcome of a validator on text. *)
Definition accepted (validate : pyval -> result str) (s : str) : Prop :=
  validate (PyStr s) = Val s.

(** The invariant of a contact record. *)
Definition record_invariant (r : Record.t) : Prop :=
  accepted Name.validate (Record.name r)
  /\ Forall (accepted Phone.validate) (Record.phones r)
  /\ (forall b, Record.birthday r = Some b -> accepted Birthday.validate b).

Definition book_invariant (data : AddressBook.t) : Prop :=
  Forall record_invariant (dict_values data).

(** Every range of [small] lies inside a range of [big]. *)
Definition ranges_within (small big : list (N * N)) : bool :=
  forallb (fun r => existsb (fun r' => (fst r' <=? fst r)%N && (snd r <=? snd r')%N) big)
          small.

(** ** Phones *)

Definition ten_decimal_digits (s : str) : Prop :=
  List.length s = 10 /\ forallb Unicode.isdecimal s = true.

Definition ten_digits (s : str) : Prop :=
  List.length s = 10 /\ forallb Unicode.isdigit s = true.

(** The invariant of a contact record as the specification states it: a
    phone is valid when it is exactly ten characters, all decimal digits. *)
Definition record_invariant_as_stated (r : Record.t) : Prop :=
  accepted Name.validate (Record.name r)
  /\ Forall ten_decimal_digits (Record.phones r)
  /\ (forall b, Record.birthday r = Some b -> accepted Birthday.validate b).

(** Ten times SUPERSCRIPT TWO, U+00B2. *)
Definition superscript_twos : str := repeat 178%N 10.

(** ** Birthdays *)

(** The texts a regular expression stands for. *)
Fixpoint lang (r : Re.re) (m : str) : Prop :=
  match r with
  | Re.Class p => exists c, m = [c] /\ p c = true
  | Re.Cat r1 r2 => exists m1 m2, m = m1 ++ m2 /\ lang r1 m1 /\ lang r2 m2
  | Re.Alt r1 r2 => lang r1 m \/ lang r2 m
  end.

Definition between (lo hi : ascii) (c : N) : Prop :=
  (N_of_ascii lo <= c <= N_of_ascii hi)%N.

Definition SLASH : N := 47.

(** The texts [%d] and [%m] stand for. *)
Inductive day_text : str -> Prop :=
| day_thirty b : between "0" "1" b -> day_text [51%N; b]
| day_teens a b : between "1" "2" a -> Unicode.isdecimal b = true -> day_text [a; b]
| day_padded b : between "1" "9" b -> day_text [48%N; b]
| day_single b : between "1" "9" b -> day_text [b]
| day_blank b : between "1" "9" b -> day_text [32%N; b].

Inductive month_text : str -> Prop :=
| month_ten b : between "0" "2" b -> month_text [49%N; b]
| month_padded b : between "1" "9" b -> month_text [48%N; b]
| month_single b : between "1" "9" b -> month_text [b].

Definition year_text (y : str) : Prop :=
  List.length y = 4 /\ forallb Unicode.isdecimal y = true.

(** A day of the calendar [datetime] covers. *)
Definition real_date (year month day : Z) : Prop :=
  (1 <= year <= 9999 /\ 1 <= month <= 12
   /\ 1 <= day <= datetime.days_in_month year month)%Z.

(** The order of dates, field by field from the year down, as Python
    compares them. *)
Definition date_before (y m d y' m' d' : Z) : Prop :=
  (y < y' \/ (y = y' /\ (m < m' \/ (m = m' /\ d < d'))))%Z.

(** Text that reads as day/month/year of a real date. *)
Definition date_text (s : str) : Prop :=
  exists d m y,
    s = d ++ SLASH :: m ++ SLASH :: y
    /\ day_text d /\ month_text m /\ year_text y
    /\ real_date (datetime.int y) (datetime.int m) (datetime.int d).

(** The strict form DD/MM/YYYY: two digits, two digits, four digits. *)
Definition is_09 (c : N) : bool := (48 <=? c)%N && (c <=? 57)%N.

Definition strict_form (s : str) : bool :=
  match s with
  | [d1; d2; s1; m1; m2; s2; y1; y2; y3; y4] =>
      is_09 d1 && is_09 d2 && (s1 =? SLASH)%N && is_09 m1 && is_09 m2
      && (s2 =? SLASH)%N && is_09 y1 && is_09 y2 && is_09 y3 && is_09 y4
  | _ => false
  end.

(** ** The week of birthdays *)

(** The day number of a stored birthday. *)
Definition birthday_day (b : str) : option Z :=
  match datetime.strptime (PyStr b) with
  | Val d => Some (datetime.ordinal d)
  | Raise _ => None
  end.

(** The pair of a record whose birthday is on a day that [keep] selects. *)
Definition birthday_pair (keep : Z -> bool) (r : Record.t) : list (str * str) :=
  match Record.birthday r with
  | Some b =>
      match birthday_day b with
      | Some day => if keep day then [(Record.name r, b)] else []
      | None => []
      end
  | None => []
  end.

(** The pairs of the records of [data], in the order of the book, whose
    birthday is on a day that [keep] selects. *)
Definition birthdays_on (keep : Z -> bool) (data : AddressBook.t) : list (str * str) :=
  flat_map (birthday_pair keep) (dict_values data).

(** The days from today to today + 7, both included. *)
Definition days_of_week_from (today : datetime.t) (day : Z) : bool :=
  ((datetime.ordinal today <=? day) && (day <=? datetime.ordinal today + 7))%Z.

(** The days whose midnight is no earlier than the instant [today] and no
    later than seven days after it: today itself only at midnight sharp. *)
Definition midnights_of_week_from (today : datetime.t) (day : Z) : bool :=
  ((if (datetime.microsecond today =? 0) then datetime.ordinal today <=? day
    else datetime.ordinal today <? day)
   && (day <=? datetime.ordinal today + 7))%Z.

(** ** Sample data *)

Definition ones : str := u "1111111111".
Definition twos : str := u "2222222222".

Definition record_of (name : string) (phones : list string) (birthday : string)
  : result Record.t :=
  Record.init (PyStr (u name)) (PyList (map (fun p => PyStr (u p)) phones))
              (PyStr (u birthday)).

Definition book_of (records : list (result Record.t)) : AddressBook.t :=
  fold_left (fun data r => match r with
                           | Val record => AddressBook.add_record record data
                           | Raise _ => data
                           end) records [].

(** The book of the round-trip property. *)
Definition john_book : AddressBook.t :=
  book_of [record_of "John" ["1234567890"%string] "01/01/1990"].

(** Two contacts whose names differ in case only. *)
Definition johns_book : AddressBook.t :=
  book_of [record_of "john" ["1111111111"%string] "";
           record_of "John" ["2222222222"%string] ""].

(** A contact stored under a name in lower case. *)
Definition lower_book : AddressBook.t :=
  book_of [record_of "john" ["1111111111"%string] ""].

(** A stored entry, as [load] expects it. *)
Definition entry (name : pyval) (phones : pyval) (birthday : pyval) : pyval :=
  PyDict [(u "name", name); (u "phones", phones); (u "birthday", birthday)].


(** A contact born on 10 May 2024, and that day at 14:30. *)
Definition ann_book : AddressBook.t :=
  book_of [record_of "Ann" ["1234567890"%string] "10/05/2024"].

Definition afternoon : datetime.t :=
  datetime.mk (datetime.ymd2ord 2024 5 10) ((14 * 60 + 30) * 60 * 1000000).

(** ** Tactics *)

(** Facts behind a hypothesis that a class of characters holds. *)
Ltac class_facts :=
  repeat match goal with
         | H : exists _, _ |- _ => destruct H
         | H : _ /\ _ |- _ => destruct H
         | H : (_ && _)%bool = true |- _ => apply andb_true_iff in H
         | H : (_ =? _)%N = true |- _ => apply N.eqb_eq in H
         | H : (_ <=? _)%N = true |- _ => apply N.leb_le in H
         end.

(** Every way a text belongs to the language of a given expression. *)
Ltac lang_facts :=
  repeat match goal with
         | H : lang _ _ |- _ =>
             progress (cbv delta [Re.chr Re.range Re.digit] in H; cbn [lang] in H)
         | H : _ \/ _ |- _ => destruct H
         | _ => progress class_facts
         end.

(** A digit is no slash. *)
Ltac no_slash :=
  unfold between, SLASH in *; simpl in *;
  try lia;
  try match goal with
      | H : Unicode.isdecimal 47 = true |- _ => vm_compute in H; discriminate
      end.

(** * Vocabulary of the further properties *)

(** The letters of ASCII. *)
Definition ascii_letter (c : N) : bool :=
  ((65 <=? c) && (c <=? 90) || (97 <=? c) && (c <=? 122))%N.

(** The lower-case letters of ASCII. *)
Definition ascii_lower (c : N) : bool := ((97 <=? c) && (c <=? 122))%N.

(** What [Phone.validate] and [Birthday.validate] decide on text. *)
Definition valid_phone (p : str) : bool :=
  Nat.eqb (List.length p) 10 && forallb Unicode.isdigit p.

Definition valid_birthday (b : str) : bool :=
  match datetime.strptime (PyStr b) with
  | Val _ => true
  | Raise _ => false
  end.

(** The birthday argument that gives a record its birthday back. *)
Definition birthday_argument (birthday : option str) : pyval :=
  match birthday with
  | Some b => PyStr b
  | None => PyNone
  end.

(** The stored entry [load] expects for a record: its three fields as
    plain values. *)
Definition flat_entry (r : Record.t) : pyval :=
  entry (PyStr (Record.name r)) (PyList (map PyStr (Record.phones r)))
        (birthday_argument (Record.birthday r)).

Definition flat_document (data : AddressBook.t) : pyval :=
  PyDict (map (fun kv => (fst kv, flat_entry (snd kv))) data).

(** A book of two contacts, the second without a birthday. *)
Definition two_book : AddressBook.t :=
  book_of [record_of "Ann" ["1234567890"%string] "10/05/2024";
           record_of "Bob" ["1111111111"%string; "2222222222"%string] ""].

(** Whether the first of the given characters is a lower-case letter of
    ASCII. *)
Definition starts_lower (s : str) : bool :=
  match s with
  | c :: _ => ascii_lower c
  | [] => false
  end.

(** The exceptions [load] handles. *)
Definition handled_by_load (e : exn) : bool :=
  match e with
  | FileNotFoundError | JSONDecodeError => true
  | _ => false
  end.

(** The invariant of a record given in full, by evaluation. *)
Ltac check_record :=
  split;
  [ vm_compute; reflexivity
  | split;
    [ repeat (apply Forall_cons; [vm_compute; reflexivity|]); apply Forall_nil
    | intros b Hb; try discriminate; injection Hb as <-; vm_compute; reflexivity ] ].

(** The images of a run of a case mapping lie outside a-z. *)
Definition image_clear (r : N * N * N * N) : bool :=
  let '(lo, hi, _, img) := r in
  ((img + (hi - lo) <? 97) || (122 <? img))%N.


(** * The interactive shell

    [main] reads lines from the terminal and prints to it.  The lines to
    come are a list; what the program writes is a list of events; the clock
    is the list of values [datetime.today()] returns, call after call. *)

From Stdlib Require DecimalString.

Module Shell.

(** *** The methods of [str] and [int] that [main] calls *)

Definition whitespace_ranges : list (N * N) :=
  [(9,13); (28,32); (133,133); (160,160); (5760,5760); (8192,8202); (8232,8233);
   (8239,8239); (8287,8287); (12288,12288)]%N.

(** [Py_UNICODE_ISSPACE]. *)
Definition isspace (c : N) : bool := Unicode.in_ranges whitespace_ranges c.

Fixpoint lstrip (s : str) : str :=
  match s with
  | c :: s' => if isspace c then lstrip s' else s
  | [] => []
  end.

(** [s.strip()]. *)
Definition strip (s : str) : str := rev (lstrip (rev (lstrip s))).

(** [s.split(sep)] for a separator of one character. *)
Fixpoint split (sep : N) (s : str) : list str :=
  match s with
  | [] => [[]]
  | c :: s' =>
      if (c =? sep)%N then [] :: split sep s'
      else match split sep s' with
           | piece :: pieces => (c :: piece) :: pieces
           | [] => [[c]]
           end
  end.

(** [int(s)] reads [s] in two steps.  The first maps a blank beyond ASCII
    to a space and a decimal digit of any script to its ASCII digit, and
    gives up on any other character beyond ASCII. *)
Definition to_ascii (c : N) : option N :=
  if (c <? 127)%N then Some c
  else if isspace c then Some 32%N
  else if Unicode.isdecimal c then Some (48 + Unicode.todecimal c)%N
  else None.

Fixpoint transform (s : str) : option (list N) :=
  match s with
  | [] => Some []
  | c :: s' =>
      match to_ascii c, transform s' with
      | Some a, Some rest => Some (a :: rest)
      | _, _ => None
      end
  end.

(** [Py_ISSPACE]. *)
Definition ascii_isspace (c : N) : bool :=
  ((9 <=? c) && (c <=? 13) || (c =? 32))%N.

Fixpoint skip_spaces (s : list N) : list N :=
  match s with
  | c :: s' => if ascii_isspace c then skip_spaces s' else s
  | [] => []
  end.

Definition UNDERSCORE : N := 95.

(** The digits, with single underscores between them: the value read, the
    number of digits and the text left, or nothing for two underscores in a
    row or an underscore at the end. *)
Fixpoint scan (s : list N) (prev_underscore : bool) (value : Z) (digits : nat)
  : option (Z * nat * list N) :=
  let stop := if prev_underscore then None else Some (value, digits, s) in
  match s with
  | c :: s' =>
      if ((48 <=? c) && (c <=? 57))%N
      then scan s' false (10 * value + Z.of_N (c - 48))%Z (S digits)
      else if (c =? UNDERSCORE)%N
      then (if prev_underscore then None else scan s' true value digits)
      else stop
  | [] => stop
  end.

(** [sys.get_int_max_str_digits()]. *)
Definition MAX_STR_DIGITS : nat := 4300.

(** [int(s)]; [None] stands for its [ValueError], whose message [main]
    never reads. *)
Definition int (s : str) : option Z :=
  match transform s with
  | None => None
  | Some a =>
      let a := skip_spaces a in
      let '(negative, a) :=
        match a with
        | 43%N :: a' => (false, a')
        | 45%N :: a' => (true, a')
        | _ => (false, a)
        end in
      match a with
      | 95%N :: _ => None
      | _ =>
          match scan a false 0%Z 0 with
          | None => None
          | Some (value, digits, rest) =>
              if Nat.eqb digits 0 then None
              else if Nat.ltb MAX_STR_DIGITS digits then None
              else match skip_spaces rest with
                   | [] => Some (if negative then (- value)%Z else value)
                   | _ => None
                   end
          end
      end
  end.

(** [f"{idx}"] for a natural number. *)
Definition str_of_nat (n : nat) : str :=
  u (DecimalString.NilZero.string_of_uint (Nat.to_uint n)).

(** *** The terminal *)

Inductive event : Type :=
| Print (text : str)
| Prompt (text : str).

(** How [main] ends: the [break] of "exit", the [EOFError] of [input] when
    no line is left, or another exception that nothing handles.  The lines
    typed are text, and [print] writes what it is given. *)
Inductive ending : Type :=
| Closed
| EndOfInput
| Uncaught (e : exn).

(** The book in memory, the file, the number of clock readings made and
    the number of times the file was opened for writing. *)
Record state : Type := mk_state {
  book : AddressBook.t;
  file : AddressBook.storage;
  ticks : nat;
  writes : nat
}.

Inductive outcome : Type :=
| Continue (rest : list str) (st : state)
| Stop (how : ending) (st : state).

(** [input(prompt)], followed by [k] on the line read. *)
Definition input (prompt : string) (inputs : list str) (st : state)
           (k : str -> list str -> list event * outcome) : list event * outcome :=
  match inputs with
  | [] => ([Prompt (u prompt)], Stop EndOfInput st)
  | line :: rest =>
      let '(events, out) := k line rest in (Prompt (u prompt) :: events, out)
  end.

Definition commands : list (string * string) :=
  [("add", "Add a new contact");
   ("change", "Change contact's phone number");
   ("find", "Find a contact");
   ("all", "Show all contacts");
   ("birthdays", "Show birthdays for the next week");
   ("exit", "Close the program")]%string.

(** The lines printed at the top of each round. *)
Definition menu : list event :=
  Print (u "Commands:")
  :: map (fun entry => Print (str_of_nat (fst entry) ++ u " - " ++ u (snd (snd entry))))
         (combine (seq 1 (List.length commands)) commands).

(** [except ValueError as e: print(e)] around [body]: [Record] and [save]
    raise no [ValueError] of the subclasses [JSONDecodeError] and
    [UnicodeDecodeError], so the message printed is the one of a
    validator. *)
Definition report (st : state) (rest : list str) (e : exn) : list event * outcome :=
  match e with
  | ValueError msg => ([Print (u msg)], Continue rest st)
  | _ => ([], Stop (Uncaught e) st)
  end.

(** [book.save()] inside [try], with what follows it.  [disk n] tells
    whether the file opens for writing the [n]-th time it is asked. *)
Definition save_book (disk : nat -> bool) (data : AddressBook.t) (st : state)
           (inputs : list str) : list event * outcome :=
  let '(result, fs) := AddressBook.save (disk (writes st)) data (file st) in
  let st' := mk_state data fs (ticks st) (S (writes st)) in
  match result with
  | Val _ => ([], Continue inputs st')
  | Raise e => report st' inputs e
  end.

(** The branch of "add". *)
Definition add (disk : nat -> bool) (inputs : list str) (st : state)
  : list event * outcome :=
  input "Enter the name of the new contact: " inputs st (fun name inputs =>
  let name := strip name in
  input "Enter the phone number(s) separated by commas: " inputs st (fun phones inputs =>
  let phones := split 44 (strip phones) in
  input "Enter the birthday of the new contact (DD/MM/YYYY): " inputs st (fun birthday inputs =>
  let birthday := strip birthday in
  match Record.init (PyStr name) (PyList (map PyStr phones)) (PyStr birthday) with
  | Val record => save_book disk (AddressBook.add_record record (book st)) st inputs
  | Raise e => report st inputs e
  end))).

(** The branch of "change".  The record [find] returns is the object the
    book holds under the title-cased name: what [edit_phone] does to it,
    the book holds afterwards, saved or not. *)
Definition change (disk : nat -> bool) (inputs : list str) (st : state)
  : list event * outcome :=
  input "Enter the name of the contact: " inputs st (fun name inputs =>
  let name := strip name in
  match AddressBook.find name (book st) with
  | Some record =>
      input "Enter the old phone number: " inputs st (fun old_phone inputs =>
      let old_phone := strip old_phone in
      input "Enter the new phone number: " inputs st (fun new_phone inputs =>
      let new_phone := strip new_phone in
      let '(result, record) :=
        Record.edit_phone (PyStr old_phone) (PyStr new_phone) record in
      let data := dict_set (title name) record (book st) in
      match result with
      | Val _ => save_book disk data st inputs
      | Raise e => report (mk_state data (file st) (ticks st) (writes st)) inputs e
      end))
  | None => ([Print (u "Contact not found.")], Continue inputs st)
  end).

(** The branch of "find". *)
Definition find (inputs : list str) (st : state) : list event * outcome :=
  input "Enter the name of the contact: " inputs st (fun name inputs =>
  let name := strip name in
  match AddressBook.find name (book st) with
  | Some record =>
      ([Print (u "Contact found: " ++ Record.to_str record)], Continue inputs st)
  | None => ([Print (u "Contact not found.")], Continue inputs st)
  end).

(** The branch of "birthdays". *)
Definition birthdays (clock : nat -> datetime.t) (inputs : list str) (st : state)
  : list event * outcome :=
  let st' := mk_state (book st) (file st) (S (ticks st)) (writes st) in
  match AddressBook.get_birthdays_per_week (clock (ticks st)) (book st) with
  | Val [] => ([Print (u "No birthdays in the next week.")], Continue inputs st')
  | Val found =>
      (map (fun pair => Print (u "Name: " ++ fst pair ++ u ", Birthday: " ++ snd pair))
           found,
       Continue inputs st')
  | Raise e => ([], Stop (Uncaught e) st')
  end.

(** One round of [while True]. *)
Definition iteration (clock : nat -> datetime.t) (disk : nat -> bool)
           (inputs : list str) (st : state) : list event * outcome :=
  let '(events, out) :=
    input "Enter a command number: " inputs st (fun line inputs =>
    match int (strip line) with
    | None => ([Print (u "Invalid format. Please enter a number.")], Continue inputs st)
    | Some choice =>
        if ((choice <? 1) || (Z.of_nat (List.length commands) <? choice))%Z
        then ([Print (u "Invalid command number. Please choose a number from the list.")],
              Continue inputs st)
        else
          let command := nth (Z.to_nat (choice - 1)) (map fst commands) ""%string in
          if String.eqb command "add" then add disk inputs st
          else if String.eqb command "change" then change disk inputs st
          else if String.eqb command "find" then find inputs st
          else if String.eqb command "all"
          then (map Print (AddressBook.show_all (book st)), Continue inputs st)
          else if String.eqb command "birthdays" then birthdays clock inputs st
          else if String.eqb command "exit"
          then ([Print (u "Closing the program...")], Stop Closed st)
          else ([Print (u "Invalid command. Please try again.")], Continue inputs st)
    end) in
  (menu ++ events, out).

(** What a run writes, how it ends, and the state it ends in. *)
Record run : Type := mk_run {
  events : list event;
  how : ending;
  final : state
}.

(** The loop.  A round that goes on has read a line, so [fuel] beyond the
    number of lines to come is never used up. *)
Fixpoint loop (clock : nat -> datetime.t) (disk : nat -> bool) (fuel : nat)
         (inputs : list str) (st : state) : run :=
  match fuel with
  | O => mk_run [] EndOfInput st
  | S fuel' =>
      match iteration clock disk inputs st with
      | (evs, Continue rest st') =>
          let r := loop clock disk fuel' rest st' in
          mk_run (evs ++ events r) (how r) (final r)
      | (evs, Stop e st') => mk_run evs e st'
      end
  end.

(** [main]: the book is loaded, then the loop runs.  When [load] raises,
    nothing has been written and no book exists. *)
Definition main (clock : nat -> datetime.t) (disk : nat -> bool)
           (inputs : list str) (fs : AddressBook.storage) : run :=
  match AddressBook.load fs with
  | Val data => loop clock disk (S (List.length inputs)) inputs (mk_state data fs 0 0)
  | Raise e => mk_run [] (Uncaught e) (mk_state [] fs 0 0)
  end.

End Shell.

(** ** Vocabulary of the shell's properties *)

Definition state_of (out : Shell.outcome) : Shell.state :=
  match out with
  | Shell.Continue _ st => st
  | Shell.Stop _ st => st
  end.

(** What one round can do to the book and the file: nothing; add a valid
    record; or run [edit_phone] on a record of the book, which the book
    then holds as the call left it.  After either change the file is the
    one written for the new book, or, when [edit_phone] raised or the file
    did not open for writing, the file as it was. *)
Definition step (st st' : Shell.state) : Prop :=
  (Shell.book st' = Shell.book st /\ Shell.file st' = Shell.file st)
  \/ (exists record,
         record_invariant record
         /\ Shell.book st' = AddressBook.add_record record (Shell.book st)
         /\ (Shell.file st' = AddressBook.written (Shell.book st')
             \/ Shell.file st' = Shell.file st))
  \/ (exists key record old new,
         dict_get key (Shell.book st) = Some record
         /\ Shell.book st'
            = dict_set key (snd (Record.edit_phone old new record)) (Shell.book st)
         /\ (Shell.file st' = AddressBook.written (Shell.book st')
             \/ Shell.file st' = Shell.file st)).

(** The ways out of the loop: "exit"; no line left to read; the
    [OverflowError] of [today + timedelta(days=7)] at a reading of the
    clock; the [OSError] of a file that does not open for writing. *)
Definition expected_ending (clock : nat -> datetime.t) (disk : nat -> bool)
           (how : Shell.ending) : Prop :=
  how = Shell.Closed \/ how = Shell.EndOfInput
  \/ (how = Shell.Uncaught OverflowError
      /\ exists n, datetime.add_days (clock n) 7 = Raise OverflowError)
  \/ (how = Shell.Uncaught OSError /\ exists n, disk n = false).

Definition good_outcome (clock : nat -> datetime.t) (disk : nat -> bool)
           (st : Shell.state) (out : Shell.outcome) : Prop :=
  step st (state_of out)
  /\ match out with
     | Shell.Stop how _ => expected_ending clock disk how
     | Shell.Continue _ _ => True
     end.

(** The book of a state is valid. *)
Definition valid_state (st : Shell.state) : Prop :=
  dict_wf (Shell.book st) /\ book_invariant (Shell.book st).

(** The birthday a record gets from the text typed for it. *)
Definition birthday_of_text (b : str) : option str :=
  match b with
  | [] => None
  | _ => Some b
  end.

(** The prompts of the commands. *)
Definition ASK_CHOICE : Shell.event := Shell.Prompt (u "Enter a command number: ").
Definition ASK_NEW_NAME : Shell.event :=
  Shell.Prompt (u "Enter the name of the new contact: ").
Definition ASK_PHONES : Shell.event :=
  Shell.Prompt (u "Enter the phone number(s) separated by commas: ").
Definition ASK_BIRTHDAY : Shell.event :=
  Shell.Prompt (u "Enter the birthday of the new contact (DD/MM/YYYY): ").
Definition ASK_NAME : Shell.event := Shell.Prompt (u "Enter the name of the contact: ").
Definition ASK_OLD : Shell.event := Shell.Prompt (u "Enter the old phone number: ").
Definition ASK_NEW : Shell.event := Shell.Prompt (u "Enter the new phone number: ").

(** A session: John is added, then the program is closed. *)
Definition add_john_session : list str :=
  [u "1"; u "John"; u "1234567890"; u "01/01/1990"; u "6"].

Definition noon (n : nat) : datetime.t :=
  datetime.mk (datetime.ymd2ord 2024 5 10) (12 * 3600 * 1000000).

(** A clock that stays a week away from the last day of the calendar. *)
Definition clock_in_range (clock : nat -> datetime.t) : Prop :=
  forall n, (1 <= datetime.ordinal (clock n) <= datetime.MAXORDINAL - 7)%Z.

(** A disk that lets the file be written, and one that does not. *)
Definition granted (n : nat) : bool := true.
Definition refused (n : nat) : bool := false.

(** A session on the file [f] ends in [load], before the menu is shown. *)
Definition ends_at_startup (f : AddressBook.storage) : Prop :=
  forall clock disk inputs,
    Shell.main clock disk inputs f
    = Shell.mk_run [] (Shell.Uncaught AttributeError) (Shell.mk_state [] f 0 0).

(** The file is the one the session began with, or one [save] wrote for a
    book that is not empty. *)
Definition untouched_or_saved (fs f : AddressBook.storage) : Prop :=
  f = fs \/ exists data, data <> [] /\ f = AddressBook.written data.

(** Where [book.save()] leaves the session, the book in memory being
    [data]: in the next round with the file written, or, when the file does
    not open for writing, ended by [OSError] with the file as it was. *)
Definition saved (opens : bool) (data : AddressBook.t) (rest : list str)
           (st : Shell.state) : Shell.outcome :=
  if opens
  then Shell.Continue rest
         (Shell.mk_state data (AddressBook.written data) (Shell.ticks st)
                         (S (Shell.writes st)))
  else Shell.Stop (Shell.Uncaught OSError)
         (Shell.mk_state data (Shell.file st) (Shell.ticks st) (S (Shell.writes st))).


(** What "change" prints after its prompts on a record it found, and where
    it leaves the session. *)
Definition changed (opens : bool) (key old new : str) (record : Record.t)
           (rest : list str) (st : Shell.state) : list Shell.event * Shell.outcome :=
  let kept := Record.list_remove (PyStr old) (Record.phones record) in
  if valid_phone new
  then
    ([], saved opens
           (dict_set key (Record.mk (Record.name record) (kept ++ [new])
                                    (Record.birthday record)) (Shell.book st))
           rest st)
  else
    ([Shell.Print (u Phone.MESSAGE)],
     Shell.Continue rest
       (Shell.mk_state
          (dict_set key (Record.mk (Record.name record) kept (Record.birthday record))
                    (Shell.book st))
          (Shell.file st) (Shell.ticks st) (Shell.writes st))).

(** A session at a book that holds John, read from a file in the form
    [load] expects. *)
Definition john_state : Shell.state :=
  Shell.mk_state john_book (Some (AddressBook.Json (flat_document john_book))) 0 0.
(** * Properties *)

Arguments Unicode.isdecimal : simpl never.
Arguments Unicode.isdigit : simpl never.
Arguments Unicode.isalpha : simpl never.
Arguments Unicode.iscased : simpl never.
Arguments Unicode.iscaseignorable : simpl never.
Arguments Unicode.tolower_full : simpl never.
Arguments Unicode.totitle_full : simpl never.
Arguments Unicode.todecimal : simpl never.
Arguments title : simpl never.

(** ** Text and dictionaries *)

Lemma str_eqb_eq (a b : str) : str_eqb a b = true <-> a = b.
Proof.
  revert b; induction a as [|x a IH]; intros [|y b]; simpl; split;
    try congruence; try reflexivity.
  - intros H. apply andb_true_iff in H as [Hx Hab].
    apply N.eqb_eq in Hx. apply IH in Hab. congruence.
  - intros H. injection H as -> ->. rewrite N.eqb_refl. simpl. now apply IH.
Qed.

Lemma str_eqb_refl (a : str) : str_eqb a a = true.
Proof. now apply str_eqb_eq. Qed.

Lemma str_eqb_neq (a b : str) : str_eqb a b = false <-> a <> b.
Proof.
  destruct (str_eqb a b) eqn:E; split; intros H; try congruence.
  - apply str_eqb_eq in E. contradiction.
  - intros ->. rewrite str_eqb_refl in E. discriminate.
Qed.

Section Dict.

Context {V : Type}.

Lemma dict_get_set_same (k : str) (v : V) (d : dict V) :
  dict_get k (dict_set k v d) = Some v.
Proof.
  induction d as [|[k' v'] d IH]; simpl.
  - now rewrite str_eqb_refl.
  - destruct (str_eqb k' k) eqn:E; simpl; rewrite E; auto.
Qed.

Lemma dict_get_set_other (k k' : str) (v : V) (d : dict V) :
  k <> k' -> dict_get k' (dict_set k v d) = dict_get k' d.
Proof.
  intros Hne. induction d as [|[k0 v0] d IH]; simpl.
  - apply str_eqb_neq in Hne. now rewrite Hne.
  - destruct (str_eqb k0 k) eqn:E; simpl.
    + apply str_eqb_eq in E; subst k0.
      apply str_eqb_neq in Hne. now rewrite Hne.
    + now rewrite IH.
Qed.

Lemma dict_get_none_keys (k : str) (d : dict V) :
  dict_get k d = None <-> ~ In k (dict_keys d).
Proof.
  induction d as [|[k0 v0] d IH]; simpl.
  - tauto.
  - destruct (str_eqb k0 k) eqn:E.
    + apply str_eqb_eq in E. split; [discriminate | tauto].
    + apply str_eqb_neq in E. rewrite IH. tauto.
Qed.

Lemma dict_get_remove_same (k : str) (d : dict V) :
  dict_wf d -> dict_get k (dict_remove k d) = None.
Proof.
  unfold dict_wf. induction d as [|[k0 v0] d IH]; simpl; intros Hwf; auto.
  inversion Hwf as [|? ? Hnotin Hwf']; subst.
  destruct (str_eqb k0 k) eqn:E; simpl.
  - apply str_eqb_eq in E; subst. now apply dict_get_none_keys.
  - rewrite E. auto.
Qed.

Lemma dict_get_remove_other (k k' : str) (d : dict V) :
  k <> k' -> dict_get k' (dict_remove k d) = dict_get k' d.
Proof.
  intros Hne. induction d as [|[k0 v0] d IH]; simpl; auto.
  destruct (str_eqb k0 k) eqn:E; simpl.
  - apply str_eqb_eq in E; subst k0.
    apply str_eqb_neq in Hne. now rewrite Hne.
  - now rewrite IH.
Qed.

Lemma dict_keys_set (k : str) (v : V) (d : dict V) :
  forall x, In x (dict_keys (dict_set k v d)) <-> x = k \/ In x (dict_keys d).
Proof.
  intros x. induction d as [|[k0 v0] d IH]; simpl.
  - intuition congruence.
  - destruct (str_eqb k0 k) eqn:E; simpl.
    + apply str_eqb_eq in E; subst. intuition congruence.
    + rewrite IH. intuition congruence.
Qed.

Lemma dict_set_wf (k : str) (v : V) (d : dict V) :
  dict_wf d -> dict_wf (dict_set k v d).
Proof.
  unfold dict_wf. induction d as [|[k0 v0] d IH]; simpl; intros Hwf.
  - constructor; [simpl; tauto | constructor].
  - inversion Hwf as [|? ? Hnotin Hwf']; subst.
    destruct (str_eqb k0 k) eqn:E; simpl.
    + now constructor.
    + constructor; [|auto].
      intros Hin. apply dict_keys_set in Hin as [->|Hin]; [|contradiction].
      rewrite str_eqb_refl in E. discriminate.
Qed.

End Dict.

(** ** The character tables *)

Lemma in_ranges_within (small big : list (N * N)) :
  ranges_within small big = true ->
  forall c, Unicode.in_ranges small c = true -> Unicode.in_ranges big c = true.
Proof.
  unfold ranges_within, Unicode.in_ranges. intros Hall c Hc.
  apply existsb_exists in Hc as [r [Hr Hin]].
  rewrite forallb_forall in Hall. specialize (Hall r Hr).
  apply existsb_exists in Hall as [r' [Hr' Hsub]].
  apply existsb_exists. exists r'. split; [assumption|].
  apply andb_true_iff in Hin as [H1 H2]. apply andb_true_iff in Hsub as [H3 H4].
  apply N.leb_le in H1, H2, H3, H4. apply andb_true_iff.
  split; apply N.leb_le; lia.
Qed.

Lemma isdecimal_isdigit (c : N) :
  Unicode.isdecimal c = true -> Unicode.isdigit c = true.
Proof.
  apply in_ranges_within. vm_compute. reflexivity.
Qed.

Lemma forallb_impl {A : Type} (p q : A -> bool) (l : list A) :
  (forall x, p x = true -> q x = true) -> forallb p l = true -> forallb q l = true.
Proof.
  intros Hpq. rewrite !forallb_forall. auto.
Qed.

(** ** [Phone.validate] *)

Lemma Phone_validate_text (s : str) :
  Phone.validate (PyStr s) =
  if Nat.eqb (List.length s) 10 && forallb Unicode.isdigit s
  then Val s else Raise (ValueError Phone.MESSAGE).
Proof.
  unfold Phone.validate, isdigit. simpl.
  destruct (Nat.eqb (List.length s) 10) eqn:E; simpl; [|reflexivity].
  apply Nat.eqb_eq in E. rewrite E. simpl.
  now destruct (forallb Unicode.isdigit s).
Qed.

Lemma Phone_accepted_iff (s : str) :
  accepted Phone.validate s <-> ten_digits s.
Proof.
  unfold accepted, ten_digits. rewrite Phone_validate_text.
  destruct (Nat.eqb (List.length s) 10) eqn:E; simpl.
  - apply Nat.eqb_eq in E.
    destruct (forallb Unicode.isdigit s); split; intros H;
      try discriminate; try tauto. destruct H; discriminate.
  - apply Nat.eqb_neq in E. split; [discriminate | tauto].
Qed.

Lemma Phone_rejected (s : str) :
  ~ ten_digits s -> Phone.validate (PyStr s) = Raise (ValueError Phone.MESSAGE).
Proof.
  intros Hnot. rewrite Phone_validate_text.
  destruct (Nat.eqb (List.length s) 10) eqn:E; simpl; [|reflexivity].
  destruct (forallb Unicode.isdigit s) eqn:F; [|reflexivity].
  exfalso. apply Hnot. split; [now apply Nat.eqb_eq | assumption].
Qed.

(** C8, as amended.  Text of exactly ten decimal digits passes
    [Phone.validate]; text passes exactly when it has ten characters that
    are all digits for [str.isdigit], a class that holds the decimal digits
    and more (superscripts among them); any other text raises the
    [ValueError] of the validator. *)
Theorem Phone_validate_ten_digits (s : str) :
  (ten_decimal_digits s -> Phone.validate (PyStr s) = Val s)
  /\ (Phone.validate (PyStr s) = Val s <-> ten_digits s)
  /\ (~ ten_digits s -> Phone.validate (PyStr s) = Raise (ValueError Phone.MESSAGE)).
Proof.
  split; [|split].
  - intros [Hlen Hdec]. apply Phone_accepted_iff. split; [assumption|].
    revert Hdec. apply forallb_impl, isdecimal_isdigit.
  - apply Phone_accepted_iff.
  - apply Phone_rejected.
Qed.

(** Counterexample for C8 as stated: ten superscript twos are ten
    characters, none of them a decimal digit, and [Phone.validate] lets them
    pass. *)
Lemma Phone_validate_superscript_twos :
  ~ ten_decimal_digits superscript_twos
  /\ forallb (fun c => negb (Unicode.isdecimal c)) superscript_twos = true
  /\ Phone.validate (PyStr superscript_twos) = Val superscript_twos.
Proof.
  split; [|split].
  - intros [_ H]. vm_compute in H. discriminate.
  - vm_compute. reflexivity.
  - vm_compute. reflexivity.
Qed.

(** ** What a validator lets through *)

Lemma Name_validate_val (v : pyval) (s : str) :
  Name.validate v = Val s -> v = PyStr s /\ isalpha s = true.
Proof.
  destruct v; simpl; try discriminate.
  destruct (isalpha s0) eqn:E; simpl; [|discriminate].
  intros H; injection H as ->. auto.
Qed.

Lemma Name_accepted_iff (s : str) : accepted Name.validate s <-> isalpha s = true.
Proof.
  unfold accepted. simpl. destruct (isalpha s); simpl; split; congruence.
Qed.

Lemma Phone_validate_val (v : pyval) (s : str) :
  Phone.validate v = Val s -> v = PyStr s.
Proof.
  unfold Phone.validate.
  destruct v; simpl; try discriminate;
    match goal with
    | |- context [Nat.eqb ?n 10] => destruct (Nat.eqb n 10); simpl; try discriminate
    end.
  destruct (isdigit s0); simpl; [|discriminate]. congruence.
Qed.

Lemma Birthday_validate_val (v : pyval) (s : str) :
  Birthday.validate v = Val s -> v = PyStr s.
Proof.
  unfold Birthday.validate.
  destruct (datetime.strptime v) as [d|e] eqn:E.
  - destruct v; try discriminate. congruence.
  - destruct (is_ValueError e); discriminate.
Qed.

Lemma Birthday_validate_text (s : str) :
  Birthday.validate (PyStr s) =
  match datetime.strptime (PyStr s) with
  | Val _ => Val s
  | Raise _ => Raise (ValueError Birthday.MESSAGE)
  end.
Proof.
  unfold Birthday.validate, datetime.strptime.
  destruct (datetime.format_regex_match s) as [[[[d m] y] rest]|]; [|reflexivity].
  destruct (negb (Nat.eqb (List.length rest) 0)); [reflexivity|].
  unfold datetime.of_date, datetime.check_date_fields.
  repeat match goal with
         | |- context [if negb ?c then _ else _] => destruct c; simpl; try reflexivity
         end.
Qed.

(** ** The methods of [Record] *)

Lemma add_phone_text (p : str) (self : Record.t) :
  accepted Phone.validate p ->
  Record.add_phone (PyStr p) self =
  (Val tt, Record.mk (Record.name self) (Record.phones self ++ [p]) (Record.birthday self)).
Proof.
  intros Hp. unfold Record.add_phone, Record.seq, Record.lift. now rewrite Hp.
Qed.

Lemma add_phone_rejected (v : pyval) (e : exn) (self : Record.t) :
  Phone.validate v = Raise e -> Record.add_phone v self = (Raise e, self).
Proof.
  intros Hv. unfold Record.add_phone, Record.seq, Record.lift. now rewrite Hv.
Qed.

Lemma for_each_add_phone (ps : list str) (self : Record.t) :
  Forall (accepted Phone.validate) ps ->
  Record.for_each Record.add_phone (map PyStr ps) self =
  (Val tt, Record.mk (Record.name self) (Record.phones self ++ ps) (Record.birthday self)).
Proof.
  intros Hps. revert self. induction Hps as [|p ps Hp Hps IH]; intros self; simpl.
  - rewrite app_nil_r. now destruct self.
  - unfold Record.seq. rewrite add_phone_text by assumption.
    rewrite IH. simpl. now rewrite <- app_assoc.
Qed.

Lemma list_remove_split (old : str) (l : list str) :
  In old l ->
  exists l1 l2, l = l1 ++ old :: l2 /\ ~ In old l1
                /\ Record.list_remove (PyStr old) l = l1 ++ l2.
Proof.
  induction l as [|x l IH]; simpl; [tauto|]. intros Hin.
  destruct (str_eqb x old) eqn:E.
  - apply str_eqb_eq in E; subst. exists [], l. simpl. tauto.
  - apply str_eqb_neq in E. destruct Hin as [->|Hin]; [congruence|].
    destruct (IH Hin) as (l1 & l2 & -> & Hnot & Hrm).
    exists (x :: l1), l2. simpl. rewrite Hrm. intuition congruence.
Qed.

Lemma find_phone_present (old : str) (self : Record.t) :
  In old (Record.phones self) -> Record.find_phone (PyStr old) self = Some old.
Proof.
  unfold Record.find_phone. induction (Record.phones self) as [|x l IH]; simpl; [tauto|].
  destruct (str_eqb x old) eqn:E.
  - apply str_eqb_eq in E. congruence.
  - apply str_eqb_neq in E. intros [->|Hin]; [congruence | auto].
Qed.

Lemma list_remove_incl (v : pyval) (l : list str) :
  forall x, In x (Record.list_remove v l) -> In x l.
Proof.
  induction l as [|y l IH]; simpl; [tauto|]. intros x.
  destruct (Record.value_eq y v); simpl; intuition.
Qed.

(** C3.  On a record that holds only 1111111111, editing it into
    2222222222 leaves exactly 2222222222; and when the old phone is present
    and the new text is not a valid phone, [edit_phone] raises the
    validator's [ValueError] with the first entry of the old phone already
    taken out of the list, which leaves no phone at all when it was the only
    one. *)
Theorem edit_phone_replaces_or_loses :
  (forall (n : str) (b : option str),
      Record.edit_phone (PyStr ones) (PyStr twos) (Record.mk n [ones] b)
      = (Val tt, Record.mk n [twos] b))
  /\ (forall (self : Record.t) (old new : str),
         In old (Record.phones self) ->
         ~ accepted Phone.validate new ->
         exists l1 l2,
           Record.phones self = l1 ++ old :: l2 /\ ~ In old l1
           /\ Record.edit_phone (PyStr old) (PyStr new) self
              = (Raise (ValueError Phone.MESSAGE),
                 Record.mk (Record.name self) (l1 ++ l2) (Record.birthday self))
           /\ (Record.phones self = [old] -> l1 ++ l2 = [])).
Proof.
  split.
  - intros n b. vm_compute. reflexivity.
  - intros self old new Hin Hbad.
    destruct (list_remove_split old _ Hin) as (l1 & l2 & Hsplit & Hnot & Hrm).
    exists l1, l2. repeat split; try assumption.
    + unfold Record.edit_phone, Record.seq, Record.remove_phone.
      rewrite (find_phone_present _ _ Hin). rewrite Hrm.
      apply add_phone_rejected. apply Phone_rejected.
      intros Hten. apply Hbad. now apply Phone_accepted_iff.
    + intros Hone. rewrite Hone in Hsplit.
      destruct l1 as [|x l1]; simpl in *.
      * injection Hsplit as <-. reflexivity.
      * injection Hsplit as <- Hrest. destruct l1; discriminate.
Qed.

(** Witness for C3: a record with the single phone 1111111111, edited with
    a nine-digit replacement. *)
Lemma edit_phone_loses_the_only_phone :
  Record.edit_phone (PyStr ones) (PyStr (u "123456789"))
                    (Record.mk (u "John") [ones] None)
  = (Raise (ValueError Phone.MESSAGE), Record.mk (u "John") [] None).
Proof.
  destruct edit_phone_replaces_or_loses as [_ H].
  destruct (H (Record.mk (u "John") [ones] None) ones (u "123456789"))
    as (l1 & l2 & Hsplit & _ & Hedit & Hnil).
  - simpl. left. reflexivity.
  - intros Hacc. vm_compute in Hacc. discriminate.
  - rewrite Hedit. rewrite (Hnil eq_refl). reflexivity.
Defined.

(** ** The invariant of a record *)

Lemma add_phone_keeps (v : pyval) (self : Record.t) :
  record_invariant self -> record_invariant (snd (Record.add_phone v self)).
Proof.
  intros (Hn & Hp & Hb).
  unfold Record.add_phone, Record.seq, Record.lift.
  destruct (Phone.validate v) as [p|e] eqn:E; simpl; [|now repeat split].
  apply Phone_validate_val in E as Hv. subst v.
  repeat split; simpl; try assumption.
  apply Forall_app. split; [assumption|]. constructor; [exact E | constructor].
Qed.

Lemma remove_phone_keeps (v : pyval) (self : Record.t) :
  record_invariant self -> record_invariant (snd (Record.remove_phone v self)).
Proof.
  intros (Hn & Hp & Hb). unfold Record.remove_phone.
  destruct (Record.find_phone v self); simpl; [|now repeat split].
  repeat split; simpl; try assumption.
  rewrite Forall_forall in *. intros x Hx. apply Hp.
  now apply list_remove_incl with v.
Qed.

Lemma edit_phone_keeps (old new : pyval) (self : Record.t) :
  record_invariant self -> record_invariant (snd (Record.edit_phone old new self)).
Proof.
  intros Hinv. unfold Record.edit_phone, Record.seq.
  pose proof (remove_phone_keeps old Hinv) as H1.
  destruct (Record.remove_phone old self) as [[[]|e] self1]; simpl in *.
  - now apply add_phone_keeps.
  - assumption.
Qed.

Lemma add_birthday_keeps (v : pyval) (self : Record.t) :
  record_invariant self -> record_invariant (snd (Record.add_birthday v self)).
Proof.
  intros (Hn & Hp & Hb).
  unfold Record.add_birthday, Record.seq, Record.lift.
  destruct (Birthday.validate v) as [b|e] eqn:E; simpl; [|now repeat split].
  apply Birthday_validate_val in E as Hv. subst v.
  repeat split; simpl; try assumption.
  intros b' Hb'. injection Hb' as <-. exact E.
Qed.

Lemma for_each_keeps {A : Type} (body : A -> Record.method unit) (xs : list A) :
  (forall x self, record_invariant self -> record_invariant (snd (body x self))) ->
  forall self, record_invariant self ->
               record_invariant (snd (Record.for_each body xs self)).
Proof.
  intros Hbody. induction xs as [|x xs IH]; intros self Hinv; simpl; [assumption|].
  unfold Record.seq. specialize (Hbody x self Hinv).
  destruct (body x self) as [[[]|e] self1]; simpl in *; auto.
Qed.

Lemma seq_keeps {A B : Type} (m : Record.method A) (k : A -> Record.method B) :
  (forall self, record_invariant self -> record_invariant (snd (m self))) ->
  (forall a self, record_invariant self -> record_invariant (snd (k a self))) ->
  forall self, record_invariant self -> record_invariant (snd (Record.seq m k self)).
Proof.
  intros Hm Hk self Hinv. unfold Record.seq. specialize (Hm self Hinv).
  destruct (m self) as [[a|e] self1]; simpl in *; auto.
Qed.

Lemma init_invariant (name phones birthday : pyval) (r : Record.t) :
  Record.init name phones birthday = Val r -> record_invariant r.
Proof.
  unfold Record.init.
  destruct (Name.validate name) as [n|e] eqn:En; simpl; [|discriminate].
  apply Name_validate_val in En as [-> Halpha].
  assert (Hstart : record_invariant (Record.mk n [] None)).
  { repeat split; simpl.
    - now apply Name_accepted_iff.
    - constructor.
    - discriminate. }
  match goal with
  | |- match ?body ?start with _ => _ end = _ -> _ =>
      assert (Hend : record_invariant (snd (body start)));
      [| destruct (body start) as [[[]|e] self]; simpl in *;
         [intros H; injection H as <-; exact Hend | discriminate]]
  end.
  apply seq_keeps; [| |exact Hstart].
  - intros self Hself. destruct (truthy phones); [|exact Hself].
    apply seq_keeps; [| |exact Hself].
    + intros self' Hself'. exact Hself'.
    + intros items self' Hself'. apply for_each_keeps; [|exact Hself'].
      intros x self''. apply add_phone_keeps.
  - intros _ self Hself. destruct (truthy birthday); [|exact Hself].
    now apply add_birthday_keeps.
Qed.

(** ** Construction with empty arguments *)

Lemma init_valid (n : str) (ps : list str) :
  isalpha n = true ->
  Forall (accepted Phone.validate) ps ->
  forall birthday, truthy birthday = false ->
  Record.init (PyStr n) (PyList (map PyStr ps)) birthday = Val (Record.mk n ps None).
Proof.
  intros Hn Hps birthday Hb. unfold Record.init. simpl.
  rewrite Hn. simpl. unfold Record.seq at 1. rewrite Hb.
  destruct (negb (Nat.eqb (List.length (map PyStr ps)) 0)) eqn:Ht.
  - unfold Record.seq, Record.lift.
    rewrite (for_each_add_phone (Record.mk n [] None) Hps). reflexivity.
  - destruct ps; [reflexivity | discriminate].
Qed.

(** C10.  With a valid name and valid phones, the empty string as birthday
    argument builds the record with no birthday, for which [show_birthday]
    answers "No birthday set", although [Birthday.validate] rejects the
    empty string; and an empty list of phones builds a record with no
    phone. *)
Theorem init_empty_birthday_and_phones (n : str) (ps : list str) :
  isalpha n = true ->
  Forall (accepted Phone.validate) ps ->
  Record.init (PyStr n) (PyList (map PyStr ps)) (PyStr []) = Val (Record.mk n ps None)
  /\ Record.show_birthday (Record.mk n ps None) = u "No birthday set"
  /\ Birthday.validate (PyStr []) = Raise (ValueError Birthday.MESSAGE)
  /\ Record.init (PyStr n) (PyList []) (PyStr []) = Val (Record.mk n [] None)
  /\ (forall birthday r,
         Record.init (PyStr n) (PyList []) birthday = Val r -> Record.phones r = []).
Proof.
  intros Hn Hps. repeat split.
  - now apply init_valid.
  - apply (@init_valid n [] Hn); [constructor | reflexivity].
  - intros birthday r. unfold Record.init. simpl. rewrite Hn. simpl.
    unfold Record.seq, Record.ret.
    destruct (truthy birthday); [|intros H; injection H as <-; reflexivity].
    unfold Record.add_birthday, Record.seq, Record.lift.
    destruct (Birthday.validate birthday); [|discriminate].
    intros H; injection H as <-. reflexivity.
Qed.

(** Witness for C10: John with one phone and the empty birthday. *)
Lemma init_john_without_birthday :
  Record.init (PyStr (u "John")) (PyList (map PyStr [ones])) (PyStr [])
  = Val (Record.mk (u "John") [ones] None)
  /\ Record.show_birthday (Record.mk (u "John") [ones] None) = u "No birthday set"
  /\ Birthday.validate (PyStr []) = Raise (ValueError Birthday.MESSAGE)
  /\ Record.init (PyStr (u "John")) (PyList []) (PyStr [])
     = Val (Record.mk (u "John") [] None)
  /\ (forall birthday r,
         Record.init (PyStr (u "John")) (PyList []) birthday = Val r ->
         Record.phones r = []).
Proof.
  apply (@init_empty_birthday_and_phones (u "John") [ones]).
  - vm_compute. reflexivity.
  - constructor; [vm_compute; reflexivity | constructor].
Defined.

(** ** Text inside text *)

Lemma contains_refl (s : str) : contains s s.
Proof. exists [], []. simpl. now rewrite app_nil_r. Qed.

Lemma contains_app_left (sub s a : str) : contains sub s -> contains sub (a ++ s).
Proof.
  intros (pre & post & ->). exists (a ++ pre), post. now rewrite app_assoc.
Qed.

Lemma contains_app_right (sub s b : str) : contains sub s -> contains sub (s ++ b).
Proof.
  intros (pre & post & ->). exists pre, (post ++ b). now rewrite <- !app_assoc.
Qed.

Lemma join_contains (sep p : str) (parts : list str) :
  In p parts -> contains p (join sep parts).
Proof.
  induction parts as [|p0 rest IH]; [intros []|].
  intros Hin. destruct rest as [|p1 rest].
  - destruct Hin as [->|[]]. apply contains_refl.
  - change (join sep (p0 :: p1 :: rest)) with (p0 ++ sep ++ join sep (p1 :: rest)).
    destruct Hin as [->|Hin].
    + apply contains_app_right, contains_refl.
    + now apply contains_app_left, contains_app_left, IH.
Qed.

Lemma to_str_contains_phone (r : Record.t) (p : str) :
  In p (Record.phones r) -> contains p (Record.to_str r).
Proof.
  intros Hin. unfold Record.to_str.
  apply contains_app_left, contains_app_left, contains_app_left, contains_app_right.
  apply join_contains. unfold Field.to_str. now rewrite map_id.
Qed.

(** ** [find], [add_record] and [delete] *)

(** C4.  [find] looks the title-cased form of the queried name up (the
    first letter of each word in upper case, as in "John Smith" for
    "john smith"): after [add_record] of a record whose name is that form,
    it returns the record, whose rendered text holds each of its phones;
    when that form is not a key it returns nothing, as for the query "john"
    on a book whose only key is "john", the name as typed. *)
Theorem find_looks_up_title_case :
  (forall (data : AddressBook.t) (queried : str),
      AddressBook.find queried data = dict_get (title queried) data)
  /\ title (u "john smith") = u "John Smith"
  /\ (forall (data : AddressBook.t) (record : Record.t) (queried : str),
         Record.name record = title queried ->
         AddressBook.find queried (AddressBook.add_record record data) = Some record
         /\ forall p, In p (Record.phones record) -> contains p (Record.to_str record))
  /\ (forall (data : AddressBook.t) (queried : str),
         dict_get (title queried) data = None -> AddressBook.find queried data = None)
  /\ (dict_get (u "john") lower_book = Some (Record.mk (u "john") [ones] None)
      /\ AddressBook.find (u "john") lower_book = None).
Proof.
  split; [reflexivity|]. split; [vm_compute; reflexivity|]. split; [|split].
  - intros data record queried Hname. split.
    + unfold AddressBook.find, AddressBook.add_record.
      rewrite <- Hname. apply dict_get_set_same.
    + intros p. apply to_str_contains_phone.
  - intros data queried Hnone. exact Hnone.
  - split; vm_compute; reflexivity.
Qed.

(** Witness for C4: John is added and "jOHN" is looked up. *)
Lemma find_john_any_case :
  AddressBook.find (u "jOHN")
    (AddressBook.add_record (Record.mk (u "John") [ones] None) lower_book)
  = Some (Record.mk (u "John") [ones] None)
  /\ contains ones (Record.to_str (Record.mk (u "John") [ones] None)).
Proof.
  destruct find_looks_up_title_case as (_ & _ & Hfind & _).
  destruct (Hfind lower_book (Record.mk (u "John") [ones] None) (u "jOHN")) as [H1 H2].
  - vm_compute. reflexivity.
  - split; [exact H1|]. apply H2. simpl. left. reflexivity.
Defined.

(** C5, as amended.  [delete] of a name that is not a key raises [KeyError]
    and leaves the book as it was; [delete] of a key removes that entry and
    no other; a [find] of the name afterwards returns nothing exactly when
    the name is its own title-cased form or that form is no key of the
    book. *)
Theorem delete_removes_the_key :
  (forall (data : AddressBook.t) (name : str),
      dict_get name data = None ->
      AddressBook.delete name data = (Raise (KeyError name), data))
  /\ (forall (data : AddressBook.t) (name : str) (r : Record.t),
         dict_wf data ->
         dict_get name data = Some r ->
         exists data',
           AddressBook.delete name data = (Val tt, data')
           /\ dict_get name data' = None
           /\ (forall k, k <> name -> dict_get k data' = dict_get k data)
           /\ (AddressBook.find name data' = None
               <-> title name = name \/ dict_get (title name) data = None)).
Proof.
  split.
  - intros data name Hnone. unfold AddressBook.delete. now rewrite Hnone.
  - intros data name r Hwf Hget. exists (dict_remove name data).
    unfold AddressBook.delete, AddressBook.find. rewrite Hget.
    split; [reflexivity|]. split; [now apply dict_get_remove_same|].
    split; [intros k Hk; now apply dict_get_remove_other|].
    destruct (str_eqb (title name) name) eqn:E.
    + apply str_eqb_eq in E. rewrite E.
      rewrite dict_get_remove_same by assumption. tauto.
    + apply str_eqb_neq in E.
      rewrite dict_get_remove_other by congruence.
      split; [tauto|]. intros [Heq|Hnone]; [contradiction | assumption].
Qed.

(** Witness for C5: "John" is deleted from the book of john and John. *)
Lemma delete_John_then_find :
  exists data',
    AddressBook.delete (u "John") johns_book = (Val tt, data')
    /\ dict_get (u "John") data' = None
    /\ (forall k, k <> u "John" -> dict_get k data' = dict_get k johns_book)
    /\ (AddressBook.find (u "John") data' = None
        <-> title (u "John") = u "John"
            \/ dict_get (title (u "John")) johns_book = None).
Proof.
  destruct delete_removes_the_key as [_ H].
  apply (H johns_book (u "John") (Record.mk (u "John") [twos] None)).
  - unfold dict_wf. vm_compute.
    constructor; [|constructor; [|constructor]]; simpl; intuition discriminate.
  - vm_compute. reflexivity.
Defined.

(** Counterexample for C5 as stated: in the book of john and John, "john"
    is a key and its deletion succeeds, yet a [find] of "john" afterwards
    returns the record of John. *)
Lemma delete_john_then_find_john :
  dict_get (u "john") johns_book = Some (Record.mk (u "john") [ones] None)
  /\ fst (AddressBook.delete (u "john") johns_book) = Val tt
  /\ AddressBook.find (u "john") (snd (AddressBook.delete (u "john") johns_book))
     = Some (Record.mk (u "John") [twos] None)
  /\ AddressBook.find (u "john") (snd (AddressBook.delete (u "john") johns_book))
     <> None.
Proof.
  repeat split; try (vm_compute; reflexivity).
  vm_compute. discriminate.
Qed.

(** ** [load] and [save] *)


Lemma entry_record_of_saved (r : Record.t) :
  AddressBook.entry_record (AddressBook.record_dict r) = Raise AttributeError.
Proof. reflexivity. Qed.

(** C1, what the program does instead.  [save], when the file opens for
    writing, returns and leaves a file in which each field is an object
    with one key, "value"; [load] hands that object to [Record], where
    [Name.validate] asks it for [isalpha] and raises [AttributeError], which
    [load] does not handle.  So [load] after [save] raises on the book of
    John, and on every book that is not empty; only the empty book comes
    back. *)
Theorem save_then_load_raises :
  (forall fs : AddressBook.storage,
      AddressBook.save true john_book fs
      = (Val tt,
         Some (AddressBook.Json
                 (PyDict [(u "John",
                           PyDict [(u "name", PyDict [(u "value", PyStr (u "John"))]);
                                   (u "phones",
                                    PyList [PyDict [(u "value",
                                                     PyStr (u "1234567890"))]]);
                                   (u "birthday",
                                    PyDict [(u "value", PyStr (u "01/01/1990"))])])]))))
  /\ (forall fs : AddressBook.storage,
         AddressBook.load (snd (AddressBook.save true john_book fs))
         = Raise AttributeError)
  /\ (forall (data : AddressBook.t) (fs : AddressBook.storage),
         data <> [] ->
         AddressBook.load (snd (AddressBook.save true data fs)) = Raise AttributeError)
  /\ (forall fs : AddressBook.storage,
         AddressBook.load (snd (AddressBook.save true [] fs)) = Val []).
Proof.
  split; [intros fs; vm_compute; reflexivity|].
  split; [intros fs; vm_compute; reflexivity|].
  split; [|intros fs; reflexivity].
  intros [|[k r] data] fs Hne; [congruence|].
  unfold AddressBook.load, AddressBook.save, AddressBook.written, AddressBook.json_dump.
  cbn [map fst snd AddressBook.open_read AddressBook.json_load py_items bind
       AddressBook.comprehension].
  rewrite entry_record_of_saved. reflexivity.
Qed.

(** ** Regular expressions *)

Lemma matches_spec (r : Re.re) :
  forall s m rest, In (m, rest) (Re.matches r s) <-> lang r m /\ s = m ++ rest.
Proof.
  induction r as [p | r1 IH1 r2 IH2 | r1 IH1 r2 IH2]; intros s m rest; simpl.
  - destruct s as [|c s'].
    + split; [intros [] | intros [(c & -> & _) H]; discriminate].
    + destruct (p c) eqn:E; simpl; split.
      * intros [H|[]]. injection H as <- <-. split; [exists c; auto | reflexivity].
      * intros [(c' & -> & Hc') H]. injection H as <- <-. now left.
      * intros [].
      * intros [(c' & -> & Hc') H]. injection H as <- <-. congruence.
  - rewrite in_flat_map. split.
    + intros ([m1 rest1] & H1 & H2). apply in_map_iff in H2 as ([m2 rest2] & Heq & H2).
      simpl in *. injection Heq as <- <-.
      apply IH1 in H1 as [L1 ->]. apply IH2 in H2 as [L2 ->].
      split; [exists m1, m2; auto | now rewrite app_assoc].
    + intros [(m1 & m2 & -> & L1 & L2) ->].
      exists (m1, m2 ++ rest). split.
      * apply IH1. split; [assumption | now rewrite app_assoc].
      * apply in_map_iff. exists (m2, rest). split; [reflexivity|].
        apply IH2. auto.
  - rewrite in_app_iff, IH1, IH2. tauto.
Qed.

Lemma lang_chr (a : ascii) (m : str) : lang (Re.chr a) m <-> m = [N_of_ascii a].
Proof.
  simpl. split.
  - intros (c & -> & H). apply N.eqb_eq in H. now subst.
  - intros ->. exists (N_of_ascii a). split; [reflexivity | apply N.eqb_refl].
Qed.

Lemma lang_range (a b : ascii) (m : str) :
  lang (Re.range a b) m <-> exists c, m = [c] /\ between a b c.
Proof.
  simpl. unfold between. split; intros (c & -> & H); exists c; split; try reflexivity.
  - class_facts. lia.
  - apply andb_true_iff. split; apply N.leb_le; lia.
Qed.

Lemma lang_digit (m : str) :
  lang Re.digit m <-> exists c, m = [c] /\ Unicode.isdecimal c = true.
Proof. reflexivity. Qed.

Lemma lang_cat (r1 r2 : Re.re) (m : str) :
  lang (Re.Cat r1 r2) m <-> exists m1 m2, m = m1 ++ m2 /\ lang r1 m1 /\ lang r2 m2.
Proof. reflexivity. Qed.

Lemma lang_alt (r1 r2 : Re.re) (m : str) :
  lang (Re.Alt r1 r2) m <-> lang r1 m \/ lang r2 m.
Proof. reflexivity. Qed.

Lemma lang_directive_d (d : str) : lang datetime.directive_d d <-> day_text d.
Proof.
  unfold datetime.directive_d. split.
  - intros H. lang_facts; subst; constructor; unfold between; auto; fail.
  - intros H. destruct H; rewrite !lang_alt.
    + left. apply lang_cat. exists [51%N], [b]. rewrite lang_chr, lang_range.
      repeat split; try reflexivity; eauto.
    + right; left. apply lang_cat. exists [a], [b]. rewrite lang_range, lang_digit.
      repeat split; try reflexivity; eauto.
    + right; right; left. apply lang_cat. exists [48%N], [b]. rewrite lang_chr, lang_range.
      repeat split; try reflexivity; eauto.
    + right; right; right; left. apply lang_range. eauto.
    + right; right; right; right. apply lang_cat. exists [32%N], [b].
      rewrite lang_chr, lang_range.
      repeat split; try reflexivity; eauto.
Qed.

Lemma lang_directive_m (m : str) : lang datetime.directive_m m <-> month_text m.
Proof.
  unfold datetime.directive_m. split.
  - intros H. lang_facts; subst; constructor; unfold between; auto; fail.
  - intros H. destruct H; rewrite !lang_alt.
    + left. apply lang_cat. exists [49%N], [b]. rewrite lang_chr, lang_range.
      repeat split; try reflexivity; eauto.
    + right; left. apply lang_cat. exists [48%N], [b]. rewrite lang_chr, lang_range.
      repeat split; try reflexivity; eauto.
    + right; right. apply lang_range. eauto.
Qed.

Lemma lang_directive_Y (y : str) : lang datetime.directive_Y y <-> year_text y.
Proof.
  unfold datetime.directive_Y, year_text. split.
  - intros H. lang_facts; subst; simpl. split; [reflexivity|].
    repeat match goal with H : Unicode.isdecimal _ = true |- _ => rewrite H; clear H end.
    reflexivity.
  - intros [Hlen Hall].
    destruct y as [|a [|b [|c [|d [|e y]]]]]; try discriminate.
    simpl in Hall. class_facts.
    apply lang_cat. exists [a], [b; c; d]. split; [reflexivity|].
    split; [apply lang_digit; eauto|].
    apply lang_cat. exists [b], [c; d]. split; [reflexivity|].
    split; [apply lang_digit; eauto|].
    apply lang_cat. exists [c], [d]. split; [reflexivity|].
    split; apply lang_digit; eauto.
Qed.

(** ** The matches of the date pattern *)

Lemma in_format_regex_matches (s d m y rest : str) :
  In (d, m, y, rest) (datetime.format_regex_matches s)
  <-> day_text d /\ month_text m /\ year_text y
      /\ s = d ++ SLASH :: m ++ SLASH :: y ++ rest.
Proof.
  unfold datetime.format_regex_matches. split.
  - intros H.
    apply in_flat_map in H as ([d0 r0] & H0 & H).
    apply in_flat_map in H as ([x1 r1] & H1 & H).
    apply in_flat_map in H as ([m0 r2] & H2 & H).
    apply in_flat_map in H as ([x2 r3] & H3 & H).
    apply in_map_iff in H as ([y0 r4] & Heq & H4).
    cbn [fst snd] in *. injection Heq as <- <- <- <-.
    apply matches_spec in H0 as [L0 ->]. apply matches_spec in H1 as [L1 ->].
    apply matches_spec in H2 as [L2 ->]. apply matches_spec in H3 as [L3 ->].
    apply matches_spec in H4 as [L4 ->].
    apply lang_chr in L1, L3. subst x1 x2.
    apply lang_directive_d in L0. apply lang_directive_m in L2.
    apply lang_directive_Y in L4. auto.
  - intros (Hd & Hm & Hy & ->).
    apply in_flat_map. exists (d, SLASH :: m ++ SLASH :: y ++ rest). split.
    { apply matches_spec. split; [now apply lang_directive_d | reflexivity]. }
    apply in_flat_map. exists ([SLASH], m ++ SLASH :: y ++ rest). split.
    { apply matches_spec. split; [now apply lang_chr | reflexivity]. }
    apply in_flat_map. exists (m, SLASH :: y ++ rest). split.
    { apply matches_spec. split; [now apply lang_directive_m | reflexivity]. }
    apply in_flat_map. exists ([SLASH], y ++ rest). split.
    { apply matches_spec. split; [now apply lang_chr | reflexivity]. }
    apply in_map_iff. exists (y, rest). split; [reflexivity|].
    apply matches_spec. split; [now apply lang_directive_Y | reflexivity].
Qed.

Lemma slash_not_decimal : Unicode.isdecimal SLASH = false.
Proof. vm_compute. reflexivity. Qed.

Lemma day_text_prefix (d d' t t' : str) :
  day_text d -> day_text d' ->
  d ++ SLASH :: t = d' ++ SLASH :: t' -> d = d' /\ t = t'.
Proof.
  intros Hd Hd' Heq.
  destruct Hd; destruct Hd'; simpl in Heq; injection Heq; intros; subst;
    try (split; reflexivity); exfalso; no_slash.
Qed.

Lemma month_text_prefix (m m' t t' : str) :
  month_text m -> month_text m' ->
  m ++ SLASH :: t = m' ++ SLASH :: t' -> m = m' /\ t = t'.
Proof.
  intros Hm Hm' Heq.
  destruct Hm; destruct Hm'; simpl in Heq; injection Heq; intros; subst;
    try (split; reflexivity); exfalso; no_slash.
Qed.

Lemma year_text_prefix (y y' t t' : str) :
  year_text y -> year_text y' -> y ++ t = y' ++ t' -> y = y' /\ t = t'.
Proof.
  intros [Hlen _] [Hlen' _] Heq.
  destruct y as [|a [|b [|c [|d [|e y]]]]]; try discriminate.
  destruct y' as [|a' [|b' [|c' [|d' [|e' y']]]]]; try discriminate.
  simpl in Heq. injection Heq; intros; subst. auto.
Qed.

Lemma format_regex_matches_unique (s : str) (x x' : str * str * str * str) :
  In x (datetime.format_regex_matches s) ->
  In x' (datetime.format_regex_matches s) -> x = x'.
Proof.
  destruct x as [[[d m] y] rest], x' as [[[d' m'] y'] rest'].
  intros H H'.
  apply in_format_regex_matches in H as (Hd & Hm & Hy & Hs).
  apply in_format_regex_matches in H' as (Hd' & Hm' & Hy' & Hs').
  rewrite Hs in Hs'.
  apply (@day_text_prefix _ _ _ _ Hd Hd') in Hs' as [-> Hs'].
  apply (@month_text_prefix _ _ _ _ Hm Hm') in Hs' as [-> Hs'].
  apply (@year_text_prefix _ _ _ _ Hy Hy') in Hs' as [-> ->].
  reflexivity.
Qed.

Lemma format_regex_match_spec (s d m y rest : str) :
  datetime.format_regex_match s = Some (d, m, y, rest)
  <-> day_text d /\ month_text m /\ year_text y
      /\ s = d ++ SLASH :: m ++ SLASH :: y ++ rest.
Proof.
  rewrite <- in_format_regex_matches. unfold datetime.format_regex_match.
  split.
  - destruct (datetime.format_regex_matches s) as [|x l]; simpl; [discriminate|].
    intros H; injection H as ->. now left.
  - intros Hin. pose proof (format_regex_matches_unique s) as Huniq.
    destruct (datetime.format_regex_matches s) as [|x l]; [destruct Hin|].
    simpl. f_equal. apply Huniq; [now left | assumption].
Qed.

(** ** Dates *)

Lemma check_date_fields_spec (year month day : Z) :
  datetime.check_date_fields year month day = Val tt <-> real_date year month day.
Proof.
  unfold datetime.check_date_fields, real_date, datetime.MINYEAR, datetime.MAXYEAR.
  destruct (Z.leb_spec 1 year), (Z.leb_spec year 9999); simpl;
    try (split; [discriminate | lia]).
  destruct (Z.leb_spec 1 month), (Z.leb_spec month 12); simpl;
    try (split; [discriminate | lia]).
  destruct (Z.leb_spec 1 day),
           (Z.leb_spec day (datetime.days_in_month year month)); simpl;
    try (split; [discriminate | lia]).
  split; [lia | reflexivity].
Qed.

Lemma strptime_text (s : str) :
  (forall dt, datetime.strptime (PyStr s) = Val dt ->
              exists d m y,
                s = d ++ SLASH :: m ++ SLASH :: y
                /\ day_text d /\ month_text m /\ year_text y
                /\ real_date (datetime.int y) (datetime.int m) (datetime.int d)
                /\ dt = datetime.mk (datetime.ymd2ord (datetime.int y) (datetime.int m)
                                                      (datetime.int d)) 0)
  /\ (date_text s -> exists dt, datetime.strptime (PyStr s) = Val dt).
Proof.
  unfold datetime.strptime. split.
  - intros dt.
    destruct (datetime.format_regex_match s) as [[[[d m] y] rest]|] eqn:E;
      [|discriminate].
    apply format_regex_match_spec in E as (Hd & Hm & Hy & ->).
    destruct rest as [|c rest]; simpl; [|discriminate].
    unfold datetime.of_date.
    destruct (datetime.check_date_fields (datetime.int y) (datetime.int m)
                                         (datetime.int d)) as [[]|e] eqn:Ec;
      simpl; [|discriminate].
    intros H; injection H as <-.
    apply check_date_fields_spec in Ec.
    exists d, m, y. rewrite app_nil_r. auto 10.
  - intros (d & m & y & -> & Hd & Hm & Hy & Hreal).
    assert (E : datetime.format_regex_match (d ++ SLASH :: m ++ SLASH :: y)
                = Some (d, m, y, [])).
    { apply format_regex_match_spec. rewrite app_nil_r. auto. }
    rewrite E. simpl. unfold datetime.of_date.
    apply check_date_fields_spec in Hreal. rewrite Hreal. simpl. eauto.
Qed.

Lemma Birthday_accepted_iff (s : str) :
  accepted Birthday.validate s <-> date_text s.
Proof.
  unfold accepted. rewrite Birthday_validate_text.
  destruct (strptime_text s) as [Hfrom Hto]. split.
  - destruct (datetime.strptime (PyStr s)) as [dt|e]; [|discriminate].
    intros _. destruct (Hfrom dt eq_refl) as (d & m & y & H). exists d, m, y. tauto.
  - intros H. destruct (Hto H) as [dt ->]. reflexivity.
Qed.

(** C7, as amended.  [Birthday.validate] accepts 29/02/2024 and rejects
    29/02/2023 and 31/04/2020; it accepts a text exactly when the text
    reads day/month/year of a real date, where the day is one or two digits
    or a blank and a digit, the month one or two digits and the year four
    digits; any other text raises the [ValueError] of the validator. *)
Theorem Birthday_validate_reads_dates :
  Birthday.validate (PyStr (u "29/02/2024")) = Val (u "29/02/2024")
  /\ Birthday.validate (PyStr (u "29/02/2023")) = Raise (ValueError Birthday.MESSAGE)
  /\ Birthday.validate (PyStr (u "31/04/2020")) = Raise (ValueError Birthday.MESSAGE)
  /\ (forall s : str,
         (Birthday.validate (PyStr s) = Val s <-> date_text s)
         /\ (~ date_text s ->
             Birthday.validate (PyStr s) = Raise (ValueError Birthday.MESSAGE))).
Proof.
  split; [vm_compute; reflexivity|]. split; [vm_compute; reflexivity|].
  split; [vm_compute; reflexivity|].
  intros s. split; [apply Birthday_accepted_iff|].
  intros Hnot. rewrite Birthday_validate_text.
  destruct (datetime.strptime (PyStr s)) as [dt|e] eqn:E; [|reflexivity].
  exfalso. apply Hnot. apply Birthday_accepted_iff.
  unfold accepted. rewrite Birthday_validate_text, E. reflexivity.
Qed.

(** Counterexample for C7 as stated: 1/1/2024 is not of the strict form
    DD/MM/YYYY, and [Birthday.validate] accepts it. *)
Lemma Birthday_validate_accepts_unpadded :
  strict_form (u "1/1/2024") = false
  /\ Birthday.validate (PyStr (u "1/1/2024")) = Val (u "1/1/2024").
Proof.
  split; vm_compute; reflexivity.
Qed.

(** ** The calendar

    Day numbers stand for dates in [datetime.t]: they follow the order of
    the dates and stay within the range [datetime] covers. *)

Lemma is_leap_spec (y : Z) :
  datetime.is_leap y = true
  <-> (y mod 4 = 0 /\ (y mod 100 <> 0 \/ y mod 400 = 0))%Z.
Proof.
  unfold datetime.is_leap.
  destruct (Z.eqb_spec (y mod 4) 0), (Z.eqb_spec (y mod 100) 0),
           (Z.eqb_spec (y mod 400) 0); simpl; split; intros;
    try discriminate; try tauto; try reflexivity.
Qed.

Lemma days_before_year_succ (y : Z) :
  datetime.days_before_year (y + 1)
  = (datetime.days_before_year y + (if datetime.is_leap y then 366 else 365))%Z.
Proof.
  unfold datetime.days_before_year.
  replace (y + 1 - 1)%Z with y by lia.
  destruct (datetime.is_leap y) eqn:E.
  - apply is_leap_spec in E. Z.div_mod_to_equations; lia.
  - assert (H : ~ (y mod 4 = 0 /\ (y mod 100 <> 0 \/ y mod 400 = 0))%Z).
    { intros H. apply is_leap_spec in H. congruence. }
    Z.div_mod_to_equations; lia.
Qed.

Lemma days_before_year_mono (a b : Z) :
  (a <= b)%Z -> (datetime.days_before_year a <= datetime.days_before_year b)%Z.
Proof.
  unfold datetime.days_before_year. intros H. Z.div_mod_to_equations; lia.
Qed.

Lemma month_cases (m : Z) :
  (1 <= m <= 12)%Z ->
  (m = 1 \/ m = 2 \/ m = 3 \/ m = 4 \/ m = 5 \/ m = 6 \/ m = 7 \/ m = 8 \/ m = 9
   \/ m = 10 \/ m = 11 \/ m = 12)%Z.
Proof. lia. Qed.

Lemma month_tables (y : Z) :
  let leap := (if datetime.is_leap y then 1 else 0)%Z in
  let before := datetime.days_before_month y in
  let within := datetime.days_in_month y in
  (before 1 = 0 /\ before 2 = 31 /\ before 3 = 59 + leap /\ before 4 = 90 + leap
   /\ before 5 = 120 + leap /\ before 6 = 151 + leap /\ before 7 = 181 + leap
   /\ before 8 = 212 + leap /\ before 9 = 243 + leap /\ before 10 = 273 + leap
   /\ before 11 = 304 + leap /\ before 12 = 334 + leap)%Z
  /\ (within 1 = 31 /\ within 2 = 28 + leap /\ within 3 = 31 /\ within 4 = 30
      /\ within 5 = 31 /\ within 6 = 30 /\ within 7 = 31 /\ within 8 = 31
      /\ within 9 = 30 /\ within 10 = 31 /\ within 11 = 30 /\ within 12 = 31)%Z.
Proof.
  unfold datetime.days_before_month, datetime.days_in_month.
  destruct (datetime.is_leap y); cbv zeta; repeat split; reflexivity.
Qed.

Lemma day_of_year_bounds (y m d : Z) :
  real_date y m d ->
  (1 <= datetime.days_before_month y m + d
   <= (if datetime.is_leap y then 366 else 365))%Z.
Proof.
  intros (_ & Hm & Hd). pose proof (month_tables y) as Ht. cbv zeta in Ht.
  apply month_cases in Hm.
  destruct (datetime.is_leap y); intuition (subst; lia).
Qed.

Lemma within_year_order (y m d m' d' : Z) :
  real_date y m d -> real_date y m' d' -> (m < m')%Z ->
  (datetime.days_before_month y m + d < datetime.days_before_month y m' + d')%Z.
Proof.
  intros (_ & Hm & Hd) (_ & Hm' & Hd') Hlt.
  pose proof (month_tables y) as Ht. cbv zeta in Ht.
  destruct Ht as
    ((B1 & B2 & B3 & B4 & B5 & B6 & B7 & B8 & B9 & B10 & B11 & B12)
     & (W1 & W2 & W3 & W4 & W5 & W6 & W7 & W8 & W9 & W10 & W11 & W12)).
  apply month_cases in Hm. apply month_cases in Hm'.
  destruct (datetime.is_leap y);
    repeat (destruct Hm as [Hm|Hm]); subst m;
    repeat (destruct Hm' as [Hm'|Hm']); subst m'; lia.
Qed.

Lemma ymd2ord_increases (y m d y' m' d' : Z) :
  real_date y m d -> real_date y' m' d' ->
  date_before y m d y' m' d' ->
  (datetime.ymd2ord y m d < datetime.ymd2ord y' m' d')%Z.
Proof.
  intros Hr Hr' Hbefore. unfold datetime.ymd2ord.
  destruct Hbefore as [Hy | [-> [Hm | [-> Hd]]]].
  - pose proof (day_of_year_bounds Hr) as Hb.
    pose proof (day_of_year_bounds Hr') as Hb'.
    pose proof (days_before_year_succ y) as Hs.
    pose proof (@days_before_year_mono (y + 1) y' ltac:(lia)) as Hmono.
    lia.
  - pose proof (within_year_order Hr Hr' Hm). lia.
  - lia.
Qed.

(** The order of day numbers is the order of dates. *)
Lemma ymd2ord_order (y m d y' m' d' : Z) :
  real_date y m d -> real_date y' m' d' ->
  ((datetime.ymd2ord y m d < datetime.ymd2ord y' m' d')%Z
   <-> date_before y m d y' m' d').
Proof.
  intros Hr Hr'. split; [|now apply ymd2ord_increases].
  intros Hlt.
  assert (Hcases : date_before y m d y' m' d'
                   \/ (y = y' /\ m = m' /\ d = d')
                   \/ date_before y' m' d' y m d)
    by (unfold date_before; lia).
  destruct Hcases as [H | [(-> & -> & ->) | H]]; [assumption | lia |].
  pose proof (ymd2ord_increases Hr' Hr H). lia.
Qed.

(** The day number of a real date is one [datetime] covers. *)
Lemma ymd2ord_range (y m d : Z) :
  real_date y m d -> (1 <= datetime.ymd2ord y m d <= datetime.MAXORDINAL)%Z.
Proof.
  intros Hr. pose proof (day_of_year_bounds Hr) as Hb.
  destruct Hr as (Hy & _ & _).
  pose proof (@days_before_year_mono 1 y ltac:(lia)) as Hlo.
  pose proof (@days_before_year_mono (y + 1) 10000 ltac:(lia)) as Hhi.
  rewrite days_before_year_succ in Hhi.
  unfold datetime.ymd2ord, datetime.MAXORDINAL.
  change (datetime.days_before_year 1) with 0%Z in Hlo.
  change (datetime.days_before_year 10000) with 3652059%Z in Hhi.
  destruct (datetime.is_leap y); lia.
Qed.

Lemma strptime_wf (b : str) (dt : datetime.t) :
  datetime.strptime (PyStr b) = Val dt -> datetime.wf dt.
Proof.
  intros H. destruct (strptime_text b) as [Hfrom _].
  destruct (Hfrom dt H) as (d & m & y & _ & _ & _ & _ & Hreal & ->).
  split; [now apply ymd2ord_range | unfold datetime.DAY; simpl; lia].
Qed.

(** ** The birthdays of the week *)

Lemma strptime_midnight (b : str) (dt : datetime.t) :
  datetime.strptime (PyStr b) = Val dt ->
  dt = datetime.mk (datetime.ordinal dt) 0.
Proof.
  intros H. destruct (strptime_text b) as [Hfrom _].
  destruct (Hfrom dt H) as (d & m & y & _ & _ & _ & _ & _ & ->). reflexivity.
Qed.

Lemma week_window (today : datetime.t) (day : Z) :
  datetime.wf today ->
  datetime.le today (datetime.mk day 0)
  && datetime.le (datetime.mk day 0)
                 (datetime.mk (datetime.ordinal today + 7) (datetime.microsecond today))
  = midnights_of_week_from today day.
Proof.
  intros [_ Hus]. unfold datetime.le, midnights_of_week_from. simpl.
  destruct (Z.ltb_spec (datetime.ordinal today) day),
           (Z.eqb_spec (datetime.ordinal today) day),
           (Z.leb_spec (datetime.microsecond today) 0),
           (Z.eqb_spec (datetime.microsecond today) 0),
           (Z.leb_spec (datetime.ordinal today) day),
           (Z.ltb_spec day (datetime.ordinal today + 7)),
           (Z.eqb_spec day (datetime.ordinal today + 7)),
           (Z.leb_spec 0 (datetime.microsecond today)),
           (Z.leb_spec day (datetime.ordinal today + 7));
    simpl; try reflexivity; lia.
Qed.

Lemma week_window_days (today : datetime.t) (day : Z) :
  midnights_of_week_from today day
  = days_of_week_from today day
    && ((datetime.microsecond today =? 0)%Z || negb (day =? datetime.ordinal today)%Z).
Proof.
  unfold midnights_of_week_from, days_of_week_from.
  destruct (Z.eqb_spec (datetime.microsecond today) 0),
           (Z.leb_spec (datetime.ordinal today) day),
           (Z.ltb_spec (datetime.ordinal today) day),
           (Z.leb_spec day (datetime.ordinal today + 7)),
           (Z.eqb_spec day (datetime.ordinal today));
    simpl; try reflexivity; lia.
Qed.

Lemma birthdays_loop_spec (today : datetime.t) (records : list Record.t) :
  datetime.wf today ->
  Forall record_invariant records ->
  forall acc,
    AddressBook.birthdays_loop
      today (datetime.mk (datetime.ordinal today + 7) (datetime.microsecond today))
      records acc
    = Val (acc ++ flat_map (birthday_pair (midnights_of_week_from today)) records).
Proof.
  intros Hwf Hall. induction Hall as [|r records Hr Hall IH]; intros acc;
    cbn [AddressBook.birthdays_loop flat_map].
  - now rewrite app_nil_r.
  - unfold birthday_pair at 1, birthday_day.
    destruct (Record.birthday r) as [b|] eqn:Eb; [|apply IH].
    destruct Hr as (_ & _ & Hb). specialize (Hb b Eb).
    unfold accepted in Hb. rewrite Birthday_validate_text in Hb.
    destruct (datetime.strptime (PyStr b)) as [dt|e] eqn:Edt; [|discriminate].
    pose proof (strptime_midnight _ Edt) as Hmid.
    destruct dt as [day us]. cbn [datetime.ordinal] in *. injection Hmid as ->.
    cbn [bind]. rewrite (week_window _ Hwf).
    destruct (midnights_of_week_from today day).
    + rewrite IH. now rewrite <- app_assoc.
    + apply IH.
Qed.

(** What [get_birthdays_per_week] returns at an instant [today] for which
    seven days later is still a date, on a book of valid records: in the
    order of the book, the pairs (name, birthday) of the records whose
    birthday, read with its stored year, has its midnight between that
    instant and seven days after it, both included. *)
Lemma birthdays_of_the_week (today : datetime.t) (data : AddressBook.t) :
  datetime.wf today ->
  (datetime.ordinal today + 7 <= datetime.MAXORDINAL)%Z ->
  book_invariant data ->
  AddressBook.get_birthdays_per_week today data
  = Val (birthdays_on (midnights_of_week_from today) data)
  /\ (forall day,
         midnights_of_week_from today day
         = days_of_week_from today day
           && ((datetime.microsecond today =? 0)%Z
               || negb (day =? datetime.ordinal today)%Z))
  /\ AddressBook.get_birthdays_per_week today [] = Val [].
Proof.
  intros Hwf Hmax Hbook.
  assert (Hadd : datetime.add_days today 7
                 = Val (datetime.mk (datetime.ordinal today + 7)
                                    (datetime.microsecond today))).
  { unfold datetime.add_days. destruct Hwf as [[Hlo _] _].
    destruct (Z.ltb_spec 0 (datetime.ordinal today + 7)); [|lia].
    destruct (Z.leb_spec (datetime.ordinal today + 7) datetime.MAXORDINAL); [|lia].
    reflexivity. }
  unfold AddressBook.get_birthdays_per_week. rewrite Hadd. simpl.
  split; [|split].
  - now rewrite birthdays_loop_spec.
  - apply week_window_days.
  - reflexivity.
Qed.

Lemma ann_book_invariant : book_invariant ann_book.
Proof.
  unfold book_invariant. vm_compute dict_values.
  constructor; [|constructor].
  split; [vm_compute; reflexivity|]. split.
  - constructor; [vm_compute; reflexivity | constructor].
  - intros b Hb. injection Hb as <-. vm_compute. reflexivity.
Defined.

(** The book of Ann, born on 10 May 2024, on 7 May 2024 at 14:30. *)
Lemma birthdays_three_days_before :
  AddressBook.get_birthdays_per_week
    (datetime.mk (datetime.ymd2ord 2024 5 7) (datetime.microsecond afternoon)) ann_book
  = Val [(u "Ann", u "10/05/2024")].
Proof.
  destruct (@birthdays_of_the_week
              (datetime.mk (datetime.ymd2ord 2024 5 7) (datetime.microsecond afternoon))
              ann_book) as [H _].
  - vm_compute. repeat split; discriminate.
  - vm_compute. discriminate.
  - exact ann_book_invariant.
  - rewrite H. vm_compute. reflexivity.
Defined.

(** C2, what the program does instead.  [today] is [datetime.today()],
    an instant with its time of day, and a birthday is read as the midnight
    of its date, so [today <= birthday_date] holds for a birthday that falls
    today only when the call is made at midnight sharp.  On 10 May 2024 at
    14:30 the birthday 10/05/2024 of Ann, a day of the week from today to
    today + 7, is not returned.  It is so for every book of valid records
    and every instant from which seven days can be counted: the pairs
    returned are those of the days from today to today + 7, less today
    itself unless the instant is a midnight; the empty book gives the empty
    list. *)
Theorem birthday_of_today_is_left_out :
  datetime.of_fields 2024 5 10 14 30 0 = Val afternoon
  /\ birthdays_on (days_of_week_from afternoon) ann_book = [(u "Ann", u "10/05/2024")]
  /\ AddressBook.get_birthdays_per_week afternoon ann_book = Val []
  /\ AddressBook.get_birthdays_per_week afternoon ann_book
     <> Val (birthdays_on (days_of_week_from afternoon) ann_book)
  /\ (forall (today : datetime.t) (data : AddressBook.t),
         datetime.wf today ->
         (datetime.ordinal today + 7 <= datetime.MAXORDINAL)%Z ->
         book_invariant data ->
         AddressBook.get_birthdays_per_week today data
         = Val (birthdays_on (midnights_of_week_from today) data)
         /\ (forall day,
                midnights_of_week_from today day
                = days_of_week_from today day
                  && ((datetime.microsecond today =? 0)%Z
                      || negb (day =? datetime.ordinal today)%Z))
         /\ AddressBook.get_birthdays_per_week today [] = Val []).
Proof.
  split; [vm_compute; reflexivity|]. split; [vm_compute; reflexivity|].
  split; [vm_compute; reflexivity|]. split; [vm_compute; discriminate|].
  intros today data Hwf Hmax Hbook. now apply birthdays_of_the_week.
Qed.

(** ** The invariant of a record *)

Lemma record_invariant_spelled (r : Record.t) :
  record_invariant r
  <-> isalpha (Record.name r) = true
      /\ Forall ten_digits (Record.phones r)
      /\ (forall b, Record.birthday r = Some b -> date_text b).
Proof.
  unfold record_invariant. rewrite Name_accepted_iff.
  assert (Hp : Forall (accepted Phone.validate) (Record.phones r)
               <-> Forall ten_digits (Record.phones r)).
  { split; apply Forall_impl; intros p; apply Phone_accepted_iff. }
  rewrite Hp. split; intros (Hn & Hps & Hb); (split; [|split]); try assumption;
    intros b Eb; apply Birthday_accepted_iff; now apply Hb.
Qed.

(** C9, as amended.  A record that [Record] constructs satisfies the
    invariant of the validators: its name is not empty and made of letters,
    each of its phones is ten characters that are digits in the sense of
    [str.isdigit], and its birthday, when it has one, reads as a date; and
    the record that [add_phone], [remove_phone], [edit_phone] or
    [add_birthday] leaves behind, whether the call returned or raised,
    satisfies it again.  A record of phones that are ten decimal digits,
    the invariant as it is stated, satisfies it. *)
Theorem record_invariant_kept :
  (forall (name phones birthday : pyval) (r : Record.t),
      Record.init name phones birthday = Val r -> record_invariant r)
  /\ (forall (self : Record.t) (v w : pyval),
         record_invariant self ->
         record_invariant (snd (Record.add_phone v self))
         /\ record_invariant (snd (Record.remove_phone v self))
         /\ record_invariant (snd (Record.edit_phone v w self))
         /\ record_invariant (snd (Record.add_birthday v self)))
  /\ (forall r : Record.t,
         record_invariant r
         <-> isalpha (Record.name r) = true
             /\ Forall ten_digits (Record.phones r)
             /\ (forall b, Record.birthday r = Some b -> date_text b))
  /\ (forall r : Record.t, record_invariant_as_stated r -> record_invariant r).
Proof.
  split; [exact init_invariant|]. split; [|split].
  - intros self v w Hinv. split; [|split; [|split]].
    + apply (add_phone_keeps v Hinv).
    + apply (remove_phone_keeps v Hinv).
    + apply (edit_phone_keeps v w Hinv).
    + apply (add_birthday_keeps v Hinv).
  - exact record_invariant_spelled.
  - intros r (Hn & Hps & Hb). split; [exact Hn|]. split; [|exact Hb].
    revert Hps. apply Forall_impl. intros p [Hlen Hdec].
    apply Phone_accepted_iff. split; [exact Hlen|].
    revert Hdec. apply forallb_impl, isdecimal_isdigit.
Qed.

(** Witness for C9: the record of John, and what a failed edit leaves of
    it. *)
Lemma record_invariant_of_john :
  exists r, record_of "John" ["1234567890"%string] "01/01/1990" = Val r
            /\ record_invariant r
            /\ record_invariant (snd (Record.edit_phone (PyStr (u "1234567890"))
                                                        (PyStr (u "12")) r)).
Proof.
  eexists. split; [vm_compute; reflexivity|].
  destruct record_invariant_kept as (Hinit & Hops & _).
  assert (Hr : record_invariant
                 (Record.mk (u "John") [u "1234567890"] (Some (u "01/01/1990")))).
  { apply (Hinit (PyStr (u "John")) (PyList [PyStr (u "1234567890")])
                 (PyStr (u "01/01/1990"))).
    vm_compute. reflexivity. }
  split; [exact Hr|].
  apply (Hops _ (PyStr (u "1234567890")) (PyStr (u "12")) Hr).
Defined.

(** Counterexample for C9 as stated: [Record] builds the record of John
    with a phone of ten superscript twos, and [add_phone] adds that phone
    to the record of John without phones; the record has a phone that is
    not ten decimal digits. *)
Lemma record_with_superscript_twos :
  Record.init (PyStr (u "John")) (PyList [PyStr superscript_twos]) PyNone
  = Val (Record.mk (u "John") [superscript_twos] None)
  /\ Record.add_phone (PyStr superscript_twos) (Record.mk (u "John") [] None)
     = (Val tt, Record.mk (u "John") [superscript_twos] None)
  /\ ~ record_invariant_as_stated (Record.mk (u "John") [superscript_twos] None).
Proof.
  split; [vm_compute; reflexivity|]. split; [vm_compute; reflexivity|].
  intros (_ & Hps & _). inversion Hps as [|p ps [_ Hdec] _]; subst.
  vm_compute in Hdec. discriminate.
Qed.

(** * Further properties *)

(** ** [Name.validate] *)

Lemma below_128 (P : N -> bool) :
  forallb (fun n => P (N.of_nat n)) (seq 0 128) = true ->
  forall c, (c < 128)%N -> P c = true.
Proof.
  intros Hall c Hc. rewrite forallb_forall in Hall.
  rewrite <- (N2Nat.id c). apply Hall. apply in_seq. lia.
Qed.

Lemma isalpha_ascii (c : N) :
  (c < 128)%N -> Unicode.isalpha c = ascii_letter c.
Proof.
  intros Hc. apply Bool.eqb_prop.
  revert c Hc. apply (below_128 (fun c => Bool.eqb (Unicode.isalpha c) (ascii_letter c))).
  vm_compute. reflexivity.
Qed.

(** X1.  [Name.validate] lets a text through exactly when it is not empty
    and all its characters are letters; any other text, the empty one
    included, raises [ValueError]; below U+0080 the letters are A-Z and
    a-z, so a text with a digit, a blank or a punctuation mark of ASCII is
    rejected; a value that is no text raises [AttributeError]. *)
Theorem Name_validate_letters (s : str) :
  (Name.validate (PyStr s) = Val s
   <-> s <> [] /\ forallb Unicode.isalpha s = true)
  /\ (~ (s <> [] /\ forallb Unicode.isalpha s = true) ->
      Name.validate (PyStr s) = Raise (ValueError "Name should contain only letters."))
  /\ (forall c, In c s -> (c < 128)%N -> ascii_letter c = false ->
                Name.validate (PyStr s)
                = Raise (ValueError "Name should contain only letters."))
  /\ (forall v, (forall t, v <> PyStr t) -> Name.validate v = Raise AttributeError).
Proof.
  assert (Hiff : isalpha s = true <-> s <> [] /\ forallb Unicode.isalpha s = true).
  { unfold isalpha. destruct s as [|c s]; simpl.
    - split; [discriminate | intros [H _]; congruence].
    - split; [intros H; split; [discriminate | exact H] | tauto]. }
  assert (Hbad : ~ (s <> [] /\ forallb Unicode.isalpha s = true) ->
                 Name.validate (PyStr s)
                 = Raise (ValueError "Name should contain only letters.")).
  { intros Hnot. simpl. destruct (isalpha s) eqn:E; [|reflexivity].
    exfalso. apply Hnot, Hiff. reflexivity. }
  split; [|split; [exact Hbad|split]].
  - rewrite <- Hiff. simpl. destruct (isalpha s); simpl; split; congruence.
  - intros c Hin Hc Hno. apply Hbad. intros [_ Hall].
    rewrite forallb_forall in Hall. specialize (Hall c Hin).
    rewrite (isalpha_ascii Hc) in Hall. congruence.
  - intros v Hv. destruct v; try reflexivity. exfalso. now apply (Hv s0).
Qed.

(** ** The methods of [Record], one by one *)

Lemma valid_phone_iff (p : str) : valid_phone p = true <-> ten_digits p.
Proof.
  unfold valid_phone, ten_digits. rewrite andb_true_iff, Nat.eqb_eq. tauto.
Qed.

Lemma Phone_validate_decides (p : str) :
  Phone.validate (PyStr p)
  = if valid_phone p then Val p else Raise (ValueError Phone.MESSAGE).
Proof. apply Phone_validate_text. Qed.

(** X2.  [add_phone] either appends the phone after the ones the record
    holds, which it keeps as they are, or raises and leaves the record
    untouched; on text it raises exactly when the text is not ten digits,
    with the [ValueError] of the validator. *)
Theorem add_phone_appends_or_leaves (self : Record.t) (v : pyval) :
  (exists p, v = PyStr p /\ ten_digits p
             /\ Record.add_phone v self
                = (Val tt, Record.mk (Record.name self) (Record.phones self ++ [p])
                                     (Record.birthday self)))
  \/ (exists e, Record.add_phone v self = (Raise e, self)
                /\ forall p, v = PyStr p ->
                             ~ ten_digits p /\ e = ValueError Phone.MESSAGE).
Proof.
  destruct (Phone.validate v) as [p|e] eqn:E.
  - left. exists p. apply Phone_validate_val in E as Hv. subst v.
    split; [reflexivity|]. split; [now apply Phone_accepted_iff|].
    now apply add_phone_text.
  - right. exists e. split; [now apply add_phone_rejected|].
    intros p ->. rewrite Phone_validate_decides in E.
    destruct (valid_phone p) eqn:Ep; [discriminate|].
    split; [|congruence]. intros Hten. apply valid_phone_iff in Hten. congruence.
Qed.

Lemma find_phone_some (v : pyval) (self : Record.t) (p : str) :
  Record.find_phone v self = Some p <-> v = PyStr p /\ In p (Record.phones self).
Proof.
  unfold Record.find_phone. split.
  - intros H. apply find_some in H as [Hin Heq].
    destruct v; simpl in Heq; try discriminate.
    apply str_eqb_eq in Heq. subst. auto.
  - intros [-> Hin]. now apply find_phone_present.
Qed.

Lemma find_phone_none (v : pyval) (self : Record.t) :
  Record.find_phone v self = None
  <-> forall p, v = PyStr p -> ~ In p (Record.phones self).
Proof.
  split.
  - intros Hnone p -> Hin. rewrite (find_phone_present _ _ Hin) in Hnone. discriminate.
  - intros Hno. destruct (Record.find_phone v self) as [p|] eqn:E; [|reflexivity].
    apply find_phone_some in E as [-> Hin]. exfalso. now apply (Hno p).
Qed.

(** X3.  [find_phone] returns a phone exactly when the value asked for is
    a text the record holds, and then that text; for any other value,
    texts the record does not hold and values that are no text alike, it
    returns nothing. *)
Theorem find_phone_finds (self : Record.t) (v : pyval) :
  (forall p, Record.find_phone v self = Some p
             <-> v = PyStr p /\ In p (Record.phones self))
  /\ (Record.find_phone v self = None
      <-> forall p, v = PyStr p -> ~ In p (Record.phones self)).
Proof.
  split; [intros p; apply find_phone_some | apply find_phone_none].
Qed.

Lemma list_remove_absent (v : pyval) (l : list str) :
  (forall p, v = PyStr p -> ~ In p l) -> Record.list_remove v l = l.
Proof.
  intros Hno. induction l as [|x l IH]; simpl; [reflexivity|].
  destruct (Record.value_eq x v) eqn:E.
  - destruct v; simpl in E; try discriminate. apply str_eqb_eq in E. subst.
    exfalso. apply (Hno s eq_refl). now left.
  - f_equal. apply IH. intros p Hp Hin. apply (Hno p Hp). now right.
Qed.

(** X4.  [remove_phone] never raises and keeps name and birthday; when the
    record does not hold the phone it changes nothing; when it does, it
    takes out the first entry equal to it and no other, so that a phone
    stored twice is still found afterwards. *)
Theorem remove_phone_first_only (self : Record.t) (v : pyval) :
  fst (Record.remove_phone v self) = Val tt
  /\ Record.name (snd (Record.remove_phone v self)) = Record.name self
  /\ Record.birthday (snd (Record.remove_phone v self)) = Record.birthday self
  /\ (Record.find_phone v self = None -> snd (Record.remove_phone v self) = self)
  /\ (forall p, v = PyStr p -> In p (Record.phones self) ->
        exists l1 l2,
          Record.phones self = l1 ++ p :: l2 /\ ~ In p l1
          /\ Record.phones (snd (Record.remove_phone v self)) = l1 ++ l2
          /\ (Record.find_phone v (snd (Record.remove_phone v self)) = Some p
              <-> In p l2)).
Proof.
  unfold Record.remove_phone.
  destruct (Record.find_phone v self) as [q|] eqn:E; simpl.
  - repeat split; try reflexivity; try discriminate.
    intros p -> Hin.
    destruct (list_remove_split p _ Hin) as (l1 & l2 & Hsplit & Hnot & Hrm).
    exists l1, l2. repeat split; try assumption.
    + intros H. apply find_phone_some in H as [_ H]. simpl in H. rewrite Hrm in H.
      apply in_app_or in H as [H|H]; [contradiction | assumption].
    + intros H. apply find_phone_some. split; [reflexivity|]. simpl. rewrite Hrm.
      apply in_or_app. now right.
  - repeat split; try reflexivity.
    intros p -> Hin. rewrite (find_phone_present _ _ Hin) in E. discriminate.
Qed.

(** X5.  With a valid new phone, [edit_phone] returns; the new phone goes
    to the end of the list, not to the place of the old one; when the
    record does not hold the old phone, nothing is removed and the new
    phone is added all the same. *)
Theorem edit_phone_moves_to_end (self : Record.t) (old : pyval) (new : str) :
  accepted Phone.validate new ->
  exists phones',
    Record.edit_phone old (PyStr new) self
    = (Val tt, Record.mk (Record.name self) phones' (Record.birthday self))
    /\ (Record.find_phone old self = None -> phones' = Record.phones self ++ [new])
    /\ (forall p l1 l2,
           old = PyStr p -> Record.phones self = l1 ++ p :: l2 -> ~ In p l1 ->
           phones' = l1 ++ l2 ++ [new]).
Proof.
  intros Hnew. exists (Record.list_remove old (Record.phones self) ++ [new]).
  split; [|split].
  - unfold Record.edit_phone, Record.seq, Record.remove_phone.
    destruct (Record.find_phone old self) eqn:E.
    + now rewrite add_phone_text.
    + rewrite add_phone_text by assumption.
      rewrite list_remove_absent; [now destruct self|].
      now apply find_phone_none.
  - intros Hnone. rewrite list_remove_absent; [reflexivity|].
    now apply find_phone_none.
  - intros p l1 l2 -> Hsplit Hnot.
    assert (Hin : In p (Record.phones self)).
    { rewrite Hsplit. apply in_or_app. right. now left. }
    destruct (list_remove_split p _ Hin) as (k1 & k2 & Hsplit' & Hnot' & ->).
    rewrite Hsplit in Hsplit'.
    assert (Hk : l1 = k1 /\ l2 = k2).
    { clear - Hsplit' Hnot Hnot'. revert k1 Hsplit' Hnot'.
      induction l1 as [|x l1 IH]; intros [|y k1] Heq Hnot'; simpl in *.
      - injection Heq as <-. auto.
      - injection Heq as <- _. exfalso. apply Hnot'. now left.
      - injection Heq as -> _. exfalso. apply Hnot. now left.
      - injection Heq as <- Heq.
        destruct (IH (fun H => Hnot (or_intror H)) k1 Heq
                     (fun H => Hnot' (or_intror H))) as [-> ->]. auto. }
    destruct Hk as [<- <-]. now rewrite <- app_assoc.
Qed.

(** Witness for X5: the phone 1111111111 of a record that holds it between
    two others is edited into 2222222222. *)
Lemma edit_phone_moves_ones :
  Record.edit_phone (PyStr ones) (PyStr twos)
    (Record.mk (u "Ann") [u "0000000000"; ones; u "3333333333"] None)
  = (Val tt, Record.mk (u "Ann") [u "0000000000"; u "3333333333"; twos] None).
Proof.
  destruct (@edit_phone_moves_to_end
              (Record.mk (u "Ann") [u "0000000000"; ones; u "3333333333"] None)
              (PyStr ones) twos) as (phones' & Hedit & _ & Hat).
  - vm_compute. reflexivity.
  - rewrite Hedit. f_equal. f_equal.
    apply (Hat ones [u "0000000000"] [u "3333333333"]); [reflexivity | reflexivity |].
    simpl. intros [H|[]]. vm_compute in H. discriminate.
Defined.

Lemma valid_birthday_iff (b : str) : valid_birthday b = true <-> date_text b.
Proof.
  rewrite <- Birthday_accepted_iff. unfold accepted, valid_birthday.
  rewrite Birthday_validate_text.
  destruct (datetime.strptime (PyStr b)); split; congruence.
Qed.

Lemma Birthday_validate_decides (b : str) :
  Birthday.validate (PyStr b)
  = if valid_birthday b then Val b else Raise (ValueError Birthday.MESSAGE).
Proof.
  rewrite Birthday_validate_text. unfold valid_birthday.
  now destruct (datetime.strptime (PyStr b)).
Qed.

(** X6.  [add_birthday] either sets the birthday, replacing the one the
    record had, and keeps name and phones, or raises and leaves the record
    with the birthday it had; on text it raises exactly when the text does
    not read as a date, with the [ValueError] of the validator. *)
Theorem add_birthday_replaces_or_leaves (self : Record.t) (v : pyval) :
  (exists b, v = PyStr b /\ date_text b
             /\ Record.add_birthday v self
                = (Val tt, Record.mk (Record.name self) (Record.phones self) (Some b)))
  \/ (exists e, Record.add_birthday v self = (Raise e, self)
                /\ forall b, v = PyStr b ->
                             ~ date_text b /\ e = ValueError Birthday.MESSAGE).
Proof.
  unfold Record.add_birthday, Record.seq, Record.lift.
  destruct (Birthday.validate v) as [b|e] eqn:E.
  - left. exists b. apply Birthday_validate_val in E as Hv. subst v.
    split; [reflexivity|]. split; [now apply Birthday_accepted_iff | reflexivity].
  - right. exists e. split; [reflexivity|].
    intros b ->. rewrite Birthday_validate_decides in E.
    destruct (valid_birthday b) eqn:Eb; [discriminate|].
    split; [|congruence]. intros Hd. apply valid_birthday_iff in Hd. congruence.
Qed.

(** ** Construction of a record *)

Lemma for_each_add_phone_text (ps : list str) (self : Record.t) :
  fst (Record.for_each Record.add_phone (map PyStr ps) self)
  = if forallb valid_phone ps then Val tt else Raise (ValueError Phone.MESSAGE).
Proof.
  revert self. induction ps as [|p ps IH]; intros self; simpl; [reflexivity|].
  unfold Record.seq, Record.add_phone at 1, Record.lift.
  rewrite Phone_validate_decides.
  destruct (valid_phone p); simpl; [apply IH | reflexivity].
Qed.

Lemma init_text (n : str) (ps : list str) (birthday : pyval) :
  isalpha n = true ->
  forallb valid_phone ps = true ->
  Record.init (PyStr n) (PyList (map PyStr ps)) birthday
  = if truthy birthday
    then match Birthday.validate birthday with
         | Val b => Val (Record.mk n ps (Some b))
         | Raise e => Raise e
         end
    else Val (Record.mk n ps None).
Proof.
  intros Hn Hps.
  assert (Hall : Forall (accepted Phone.validate) ps).
  { apply Forall_forall. intros p Hp. rewrite forallb_forall in Hps.
    apply Phone_accepted_iff, valid_phone_iff. auto. }
  destruct (truthy birthday) eqn:Hb; [|now apply init_valid].
  unfold Record.init. simpl. rewrite Hn. simpl. unfold Record.seq at 1. rewrite Hb.
  assert (Hloop : (if negb (Nat.eqb (List.length (map PyStr ps)) 0)
                   then Record.seq (Record.lift (Val (map PyStr ps)))
                          (fun items => Record.for_each Record.add_phone items)
                   else Record.ret tt) (Record.mk n [] None)
                  = (Val tt, Record.mk n ps None)).
  { destruct (negb (Nat.eqb (List.length (map PyStr ps)) 0)) eqn:Ht.
    - unfold Record.seq, Record.lift.
      now rewrite (for_each_add_phone (Record.mk n [] None) Hall).
    - destruct ps; [reflexivity | discriminate]. }
  rewrite Hloop. unfold Record.add_birthday, Record.seq, Record.lift.
  now destruct (Birthday.validate birthday).
Qed.

Lemma init_text_equation (n : str) (ps : list str) (b : str) :
  Record.init (PyStr n) (PyList (map PyStr ps)) (PyStr b)
  = (if negb (isalpha n)
     then Raise (ValueError "Name should contain only letters.")
     else if negb (forallb valid_phone ps)
     then Raise (ValueError Phone.MESSAGE)
     else match b with
          | [] => Val (Record.mk n ps None)
          | _ => if valid_birthday b then Val (Record.mk n ps (Some b))
                 else Raise (ValueError Birthday.MESSAGE)
          end).
Proof.
  destruct (isalpha n) eqn:Hn; simpl.
  2:{ unfold Record.init. simpl. now rewrite Hn. }
  destruct (forallb valid_phone ps) eqn:Hps; simpl.
  - rewrite (@init_text n ps (PyStr b) Hn Hps).
    destruct b as [|c b]; [reflexivity|].
    cbn [truthy List.length Nat.eqb negb]. rewrite Birthday_validate_decides.
    now destruct (valid_birthday (c :: b)).
  - unfold Record.init. simpl. rewrite Hn. simpl. unfold Record.seq at 1.
    destruct (negb (Nat.eqb (List.length (map PyStr ps)) 0)) eqn:Ht.
    + unfold Record.seq at 1, Record.lift.
      pose proof (for_each_add_phone_text ps (Record.mk n [] None)) as Hloop.
      rewrite Hps in Hloop.
      destruct (Record.for_each Record.add_phone (map PyStr ps)
                                (Record.mk n [] None)) as [r self1].
      simpl in Hloop. now subst r.
    + destruct ps; discriminate.
Qed.

(** X7.  [Record] on a name, a list of phones and a birthday, all text,
    validates in that order and raises the [ValueError] of the first
    validation that fails: the name, then the phones from the first on,
    then the birthday unless it is empty; when none fails it builds the
    record with that name, those phones in their order and that birthday,
    none for the empty text. *)
Theorem init_validates_in_order (n : str) (ps : list str) (b : str) :
  Record.init (PyStr n) (PyList (map PyStr ps)) (PyStr b)
  = (if negb (isalpha n)
     then Raise (ValueError "Name should contain only letters.")
     else if negb (forallb valid_phone ps)
     then Raise (ValueError Phone.MESSAGE)
     else match b with
          | [] => Val (Record.mk n ps None)
          | _ => if valid_birthday b then Val (Record.mk n ps (Some b))
                 else Raise (ValueError Birthday.MESSAGE)
          end)
  /\ (forall p, valid_phone p = true <-> ten_digits p)
  /\ (valid_birthday b = true <-> date_text b).
Proof.
  split; [apply init_text_equation|].
  split; [apply valid_phone_iff | apply valid_birthday_iff].
Qed.

(** ** The book *)

Lemma dict_get_some_in {V : Type} (k : str) (v : V) (d : dict V) :
  dict_get k d = Some v -> In (k, v) d.
Proof.
  induction d as [|[k0 v0] d IH]; simpl; [discriminate|].
  destruct (str_eqb k0 k) eqn:E.
  - apply str_eqb_eq in E. intros H; injection H as <-. subst. now left.
  - intros H. right. auto.
Qed.

Lemma dict_set_present {V : Type} (k : str) (v v0 : V) (d : dict V) :
  dict_get k d = Some v0 ->
  dict_keys (dict_set k v d) = dict_keys d
  /\ List.length (dict_set k v d) = List.length d.
Proof.
  induction d as [|[k1 v1] d IH]; simpl; [discriminate|].
  destruct (str_eqb k1 k) eqn:E; simpl.
  - auto.
  - intros H. destruct (IH H) as [-> ->]. auto.
Qed.

Lemma dict_set_absent {V : Type} (k : str) (v : V) (d : dict V) :
  dict_get k d = None -> dict_set k v d = d ++ [(k, v)].
Proof.
  induction d as [|[k1 v1] d IH]; simpl; [reflexivity|].
  destruct (str_eqb k1 k) eqn:E; [discriminate|].
  intros H. now rewrite IH.
Qed.

Lemma dict_remove_last {V : Type} (k : str) (v : V) (d : dict V) :
  dict_get k d = None -> dict_remove k (d ++ [(k, v)]) = d.
Proof.
  induction d as [|[k1 v1] d IH]; simpl.
  - now rewrite str_eqb_refl.
  - destruct (str_eqb k1 k) eqn:E; [discriminate|].
    intros H. now rewrite IH.
Qed.

(** X8.  [add_record] stores the record under its name: a lookup of that
    name gives the record and every other name gives what it gave before;
    a name that was a key keeps its place and the book its size, the record
    it held being replaced; a new name goes last; no name is a key twice. *)
Theorem add_record_overwrites (data : AddressBook.t) (record : Record.t) :
  dict_get (Record.name record) (AddressBook.add_record record data) = Some record
  /\ (forall k, k <> Record.name record ->
                dict_get k (AddressBook.add_record record data) = dict_get k data)
  /\ (forall old, dict_get (Record.name record) data = Some old ->
                  dict_keys (AddressBook.add_record record data) = dict_keys data
                  /\ List.length (AddressBook.add_record record data)
                     = List.length data)
  /\ (dict_get (Record.name record) data = None ->
      AddressBook.add_record record data = data ++ [(Record.name record, record)])
  /\ (dict_wf data -> dict_wf (AddressBook.add_record record data)).
Proof.
  unfold AddressBook.add_record. split; [apply dict_get_set_same|].
  split; [intros k Hk; apply dict_get_set_other; congruence|].
  split; [intros old; apply dict_set_present|].
  split; [apply dict_set_absent | apply dict_set_wf].
Qed.

(** X9.  A record added under a new name and deleted again leaves the
    book as it was. *)
Theorem add_then_delete (data : AddressBook.t) (record : Record.t) :
  dict_get (Record.name record) data = None ->
  AddressBook.delete (Record.name record) (AddressBook.add_record record data)
  = (Val tt, data).
Proof.
  intros Hnew. unfold AddressBook.delete, AddressBook.add_record.
  rewrite dict_get_set_same. rewrite dict_set_absent by exact Hnew.
  now rewrite dict_remove_last.
Qed.

(** Witness for X9: Ann is added to the book of John and deleted again. *)
Lemma add_then_delete_ann :
  AddressBook.delete (u "Ann")
    (AddressBook.add_record (Record.mk (u "Ann") [ones] None) john_book)
  = (Val tt, john_book).
Proof.
  apply (@add_then_delete john_book (Record.mk (u "Ann") [ones] None)).
  vm_compute. reflexivity.
Defined.

(** ** [load] *)

Lemma dict_set_values {V : Type} (P : V -> Prop) (k : str) (v : V) (d : dict V) :
  Forall P (dict_values d) -> P v -> Forall P (dict_values (dict_set k v d)).
Proof.
  unfold dict_values. intros Hall Hv.
  induction d as [|[k0 v0] d IH]; simpl.
  - constructor; [assumption | constructor].
  - inversion Hall as [|? ? H0 Hall']; subst.
    destruct (str_eqb k0 k); simpl; constructor; auto.
Qed.

Lemma entry_record_invariant (v : pyval) (r : Record.t) :
  AddressBook.entry_record v = Val r -> record_invariant r.
Proof.
  unfold AddressBook.entry_record.
  destruct (py_getitem v (u "name")) as [a|]; simpl; [|discriminate].
  destruct (py_getitem v (u "phones")) as [b|]; simpl; [|discriminate].
  destruct (py_getitem v (u "birthday")) as [c|]; simpl; [|discriminate].
  apply init_invariant.
Qed.

Lemma comprehension_invariant (items : list (str * pyval)) :
  forall acc data,
    dict_wf acc -> book_invariant acc ->
    AddressBook.comprehension items acc = Val data ->
    dict_wf data /\ book_invariant data
    /\ forall k, In k (dict_keys data) <-> In k (dict_keys acc) \/ In k (map fst items).
Proof.
  induction items as [|[k v] items IH]; intros acc data Hwf Hinv; simpl.
  - intros H; injection H as <-. split; [|split]; try assumption.
    intros k. simpl. tauto.
  - destruct (AddressBook.entry_record v) as [r|e] eqn:Er; simpl; [|discriminate].
    intros H. apply IH in H as (H1 & H2 & H3).
    + split; [|split]; try assumption. intros k0. rewrite H3, dict_keys_set.
      simpl. intuition congruence.
    + now apply dict_set_wf.
    + apply dict_set_values; [assumption|]. now apply entry_record_invariant with v.
Qed.

Lemma Name_validate_raises (v : pyval) (e : exn) :
  Name.validate v = Raise e -> handled_by_load e = false.
Proof.
  destruct v; simpl; try (intros H; injection H as <-; reflexivity).
  destruct (isalpha s); simpl; [discriminate|].
  intros H; injection H as <-. reflexivity.
Qed.

Lemma Phone_validate_raises (v : pyval) (e : exn) :
  Phone.validate v = Raise e -> handled_by_load e = false.
Proof.
  unfold Phone.validate.
  destruct v; simpl; try (intros H; injection H as <-; reflexivity);
    match goal with
    | |- context [Nat.eqb ?n 10] => destruct (Nat.eqb n 10); simpl
    end; try (intros H; injection H as <-; reflexivity).
  destruct (isdigit s); simpl; [discriminate|].
  intros H; injection H as <-. reflexivity.
Qed.

Lemma Birthday_validate_raises (v : pyval) (e : exn) :
  Birthday.validate v = Raise e -> handled_by_load e = false.
Proof.
  destruct v; try (intros H; injection H as <-; reflexivity).
  rewrite Birthday_validate_text.
  destruct (datetime.strptime (PyStr s)); [discriminate|].
  intros H; injection H as <-. reflexivity.
Qed.

Lemma seq_raises {A B : Type} (m : Record.method A) (k : A -> Record.method B)
      (self : Record.t) (e : exn) :
  (forall s e', fst (m s) = Raise e' -> handled_by_load e' = false) ->
  (forall a s e', fst (k a s) = Raise e' -> handled_by_load e' = false) ->
  fst (Record.seq m k self) = Raise e -> handled_by_load e = false.
Proof.
  intros Hm Hk. unfold Record.seq. specialize (Hm self).
  destruct (m self) as [[a|e0] self1]; simpl in *.
  - apply Hk.
  - intros H; injection H as <-. now apply Hm.
Qed.

Lemma add_phone_raises (v : pyval) (self : Record.t) (e : exn) :
  fst (Record.add_phone v self) = Raise e -> handled_by_load e = false.
Proof.
  unfold Record.add_phone, Record.seq, Record.lift.
  destruct (Phone.validate v) eqn:E; simpl; [discriminate|].
  intros H; injection H as <-. now apply Phone_validate_raises with v.
Qed.

Lemma for_each_add_phone_raises (items : list pyval) :
  forall (self : Record.t) (e : exn),
    fst (Record.for_each Record.add_phone items self) = Raise e ->
    handled_by_load e = false.
Proof.
  induction items as [|x items IH]; intros self e; simpl; [discriminate|].
  apply seq_raises.
  - intros s e'. apply add_phone_raises.
  - intros _ s e'. apply IH.
Qed.

Lemma init_raises (name phones birthday : pyval) (e : exn) :
  Record.init name phones birthday = Raise e -> handled_by_load e = false.
Proof.
  unfold Record.init.
  destruct (Name.validate name) as [n|e0] eqn:En; simpl.
  2:{ intros H; injection H as <-. now apply Name_validate_raises with name. }
  match goal with
  | |- match ?body ?start with _ => _ end = _ -> _ =>
      assert (Hbody : forall e', fst (body start) = Raise e' ->
                                 handled_by_load e' = false);
      [| destruct (body start) as [[[]|e0] self]; simpl in *;
         [discriminate | intros H; injection H as <-; now apply Hbody]]
  end.
  intros e'. apply seq_raises.
  - intros s e''. destruct (truthy phones); [|discriminate].
    apply seq_raises.
    + intros s0 e0. unfold Record.lift. simpl.
      destruct phones; simpl; try discriminate;
        intros H; injection H as <-; reflexivity.
    + intros items s0 e0. apply for_each_add_phone_raises.
  - intros _ s e''. destruct (truthy birthday); [|discriminate].
    unfold Record.add_birthday, Record.seq, Record.lift.
    destruct (Birthday.validate birthday) eqn:Eb; simpl; [discriminate|].
    intros H; injection H as <-. now apply Birthday_validate_raises with birthday.
Qed.

Lemma py_getitem_raises (v : pyval) (key : str) (e : exn) :
  py_getitem v key = Raise e -> handled_by_load e = false.
Proof.
  destruct v; simpl; try (intros H; injection H as <-; reflexivity).
  destruct (dict_get key d); [discriminate|].
  intros H; injection H as <-. reflexivity.
Qed.

Lemma entry_record_raises (v : pyval) (e : exn) :
  AddressBook.entry_record v = Raise e -> handled_by_load e = false.
Proof.
  unfold AddressBook.entry_record.
  destruct (py_getitem v (u "name")) as [a|e0] eqn:Ea; simpl.
  2:{ intros H; injection H as <-. now apply py_getitem_raises with v (u "name"). }
  destruct (py_getitem v (u "phones")) as [b|e0] eqn:Eb; simpl.
  2:{ intros H; injection H as <-. now apply py_getitem_raises with v (u "phones"). }
  destruct (py_getitem v (u "birthday")) as [c|e0] eqn:Ec; simpl.
  2:{ intros H; injection H as <-. now apply py_getitem_raises with v (u "birthday"). }
  apply init_raises.
Qed.

Lemma comprehension_raises (items : list (str * pyval)) :
  forall acc e, AddressBook.comprehension items acc = Raise e ->
                handled_by_load e = false.
Proof.
  induction items as [|[k v] items IH]; intros acc e; simpl; [discriminate|].
  destruct (AddressBook.entry_record v) as [r|e0] eqn:Er; simpl.
  - apply IH.
  - intros H; injection H as <-. now apply entry_record_raises with v.
Qed.

Lemma load_json (doc : pyval) :
  AddressBook.load (Some (AddressBook.Json doc))
  = (items <- py_items doc ;; AddressBook.comprehension items []).
Proof.
  unfold AddressBook.load. simpl.
  destruct doc; try reflexivity. simpl.
  destruct (AddressBook.comprehension d []) as [book|e] eqn:E; [reflexivity|].
  apply comprehension_raises in E. now destruct e.
Qed.




Lemma comprehension_size (items : list (str * pyval)) :
  forall acc data, AddressBook.comprehension items acc = Val data ->
                   (List.length acc <= List.length data)%nat
                   /\ (items <> [] -> data <> []).
Proof.
  induction items as [|[k v] items IH]; intros acc data; simpl.
  - intros H; injection H as <-. split; [lia | congruence].
  - destruct (AddressBook.entry_record v) as [r|e]; simpl; [|discriminate].
    intros H. apply IH in H as [Hlen _].
    assert (Hset : (1 <= List.length (dict_set k r acc))%nat).
    { destruct acc as [|[k0 r0] acc]; simpl; [lia|].
      destruct (str_eqb k0 k); simpl; lia. }
    split.
    + assert (List.length acc <= List.length (dict_set k r acc))%nat; [|lia].
      clear. induction acc as [|[k0 r0] acc IHa]; simpl; [lia|].
      destruct (str_eqb k0 k); simpl; lia.
    + intros _ ->. simpl in Hlen. lia.
Qed.

Lemma load_valid (fs : AddressBook.storage) (data : AddressBook.t) :
  AddressBook.load fs = Val data -> dict_wf data /\ book_invariant data.
Proof.
  assert (Hempty : dict_wf (@nil (str * Record.t)) /\ book_invariant []).
  { split; constructor. }
  destruct fs as [[| | |msg| |doc]|]; try discriminate.
  - intros H; injection H as <-. exact Hempty.
  - rewrite load_json. destruct doc; simpl; try discriminate. intros E.
    destruct Hempty as [Hwf0 Hinv0].
    destruct (comprehension_invariant _ Hwf0 Hinv0 E) as (H1 & H2 & _). auto.
  - intros H; injection H as <-. exact Hempty.
Qed.

(** X10.  A book that [load] returns holds valid records only, each key
    once, and when the file holds a JSON object its keys are the keys of
    that object; [load] returns the empty book only for a missing file, a
    text that is not JSON, or the empty JSON object: a file it cannot read
    and a document it cannot turn into a book make it raise. *)
Theorem load_builds_valid_books (fs : AddressBook.storage) (data : AddressBook.t) :
  AddressBook.load fs = Val data ->
  dict_wf data /\ book_invariant data
  /\ (forall items, fs = Some (AddressBook.Json (PyDict items)) ->
                    forall k, In k (dict_keys data) <-> In k (map fst items))
  /\ (data = [] ->
      fs = None \/ fs = Some AddressBook.NotJson
      \/ fs = Some (AddressBook.Json (PyDict []))).
Proof.
  assert (Hempty : dict_wf (@nil (str * Record.t)) /\ book_invariant []).
  { split; constructor. }
  destruct Hempty as [Hwf0 Hinv0].
  destruct fs as [[| | |msg| |doc]|]; try discriminate.
  - intros H; injection H as <-. split; [|split; [|split]]; try assumption; auto.
    intros items H0. discriminate.
  - rewrite load_json. destruct doc; simpl; try discriminate. intros E.
    destruct (comprehension_invariant _ Hwf0 Hinv0 E) as (H1 & H2 & H3).
    split; [|split; [|split]]; try assumption.
    + intros items H k. injection H as <-. rewrite H3. simpl. tauto.
    + intros ->. right; right. destruct d as [|x d]; [reflexivity|].
      apply comprehension_size in E as [_ E]. exfalso. apply E; [discriminate | reflexivity].
  - intros H; injection H as <-. split; [|split; [|split]]; try assumption; auto.
    intros items H0. discriminate.
Qed.

(** Witness for X10: the flat document of the book of John is loaded. *)
Lemma load_john_is_valid :
  dict_wf john_book /\ book_invariant john_book.
Proof.
  destruct (@load_builds_valid_books
              (Some (AddressBook.Json (flat_document john_book))) john_book)
    as (H1 & H2 & _).
  - vm_compute. reflexivity.
  - split; assumption.
Defined.

Lemma accepted_birthday_truthy (b : str) :
  accepted Birthday.validate b -> truthy (PyStr b) = true.
Proof.
  intros H. destruct b as [|c b]; [|reflexivity].
  vm_compute in H. discriminate.
Qed.

Lemma entry_record_flat (r : Record.t) :
  record_invariant r -> AddressBook.entry_record (flat_entry r) = Val r.
Proof.
  intros (Hn & Hp & Hb). unfold flat_entry, AddressBook.entry_record, entry.
  cbn [py_getitem].
  change (dict_get (u "name") _) with (Some (PyStr (Record.name r))).
  change (dict_get (u "phones") _) with (Some (PyList (map PyStr (Record.phones r)))).
  change (dict_get (u "birthday") _)
    with (Some (birthday_argument (Record.birthday r))).
  cbn [bind].
  rewrite init_text.
  - destruct (Record.birthday r) as [b|] eqn:Eb; cbn [birthday_argument].
    + pose proof (Hb b eq_refl) as Hacc.
      rewrite (accepted_birthday_truthy Hacc). unfold accepted in Hacc.
      rewrite Hacc. destruct r; simpl in *; congruence.
    + cbn [truthy]. destruct r; simpl in *; congruence.
  - now apply Name_accepted_iff.
  - apply forallb_forall. intros p Hin. rewrite Forall_forall in Hp.
    apply valid_phone_iff, Phone_accepted_iff. auto.
Qed.

Lemma comprehension_flat (data : AddressBook.t) :
  forall acc,
    dict_wf (acc ++ data) -> book_invariant data ->
    AddressBook.comprehension (map (fun kv => (fst kv, flat_entry (snd kv))) data) acc
    = Val (acc ++ data).
Proof.
  induction data as [|[k r] data IH]; intros acc Hwf Hinv; simpl.
  - now rewrite app_nil_r.
  - inversion Hinv as [|? ? Hr Hinv']; subst.
    rewrite (entry_record_flat Hr). simpl.
    assert (Hnew : dict_get k acc = None).
    { apply dict_get_none_keys. unfold dict_wf, dict_keys in *.
      rewrite map_app in Hwf. simpl in Hwf.
      apply NoDup_remove_2 in Hwf. intros Hin. apply Hwf.
      apply in_or_app. now left. }
    rewrite dict_set_absent by exact Hnew.
    rewrite IH; [now rewrite <- app_assoc | now rewrite <- app_assoc | assumption].
Qed.

(** X11.  [load] reads back the document that holds, under each key of a
    book of valid records, the name, the phones and the birthday of the
    record as plain values (null for no birthday): the book it returns is
    that book, in the same order. *)
Theorem load_reads_flat_documents (data : AddressBook.t) :
  dict_wf data -> book_invariant data ->
  AddressBook.load (Some (AddressBook.Json (flat_document data))) = Val data.
Proof.
  intros Hwf Hinv. unfold AddressBook.load, flat_document. simpl.
  now rewrite (@comprehension_flat data [] Hwf Hinv).
Qed.

Lemma two_book_valid : dict_wf two_book /\ book_invariant two_book.
Proof.
  split.
  - unfold dict_wf. vm_compute.
    constructor; [|constructor; [|constructor]]; simpl; intuition discriminate.
  - unfold book_invariant. vm_compute dict_values.
    apply Forall_cons; [check_record|].
    apply Forall_cons; [check_record|]. apply Forall_nil.
Defined.

(** Witness for X11: the book of Ann and Bob. *)
Lemma load_two_book :
  AddressBook.load (Some (AddressBook.Json (flat_document two_book))) = Val two_book.
Proof.
  apply load_reads_flat_documents; apply two_book_valid.
Defined.

(** ** The week of birthdays, further *)

Lemma get_birthdays_spec (today : datetime.t) (data : AddressBook.t)
      (listed : list (str * str)) :
  datetime.wf today -> book_invariant data ->
  AddressBook.get_birthdays_per_week today data = Val listed ->
  listed = birthdays_on (midnights_of_week_from today) data.
Proof.
  intros Hwf Hinv. unfold AddressBook.get_birthdays_per_week, datetime.add_days.
  destruct ((0 <? datetime.ordinal today + 7)%Z
            && (datetime.ordinal today + 7 <=? datetime.MAXORDINAL)%Z);
    simpl; [|discriminate].
  rewrite birthdays_loop_spec by assumption. simpl.
  intros H; injection H as <-. reflexivity.
Qed.

(** X12.  A birthday that [get_birthdays_per_week] lists reads as a date
    that is not before today's: its stored year is this year or a later
    one, so the birthday of a contact born in an earlier year is never
    listed. *)
Theorem birthdays_of_earlier_years_are_not_listed
        (today : datetime.t) (ty tm td : Z) (data : AddressBook.t)
        (listed : list (str * str)) (n b : str) :
  datetime.wf today ->
  real_date ty tm td ->
  datetime.ordinal today = datetime.ymd2ord ty tm td ->
  book_invariant data ->
  AddressBook.get_birthdays_per_week today data = Val listed ->
  In (n, b) listed ->
  exists d m y,
    b = d ++ SLASH :: m ++ SLASH :: y
    /\ day_text d /\ month_text m /\ year_text y
    /\ ~ date_before (datetime.int y) (datetime.int m) (datetime.int d) ty tm td
    /\ (ty <= datetime.int y)%Z.
Proof.
  intros Hwf Htoday Hord Hinv Hget Hin.
  rewrite (get_birthdays_spec Hwf Hinv Hget) in Hin.
  unfold birthdays_on in Hin. apply in_flat_map in Hin as (r & _ & Hin).
  unfold birthday_pair, birthday_day in Hin.
  destruct (Record.birthday r) as [b'|]; [|destruct Hin].
  destruct (datetime.strptime (PyStr b')) as [dt|e] eqn:Edt; [|destruct Hin].
  destruct (midnights_of_week_from today (datetime.ordinal dt)) eqn:Ew;
    [|destruct Hin].
  destruct Hin as [Hin|[]]. injection Hin as _ ->.
  destruct (strptime_text b) as [Hfrom _].
  destruct (Hfrom dt Edt) as (d & m & y & Hb & Hd & Hm & Hy & Hreal & ->).
  exists d, m, y. cbn [datetime.ordinal] in Ew.
  assert (Hle : (datetime.ymd2ord ty tm td
                 <= datetime.ymd2ord (datetime.int y) (datetime.int m)
                                     (datetime.int d))%Z).
  { rewrite <- Hord. unfold midnights_of_week_from in Ew.
    apply andb_true_iff in Ew as [Ew _].
    destruct (datetime.microsecond today =? 0)%Z;
      [apply Z.leb_le in Ew | apply Z.ltb_lt in Ew]; lia. }
  assert (Hnot : ~ date_before (datetime.int y) (datetime.int m) (datetime.int d)
                               ty tm td).
  { intros Hbefore. pose proof (ymd2ord_increases Hreal Htoday Hbefore). lia. }
  refine (conj Hb (conj Hd (conj Hm (conj Hy (conj Hnot _))))).
  unfold date_before in Hnot. lia.
Qed.

(** Witness for X12: the book of Ann, born on 10 May 2024, on 7 May 2024 at
    14:30. *)
Lemma ann_is_listed_this_year :
  exists d m y,
    u "10/05/2024" = d ++ SLASH :: m ++ SLASH :: y
    /\ day_text d /\ month_text m /\ year_text y
    /\ ~ date_before (datetime.int y) (datetime.int m) (datetime.int d) 2024 5 7
    /\ (2024 <= datetime.int y)%Z.
Proof.
  apply (@birthdays_of_earlier_years_are_not_listed
           (datetime.mk (datetime.ymd2ord 2024 5 7) (datetime.microsecond afternoon))
           2024 5 7 ann_book [(u "Ann", u "10/05/2024")] (u "Ann") (u "10/05/2024")).
  - vm_compute. repeat split; discriminate.
  - vm_compute. repeat split; discriminate.
  - reflexivity.
  - exact ann_book_invariant.
  - vm_compute. reflexivity.
  - left. reflexivity.
Defined.

(** X13.  In the last seven days of the year 9999, [get_birthdays_per_week]
    raises [OverflowError] whatever the book holds, the empty book
    included: the end of the week is computed before any record is
    read. *)
Theorem birthdays_overflow_at_the_end_of_time
        (today : datetime.t) (data : AddressBook.t) :
  (datetime.MAXORDINAL < datetime.ordinal today + 7)%Z ->
  AddressBook.get_birthdays_per_week today data = Raise OverflowError.
Proof.
  intros Hlate. unfold AddressBook.get_birthdays_per_week, datetime.add_days.
  destruct (Z.leb_spec (datetime.ordinal today + 7) datetime.MAXORDINAL); [lia|].
  now rewrite andb_false_r.
Qed.

(** Witness for X13: 25 December 9999, at midnight, with the book of Ann. *)
Lemma birthdays_overflow_on_christmas_9999 :
  AddressBook.get_birthdays_per_week
    (datetime.mk (datetime.ymd2ord 9999 12 25) 0) ann_book
  = Raise OverflowError.
Proof.
  apply birthdays_overflow_at_the_end_of_time. vm_compute. reflexivity.
Defined.

(** ** [find] and the case of the stored name *)

Lemma totitle_not_lower (c : N) :
  exists x rest, Unicode.totitle_full c = x :: rest /\ ascii_lower x = false.
Proof.
  unfold Unicode.totitle_full, Unicode.case_map.
  destruct (find (fun e => (fst e =? c)%N) Unicode.title_full) as [e|] eqn:Ef.
  - apply find_some in Ef as [Hin _].
    assert (Hok : forallb (fun e => negb (starts_lower (snd e))
                                    && negb (Nat.eqb (List.length (snd e)) 0))
                          Unicode.title_full = true) by (vm_compute; reflexivity).
    rewrite forallb_forall in Hok. specialize (Hok e Hin).
    apply andb_true_iff in Hok as [H1 H2].
    destruct e as [k [|x rest]]; simpl in *; [discriminate|].
    exists x, rest. split; [reflexivity|]. now destruct (ascii_lower x).
  - destruct (find (Unicode.in_run c) Unicode.title_runs) as [[[[lo hi] step] img]|] eqn:Er.
    + apply find_some in Er as [Hin Hrun].
      assert (Hok : forallb image_clear Unicode.title_runs = true)
        by (vm_compute; reflexivity).
      rewrite forallb_forall in Hok. specialize (Hok _ Hin).
      exists (img + (c - lo))%N, []. split; [reflexivity|].
      unfold image_clear in Hok. unfold Unicode.in_run in Hrun.
      apply andb_true_iff in Hrun as [Hrun _]. apply andb_true_iff in Hrun as [H1 H2].
      apply N.leb_le in H1, H2. unfold ascii_lower.
      apply orb_true_iff in Hok as [Hok|Hok]; apply N.ltb_lt in Hok.
      * destruct (N.leb_spec 97 (img + (c - lo))); [lia | reflexivity].
      * destruct (N.leb_spec (img + (c - lo)) 122); [lia | apply andb_false_r].
    + exists c, []. split; [reflexivity|].
      assert (Hin : In (97, 122, 1, 65)%N Unicode.title_runs).
      { vm_compute. left. reflexivity. }
      pose proof (find_none _ _ Er _ Hin) as Hno.
      unfold Unicode.in_run in Hno. rewrite N.mod_1_r in Hno. simpl in Hno.
      rewrite andb_true_r in Hno. exact Hno.
Qed.

Lemma title_not_lower (q : str) : starts_lower (title q) = false.
Proof.
  unfold title. destruct q as [|c q]; [reflexivity|].
  cbn [do_title]. destruct (totitle_not_lower c) as (x & rest & -> & Hx).
  exact Hx.
Qed.

(** X14.  [find] never returns a record stored under a key that begins
    with a lower-case letter a-z, whatever name is asked for: the
    title-cased form it looks up never begins with one.  A contact added
    under the name "john" is out of its reach. *)
Theorem find_misses_lower_case_keys :
  (forall q k : str, starts_lower k = true -> title q <> k)
  /\ (forall (data : AddressBook.t) (q : str) (r : Record.t),
         AddressBook.find q data = Some r ->
         In (title q, r) data /\ starts_lower (title q) = false)
  /\ (forall q : str, AddressBook.find q lower_book = None).
Proof.
  split; [|split].
  - intros q k Hk Heq. rewrite <- Heq, title_not_lower in Hk. discriminate.
  - intros data q r Hfind. split; [|apply title_not_lower].
    now apply dict_get_some_in.
  - intros q. unfold AddressBook.find.
    change lower_book with [(u "john", Record.mk (u "john") [ones] None)].
    cbn [dict_get]. destruct (str_eqb (u "john") (title q)) eqn:E; [|reflexivity].
    apply str_eqb_eq in E. pose proof (title_not_lower q) as H.
    rewrite <- E in H. vm_compute in H. discriminate.
Qed.

(** ** The shell, round by round *)

Lemma input_cases (prompt : string) (inputs : list str) (st : Shell.state)
      (k : str -> list str -> list Shell.event * Shell.outcome)
      (evs : list Shell.event) (out : Shell.outcome) :
  Shell.input prompt inputs st k = (evs, out) ->
  (inputs = [] /\ out = Shell.Stop Shell.EndOfInput st)
  \/ (exists line rest evs', inputs = line :: rest /\ k line rest = (evs', out)).
Proof.
  unfold Shell.input. destruct inputs as [|line rest].
  - intros H; injection H as <- <-. now left.
  - destruct (k line rest) as [evs' out'] eqn:E. intros H; injection H as <- <-.
    right. exists line, rest, evs'. auto.
Qed.

Lemma step_same (st st' : Shell.state) :
  Shell.book st' = Shell.book st -> Shell.file st' = Shell.file st -> step st st'.
Proof. intros H1 H2. left. auto. Qed.

Lemma good_end_of_input (clock : nat -> datetime.t) (disk : nat -> bool)
      (st : Shell.state) :
  good_outcome clock disk st (Shell.Stop Shell.EndOfInput st).
Proof.
  split; [now apply step_same|]. right; left. reflexivity.
Qed.

Lemma good_continue_same (clock : nat -> datetime.t) (disk : nat -> bool)
      (st : Shell.state) (rest : list str) :
  good_outcome clock disk st (Shell.Continue rest st).
Proof. split; [now apply step_same | exact I]. Qed.

Lemma init_text_result (n : str) (ps : list str) (b : str) :
  (exists r, Record.init (PyStr n) (PyList (map PyStr ps)) (PyStr b) = Val r)
  \/ (exists msg, Record.init (PyStr n) (PyList (map PyStr ps)) (PyStr b)
                  = Raise (ValueError msg)).
Proof.
  rewrite init_text_equation.
  destruct (isalpha n); simpl; [|eauto].
  destruct (forallb valid_phone ps); simpl; [|eauto].
  destruct b; [eauto|]. destruct (valid_birthday (n0 :: b)); eauto.
Qed.

Lemma save_book_equation (disk : nat -> bool) (data : AddressBook.t)
      (st : Shell.state) (rest : list str) :
  Shell.save_book disk data st rest = ([], saved (disk (Shell.writes st)) data rest st).
Proof.
  unfold Shell.save_book, AddressBook.save, saved.
  destruct (disk (Shell.writes st)); reflexivity.
Qed.

Lemma save_book_good (clock : nat -> datetime.t) (disk : nat -> bool)
      (data : AddressBook.t) (st : Shell.state) (rest : list str)
      (evs : list Shell.event) (out : Shell.outcome) :
  (forall f, f = AddressBook.written data \/ f = Shell.file st ->
             step st (Shell.mk_state data f (Shell.ticks st) (S (Shell.writes st)))) ->
  Shell.save_book disk data st rest = (evs, out) -> good_outcome clock disk st out.
Proof.
  intros Hstep. rewrite save_book_equation. unfold saved.
  destruct (disk (Shell.writes st)) eqn:Ed; intros H; injection H as _ <-.
  - split; [|exact I]. apply Hstep. now left.
  - split; [apply Hstep; now right|].
    right; right; right. split; [reflexivity|]. now exists (Shell.writes st).
Qed.

Lemma add_good (clock : nat -> datetime.t) (disk : nat -> bool) (inputs : list str)
      (st : Shell.state) (evs : list Shell.event) (out : Shell.outcome) :
  Shell.add disk inputs st = (evs, out) -> good_outcome clock disk st out.
Proof.
  unfold Shell.add. intros H.
  apply input_cases in H as [[_ ->] | (name & rest1 & evs1 & _ & H)];
    [apply good_end_of_input|].
  apply input_cases in H as [[_ ->] | (phones & rest2 & evs2 & _ & H)];
    [apply good_end_of_input|].
  apply input_cases in H as [[_ ->] | (birthday & rest3 & evs3 & _ & H)];
    [apply good_end_of_input|].
  destruct (init_text_result (Shell.strip name) (Shell.split 44 (Shell.strip phones))
                             (Shell.strip birthday)) as [[r Hr] | [msg Hr]];
    rewrite Hr in H.
  - apply (save_book_good clock) in H; [exact H|].
    intros f Hf. right; left. exists r.
    split; [now apply init_invariant in Hr|]. split; [reflexivity | exact Hf].
  - simpl in H. injection H as _ <-. apply good_continue_same.
Qed.

Lemma edit_phone_text_result (old new : str) (record : Record.t) :
  fst (Record.edit_phone (PyStr old) (PyStr new) record) = Val tt
  \/ fst (Record.edit_phone (PyStr old) (PyStr new) record)
     = Raise (ValueError Phone.MESSAGE).
Proof.
  unfold Record.edit_phone, Record.seq.
  destruct (Record.remove_phone (PyStr old) record) as [[[]|e] self1] eqn:E.
  - unfold Record.add_phone, Record.seq, Record.lift.
    rewrite Phone_validate_decides. destruct (valid_phone new); simpl; auto.
  - unfold Record.remove_phone in E.
    destruct (Record.find_phone (PyStr old) record); discriminate.
Qed.

Lemma change_good (clock : nat -> datetime.t) (disk : nat -> bool)
      (inputs : list str) (st : Shell.state)
      (evs : list Shell.event) (out : Shell.outcome) :
  Shell.change disk inputs st = (evs, out) -> good_outcome clock disk st out.
Proof.
  unfold Shell.change. intros H.
  apply input_cases in H as [[_ ->] | (name & rest1 & evs1 & _ & H)];
    [apply good_end_of_input|].
  destruct (AddressBook.find (Shell.strip name) (Shell.book st)) as [record|] eqn:Ef.
  2:{ injection H as _ <-. apply good_continue_same. }
  apply input_cases in H as [[_ ->] | (old & rest2 & evs2 & _ & H)];
    [apply good_end_of_input|].
  apply input_cases in H as [[_ ->] | (new & rest3 & evs3 & _ & H)];
    [apply good_end_of_input|].
  pose proof (edit_phone_text_result (Shell.strip old) (Shell.strip new) record) as Hres.
  assert (Hstep : forall f n,
             f = AddressBook.written
                   (dict_set (title (Shell.strip name))
                      (snd (Record.edit_phone (PyStr (Shell.strip old))
                                              (PyStr (Shell.strip new)) record))
                      (Shell.book st))
             \/ f = Shell.file st ->
             step st (Shell.mk_state
                        (dict_set (title (Shell.strip name))
                           (snd (Record.edit_phone (PyStr (Shell.strip old))
                                                   (PyStr (Shell.strip new)) record))
                           (Shell.book st))
                        f (Shell.ticks st) n)).
  { intros f n Hf. right; right.
    exists (title (Shell.strip name)), record, (PyStr (Shell.strip old)),
           (PyStr (Shell.strip new)).
    split; [exact Ef|]. split; [reflexivity | exact Hf]. }
  destruct (Record.edit_phone (PyStr (Shell.strip old)) (PyStr (Shell.strip new)) record)
    as [result record'].
  simpl in Hres, Hstep. destruct Hres as [-> | ->].
  - apply (save_book_good clock) in H; [exact H|]. intros f. apply Hstep.
  - simpl in H. injection H as _ <-. split; [|exact I]. apply Hstep. now right.
Qed.

Lemma find_good (clock : nat -> datetime.t) (disk : nat -> bool)
      (inputs : list str) (st : Shell.state)
      (evs : list Shell.event) (out : Shell.outcome) :
  Shell.find inputs st = (evs, out) -> good_outcome clock disk st out.
Proof.
  unfold Shell.find. intros H.
  apply input_cases in H as [[_ ->] | (name & rest1 & evs1 & _ & H)];
    [apply good_end_of_input|].
  destruct (AddressBook.find (Shell.strip name) (Shell.book st));
    injection H as _ <-; apply good_continue_same.
Qed.

Lemma birthdays_loop_returns (today next_week : datetime.t) (records : list Record.t) :
  Forall record_invariant records ->
  forall acc, exists listed,
      AddressBook.birthdays_loop today next_week records acc = Val listed.
Proof.
  intros Hall. induction Hall as [|r records Hr Hall IH]; intros acc;
    cbn [AddressBook.birthdays_loop]; [eauto|].
  destruct (Record.birthday r) as [b|] eqn:Eb; [|apply IH].
  destruct Hr as (_ & _ & Hb). specialize (Hb b Eb).
  unfold accepted in Hb. rewrite Birthday_validate_text in Hb.
  destruct (datetime.strptime (PyStr b)) as [dt|e]; [|discriminate].
  cbn [bind].
  destruct (datetime.le today dt && datetime.le dt next_week); apply IH.
Qed.

Lemma get_birthdays_result (today : datetime.t) (data : AddressBook.t) :
  book_invariant data ->
  (exists listed, AddressBook.get_birthdays_per_week today data = Val listed)
  \/ (datetime.add_days today 7 = Raise OverflowError
      /\ AddressBook.get_birthdays_per_week today data = Raise OverflowError).
Proof.
  intros Hinv. unfold AddressBook.get_birthdays_per_week.
  destruct (datetime.add_days today 7) as [next_week|e] eqn:E.
  - left. cbn [bind]. now apply birthdays_loop_returns.
  - right. assert (e = OverflowError) as ->.
    { unfold datetime.add_days in E.
      destruct ((0 <? datetime.ordinal today + 7)%Z
                && (datetime.ordinal today + 7 <=? datetime.MAXORDINAL)%Z);
        [discriminate|]. now injection E as <-. }
    auto.
Qed.

Lemma birthdays_good (clock : nat -> datetime.t) (disk : nat -> bool)
      (inputs : list str) (st : Shell.state)
      (evs : list Shell.event) (out : Shell.outcome) :
  book_invariant (Shell.book st) ->
  Shell.birthdays clock inputs st = (evs, out) -> good_outcome clock disk st out.
Proof.
  intros Hinv. unfold Shell.birthdays.
  destruct (get_birthdays_result (clock (Shell.ticks st)) Hinv)
    as [[listed ->] | [Hover ->]].
  - destruct listed; intros H; injection H as _ <-;
      (split; [now apply step_same | exact I]).
  - intros H; injection H as _ <-. split; [now apply step_same|].
    right; right; left. split; [reflexivity|]. now exists (Shell.ticks st).
Qed.

Lemma choice_cases (choice : Z) :
  ((choice <? 1) || (Z.of_nat (List.length Shell.commands) <? choice))%Z = false ->
  (choice = 1 \/ choice = 2 \/ choice = 3 \/ choice = 4 \/ choice = 5 \/ choice = 6)%Z.
Proof.
  change (Z.of_nat (List.length Shell.commands)) with 6%Z.
  intros H. apply orb_false_iff in H as [H1 H2].
  apply Z.ltb_ge in H1, H2. lia.
Qed.

Lemma iteration_good (clock : nat -> datetime.t) (disk : nat -> bool)
      (inputs : list str) (st : Shell.state)
      (evs : list Shell.event) (out : Shell.outcome) :
  book_invariant (Shell.book st) ->
  Shell.iteration clock disk inputs st = (evs, out) -> good_outcome clock disk st out.
Proof.
  intros Hinv. unfold Shell.iteration.
  match goal with
  | |- (let '(_, _) := ?body in _) = _ -> _ => destruct body as [evs0 out0] eqn:E
  end.
  intros H; injection H as _ <-.
  apply input_cases in E as [[_ ->] | (line & rest & evs1 & _ & E)];
    [apply good_end_of_input|].
  destruct (Shell.int (Shell.strip line)) as [choice|].
  2:{ injection E as _ <-. apply good_continue_same. }
  destruct ((choice <? 1) || (Z.of_nat (List.length Shell.commands) <? choice))%Z eqn:Er.
  { injection E as _ <-. apply good_continue_same. }
  apply choice_cases in Er.
  destruct Er as [-> | [-> | [-> | [-> | [-> | ->]]]]];
    cbn -[Shell.add Shell.change Shell.find Shell.birthdays AddressBook.show_all u] in E.
  - now apply (add_good clock) in E.
  - now apply (change_good clock) in E.
  - now apply (find_good clock disk) in E.
  - injection E as _ <-. apply good_continue_same.
  - now apply (@birthdays_good clock disk rest st evs1 out0 Hinv) in E.
  - injection E as _ <-. split; [now apply step_same|]. left. reflexivity.
Qed.

Lemma dict_get_some_value {V : Type} (k : str) (v : V) (d : dict V) :
  dict_get k d = Some v -> In v (dict_values d).
Proof.
  intros H. apply dict_get_some_in in H. unfold dict_values.
  apply in_map_iff. exists (k, v). auto.
Qed.

Lemma step_valid (st st' : Shell.state) :
  valid_state st -> step st st' -> valid_state st'.
Proof.
  unfold valid_state, book_invariant.
  intros [Hwf Hinv] [[Hb _] | [(r & Hr & Hb & _) | (k & r & old & new & Hget & Hb & _)]];
    rewrite Hb.
  - auto.
  - split; [now apply dict_set_wf | now apply dict_set_values].
  - split; [now apply dict_set_wf|]. apply dict_set_values; [assumption|].
    apply edit_phone_keeps. rewrite Forall_forall in Hinv. apply Hinv.
    now apply dict_get_some_value with k.
Qed.

Lemma loop_invariant (P : Shell.state -> Prop) :
  (forall st st', valid_state st -> P st -> step st st' -> P st') ->
  forall clock disk fuel inputs st,
    valid_state st -> P st ->
    let r := Shell.loop clock disk fuel inputs st in
    valid_state (Shell.final r) /\ P (Shell.final r)
    /\ expected_ending clock disk (Shell.how r).
Proof.
  intros HP clock disk fuel. induction fuel as [|fuel IH]; intros inputs st Hv Hp; simpl.
  - repeat split; try assumption; try apply Hv. right; left. reflexivity.
  - destruct (Shell.iteration clock disk inputs st) as [evs out] eqn:E.
    apply iteration_good in E as [Hstep Hend]; [|apply Hv].
    destruct out as [rest st' | how st']; simpl in *.
    + apply IH; [now apply step_valid with st | now apply HP with st].
    + split; [now apply step_valid with st|]. split; [now apply HP with st | assumption].
Qed.

(** ** Fuel *)

Lemma save_book_shorter (disk : nat -> bool) (data : AddressBook.t) (st : Shell.state)
      (inputs : list str) (evs : list Shell.event) (rest : list str)
      (st' : Shell.state) :
  Shell.save_book disk data st inputs = (evs, Shell.Continue rest st') -> rest = inputs.
Proof.
  rewrite save_book_equation. unfold saved.
  destruct (disk (Shell.writes st)); intros H; [|discriminate].
  now injection H as _ <- _.
Qed.

Lemma add_shorter (disk : nat -> bool) (inputs : list str) (st : Shell.state)
      (evs : list Shell.event) (rest : list str) (st' : Shell.state) :
  Shell.add disk inputs st = (evs, Shell.Continue rest st') ->
  List.length rest < List.length inputs.
Proof.
  unfold Shell.add. intros H.
  apply input_cases in H as [[_ H] | (name & rest1 & evs1 & -> & H)]; [discriminate|].
  apply input_cases in H as [[_ H] | (phones & rest2 & evs2 & -> & H)]; [discriminate|].
  apply input_cases in H as [[_ H] | (birthday & rest3 & evs3 & -> & H)]; [discriminate|].
  destruct (init_text_result (Shell.strip name) (Shell.split 44 (Shell.strip phones))
                             (Shell.strip birthday)) as [[r Hr] | [msg Hr]];
    rewrite Hr in H.
  - apply save_book_shorter in H as ->. simpl; lia.
  - simpl in H. injection H as _ <- _. simpl; lia.
Qed.

Lemma change_shorter (disk : nat -> bool) (inputs : list str) (st : Shell.state)
      (evs : list Shell.event) (rest : list str) (st' : Shell.state) :
  Shell.change disk inputs st = (evs, Shell.Continue rest st') ->
  List.length rest < List.length inputs.
Proof.
  unfold Shell.change. intros H.
  apply input_cases in H as [[_ H] | (name & rest1 & evs1 & -> & H)]; [discriminate|].
  destruct (AddressBook.find (Shell.strip name) (Shell.book st)) as [record|].
  2:{ injection H as _ <- _. simpl; lia. }
  apply input_cases in H as [[_ H] | (old & rest2 & evs2 & -> & H)]; [discriminate|].
  apply input_cases in H as [[_ H] | (new & rest3 & evs3 & -> & H)]; [discriminate|].
  pose proof (edit_phone_text_result (Shell.strip old) (Shell.strip new) record) as Hres.
  destruct (Record.edit_phone (PyStr (Shell.strip old)) (PyStr (Shell.strip new)) record)
    as [result record'].
  simpl in Hres. destruct Hres as [-> | ->].
  - apply save_book_shorter in H as ->. simpl; lia.
  - simpl in H. injection H as _ <- _. simpl; lia.
Qed.

Lemma find_shorter (inputs : list str) (st : Shell.state)
      (evs : list Shell.event) (rest : list str) (st' : Shell.state) :
  Shell.find inputs st = (evs, Shell.Continue rest st') ->
  List.length rest < List.length inputs.
Proof.
  unfold Shell.find. intros H.
  apply input_cases in H as [[_ H] | (name & rest1 & evs1 & -> & H)]; [discriminate|].
  destruct (AddressBook.find (Shell.strip name) (Shell.book st));
    injection H as _ <- _; simpl; lia.
Qed.

Lemma birthdays_shorter (clock : nat -> datetime.t) (inputs : list str)
      (st : Shell.state) (evs : list Shell.event) (rest : list str)
      (st' : Shell.state) :
  Shell.birthdays clock inputs st = (evs, Shell.Continue rest st') ->
  List.length rest <= List.length inputs.
Proof.
  unfold Shell.birthdays.
  destruct (AddressBook.get_birthdays_per_week (clock (Shell.ticks st)) (Shell.book st))
    as [[|pair found]|e]; intros H; [| |discriminate];
    injection H as _ <- _; lia.
Qed.

Lemma iteration_shorter (clock : nat -> datetime.t) (disk : nat -> bool)
      (inputs : list str) (st : Shell.state) (evs : list Shell.event)
      (rest : list str) (st' : Shell.state) :
  Shell.iteration clock disk inputs st = (evs, Shell.Continue rest st') ->
  List.length rest < List.length inputs.
Proof.
  unfold Shell.iteration.
  match goal with
  | |- (let '(_, _) := ?body in _) = _ -> _ => destruct body as [evs0 out0] eqn:E
  end.
  intros H; injection H as _ ->.
  apply input_cases in E as [[_ E] | (line & inputs' & evs1 & -> & E)]; [discriminate|].
  cbn [List.length].
  destruct (Shell.int (Shell.strip line)) as [choice|].
  2:{ injection E as _ <- _. lia. }
  destruct ((choice <? 1) || (Z.of_nat (List.length Shell.commands) <? choice))%Z eqn:Er.
  { injection E as _ <- _. lia. }
  apply choice_cases in Er.
  destruct Er as [-> | [-> | [-> | [-> | [-> | ->]]]]];
    cbn -[Shell.add Shell.change Shell.find Shell.birthdays AddressBook.show_all u] in E.
  - apply add_shorter in E. lia.
  - apply change_shorter in E. lia.
  - apply find_shorter in E. lia.
  - injection E as _ <- _. lia.
  - apply birthdays_shorter in E. lia.
  - discriminate.
Qed.

Lemma loop_fuel (clock : nat -> datetime.t) (disk : nat -> bool) (fuel extra : nat) :
  forall (inputs : list str) (st : Shell.state),
    List.length inputs < fuel ->
    Shell.loop clock disk (fuel + extra) inputs st = Shell.loop clock disk fuel inputs st.
Proof.
  induction fuel as [|fuel IH]; intros inputs st Hlen; [lia|].
  cbn [Nat.add Shell.loop].
  destruct (Shell.iteration clock disk inputs st) as [evs [rest st' | how st']] eqn:E;
    [|reflexivity].
  apply iteration_shorter in E. rewrite IH by lia. reflexivity.
Qed.

(** ** Sessions *)

Lemma valid_empty (fs : AddressBook.storage) : valid_state (Shell.mk_state [] fs 0 0).
Proof.
  split; [constructor | apply Forall_nil].
Qed.

Lemma main_invariant (P : Shell.state -> Prop) (clock : nat -> datetime.t)
      (disk : nat -> bool) (inputs : list str) (fs : AddressBook.storage)
      (data : AddressBook.t) :
  (forall st st', valid_state st -> P st -> step st st' -> P st') ->
  AddressBook.load fs = Val data ->
  P (Shell.mk_state data fs 0 0) ->
  valid_state (Shell.final (Shell.main clock disk inputs fs))
  /\ P (Shell.final (Shell.main clock disk inputs fs))
  /\ expected_ending clock disk (Shell.how (Shell.main clock disk inputs fs)).
Proof.
  intros HP Hload Hp. unfold Shell.main. rewrite Hload.
  apply loop_invariant; [assumption| |assumption].
  exact (@load_valid fs data Hload).
Qed.

(** X15.  Whatever the file holds, whatever is typed and whether or not
    the file can be written, the book a session ends with has no two
    entries under one key and holds valid records only: a name of letters,
    phones of ten digits, and a birthday, when there is one, that is a
    date. *)
Theorem sessions_keep_the_book_valid
        (clock : nat -> datetime.t) (disk : nat -> bool) (inputs : list str)
        (fs : AddressBook.storage) :
  valid_state (Shell.final (Shell.main clock disk inputs fs)).
Proof.
  destruct (AddressBook.load fs) as [data|e] eqn:Hload.
  - apply (@main_invariant (fun _ => True) clock disk inputs fs data); auto.
  - unfold Shell.main. rewrite Hload. apply valid_empty.
Qed.

Lemma add_days_in_range (d : datetime.t) :
  (1 <= datetime.ordinal d <= datetime.MAXORDINAL - 7)%Z ->
  datetime.add_days d 7 <> Raise OverflowError.
Proof.
  intros H. unfold datetime.add_days.
  replace (0 <? datetime.ordinal d + 7)%Z with true by (symmetry; apply Z.ltb_lt; lia).
  replace (datetime.ordinal d + 7 <=? datetime.MAXORDINAL)%Z with true
    by (symmetry; apply Z.leb_le; lia).
  discriminate.
Qed.

(** X16.  Once [load] has returned, a session ends in one of four ways:
    "exit" is chosen; no line is left to read; "birthdays" is chosen at a
    reading of the clock to which seven days cannot be added, which ends it
    with [OverflowError]; or "add" or "change" comes to save the book and
    the file does not open for writing, which ends it with [OSError].
    While the clock stays a week away from the last day of the calendar
    and the file opens for writing, a session ends by "exit" or at the end
    of the input.  The rounds of a session are at most as many as its
    lines, plus one. *)
Theorem sessions_end_in_four_ways
        (clock : nat -> datetime.t) (disk : nat -> bool) (inputs : list str)
        (fs : AddressBook.storage) (data : AddressBook.t) :
  AddressBook.load fs = Val data ->
  let r := Shell.main clock disk inputs fs in
  expected_ending clock disk (Shell.how r)
  /\ (clock_in_range clock -> (forall n, disk n = true) ->
      Shell.how r = Shell.Closed \/ Shell.how r = Shell.EndOfInput)
  /\ (forall extra,
         Shell.loop clock disk (S (List.length inputs) + extra) inputs
                    (Shell.mk_state data fs 0 0) = r).
Proof.
  intros Hload r.
  assert (Hend : expected_ending clock disk (Shell.how r)).
  { apply (@main_invariant (fun _ => True) clock disk inputs fs data); auto. }
  split; [exact Hend|]. split.
  - intros Hclock Hdisk.
    destruct Hend as [H | [H | [[_ [n Hn]] | [_ [n Hn]]]]]; auto.
    + exfalso. revert Hn. apply add_days_in_range, Hclock.
    + rewrite Hdisk in Hn. discriminate.
  - intros extra. subst r. unfold Shell.main. rewrite Hload.
    apply loop_fuel. lia.
Qed.

(** Witness for X16: John is added to a book that had no file, then the
    program is closed. *)
Lemma session_of_john_is_closed :
  Shell.how (Shell.main noon granted add_john_session None) = Shell.Closed.
Proof.
  destruct (@sessions_end_in_four_ways noon granted add_john_session None [] eq_refl)
    as (_ & Hclosed & _).
  destruct Hclosed as [H | H];
    [| reflexivity | exact H | vm_compute in H; discriminate].
  intros n. vm_compute. split; discriminate.
Defined.

(** The same session when the file does not open for writing: John is in
    the book in memory, the file is still missing, and the session is over
    before "exit" is read. *)
Lemma session_of_john_is_refused :
  Shell.main noon refused add_john_session None
  = Shell.mk_run (Shell.menu ++ [ASK_CHOICE; ASK_NEW_NAME; ASK_PHONES; ASK_BIRTHDAY])
                 (Shell.Uncaught OSError)
                 (Shell.mk_state john_book None 0 1).
Proof. vm_compute. reflexivity. Qed.

Lemma dict_set_not_empty {V : Type} (k : str) (v : V) (d : dict V) :
  dict_set k v d <> [].
Proof.
  destruct d as [|[k0 v0] d]; simpl; [discriminate|].
  destruct (str_eqb k0 k); discriminate.
Qed.

Lemma load_of_written (data : AddressBook.t) :
  data <> [] -> AddressBook.load (AddressBook.written data) = Raise AttributeError.
Proof.
  intros Hne. destruct data as [|[k r] data]; [congruence|].
  unfold AddressBook.written. rewrite load_json.
  unfold AddressBook.json_dump.
  cbn [map fst snd py_items bind AddressBook.comprehension].
  rewrite entry_record_of_saved. reflexivity.
Qed.

Lemma step_untouched_or_saved (fs : AddressBook.storage) (st st' : Shell.state) :
  untouched_or_saved fs (Shell.file st) -> step st st' ->
  untouched_or_saved fs (Shell.file st').
Proof.
  intros Hst [[_ Hf] | [(r & _ & Hb & [Hf | Hf])
                       | (k & r & old & new & _ & Hb & [Hf | Hf])]].
  - now rewrite Hf.
  - right. exists (Shell.book st'). split; [|assumption].
    rewrite Hb. apply dict_set_not_empty.
  - now rewrite Hf.
  - right. exists (Shell.book st'). split; [|assumption].
    rewrite Hb. apply dict_set_not_empty.
  - now rewrite Hf.
Qed.

(** X17.  A session leaves the file as it found it, or as [save] wrote it
    for a book that is not empty; in the second case no later session gets
    as far as the menu: [load] raises [AttributeError] on that file, since
    [save] writes each field as an object and [load] expects text. *)
Theorem saved_file_ends_the_next_session
        (clock : nat -> datetime.t) (disk : nat -> bool) (inputs : list str)
        (fs : AddressBook.storage) :
  let f := Shell.file (Shell.final (Shell.main clock disk inputs fs)) in
  f = fs
  \/ ((exists data, data <> [] /\ f = AddressBook.written data) /\ ends_at_startup f).
Proof.
  intros f.
  assert (H : untouched_or_saved fs f).
  { subst f. destruct (AddressBook.load fs) as [data|e] eqn:Hload.
    - apply (@main_invariant (fun st => untouched_or_saved fs (Shell.file st))
                             clock disk inputs fs data);
        [|assumption|now left].
      intros st st' _. apply step_untouched_or_saved.
    - unfold Shell.main. rewrite Hload. now left. }
  destruct H as [H | (data & Hne & H)]; [now left|].
  right. split; [now exists data|].
  intros clock' disk' inputs'. unfold Shell.main.
  rewrite H, load_of_written by assumption. reflexivity.
Qed.

(** The session that adds John leaves a file on which the next session
    ends at once. *)
Lemma john_is_added_once :
  ends_at_startup
    (Shell.file (Shell.final (Shell.main noon granted add_john_session None))).
Proof.
  destruct (saved_file_ends_the_next_session noon granted add_john_session None)
    as [H | [_ H]]; [vm_compute in H; discriminate | exact H].
Defined.

(** ** The commands *)

Lemma edit_phone_text_equation (old new : str) (record : Record.t) :
  Record.edit_phone (PyStr old) (PyStr new) record
  = (if valid_phone new then Val tt else Raise (ValueError Phone.MESSAGE),
     Record.mk (Record.name record)
               (Record.list_remove (PyStr old) (Record.phones record)
                ++ (if valid_phone new then [new] else []))
               (Record.birthday record)).
Proof.
  assert (Hkept : Record.remove_phone (PyStr old) record
                  = (Val tt, Record.mk (Record.name record)
                                       (Record.list_remove (PyStr old)
                                                           (Record.phones record))
                                       (Record.birthday record))).
  { unfold Record.remove_phone.
    destruct (Record.find_phone (PyStr old) record) eqn:E; [reflexivity|].
    rewrite list_remove_absent by now apply find_phone_none.
    now destruct record. }
  unfold Record.edit_phone, Record.seq. rewrite Hkept.
  unfold Record.add_phone, Record.seq, Record.lift.
  rewrite Phone_validate_decides. destruct (valid_phone new); simpl.
  - reflexivity.
  - now rewrite app_nil_r.
Qed.



(** X19.  "change" on three lines: when [find] has no record for the name,
    only the name is read; otherwise the first phone equal to the old one
    leaves the record, and the new one, when it is ten digits, is put at
    the end and the book is saved, which ends the session with [OSError],
    the file as it was, when the file does not open for writing.  When the
    new one is not ten digits its message is printed and the file stays as
    it was, while the book in memory has lost the old phone. *)
Theorem change_command
        (clock : nat -> datetime.t) (disk : nat -> bool) (line name old new : str)
        (rest : list str) (st : Shell.state) :
  Shell.int (Shell.strip line) = Some 2%Z ->
  Shell.iteration clock disk (line :: name :: old :: new :: rest) st
  = match AddressBook.find (Shell.strip name) (Shell.book st) with
    | None =>
        (Shell.menu ++ [ASK_CHOICE; ASK_NAME; Shell.Print (u "Contact not found.")],
         Shell.Continue (old :: new :: rest) st)
    | Some record =>
        let '(printed, out) :=
          changed (disk (Shell.writes st)) (title (Shell.strip name))
                  (Shell.strip old) (Shell.strip new) record rest st in
        (Shell.menu ++ [ASK_CHOICE; ASK_NAME; ASK_OLD; ASK_NEW] ++ printed, out)
    end.
Proof.
  intros Hint.
  unfold Shell.iteration. cbn [Shell.input]. rewrite Hint.
  cbn -[Shell.add Shell.change Shell.find Shell.birthdays AddressBook.show_all u
        Shell.menu].
  unfold Shell.change. cbn [Shell.input].
  destruct (AddressBook.find (Shell.strip name) (Shell.book st)) as [record|];
    [|reflexivity].
  cbn [Shell.input]. rewrite edit_phone_text_equation. unfold changed.
  destruct (valid_phone (Shell.strip new)).
  - rewrite save_book_equation. reflexivity.
  - rewrite app_nil_r. reflexivity.
Qed.

(** Witness for X19: John's only phone is to become 12345; the message of
    the validator is printed, the file is the one the session began with,
    and John has no phone left. *)
Lemma change_loses_johns_phone :
  Shell.iteration noon granted [u "2"; u "john"; u "1234567890"; u "12345"] john_state
  = (Shell.menu ++ [ASK_CHOICE; ASK_NAME; ASK_OLD; ASK_NEW;
                    Shell.Print (u Phone.MESSAGE)],
     Shell.Continue []
       (Shell.mk_state [(u "John", Record.mk (u "John") [] (Some (u "01/01/1990")))]
                       (Shell.file john_state) 0 0)).
Proof.
  rewrite (@change_command noon granted (u "2") (u "john") (u "1234567890") (u "12345")
                           [] john_state eq_refl).
  vm_compute. reflexivity.
Defined.

(** ** What is printed for a contact *)

Lemma split_at_first (c : N) (l1 l2 r1 r2 : str) :
  ~ In c l1 -> ~ In c l2 -> l1 ++ c :: r1 = l2 ++ c :: r2 -> l1 = l2 /\ r1 = r2.
Proof.
  revert l2. induction l1 as [|x l1 IH]; intros [|y l2] H1 H2 Heq; simpl in *.
  - injection Heq as <-. auto.
  - injection Heq as <- _. exfalso. apply H2. now left.
  - injection Heq as -> _. exfalso. apply H1. now left.
  - injection Heq as <- Heq.
    destruct (IH l2 (fun H => H1 (or_intror H)) (fun H => H2 (or_intror H)) Heq)
      as [-> ->].
    auto.
Qed.

Lemma app_same_length {A : Type} (a b x y : list A) :
  List.length a = List.length b -> a ++ x = b ++ y -> a = b /\ x = y.
Proof.
  revert b. induction a as [|c a IH]; intros [|d b] Hlen Heq; simpl in *;
    try discriminate; [auto|].
  injection Heq as <- Heq. injection Hlen as Hlen.
  destruct (IH b Hlen Heq) as [-> ->]. auto.
Qed.

Lemma alpha_without_comma (name : str) : isalpha name = true -> ~ In 44%N name.
Proof.
  unfold isalpha. intros H Hin. apply andb_true_iff in H as [_ H].
  rewrite forallb_forall in H. apply H in Hin. vm_compute in Hin. discriminate.
Qed.

Lemma phone_head (p : str) :
  ten_digits p -> exists c rest, p = c :: rest /\ Unicode.isdigit c = true.
Proof.
  intros [Hlen Hall]. destruct p as [|c rest]; [discriminate|].
  simpl in Hall. apply andb_true_iff in Hall as [Hc _]. eauto.
Qed.

Lemma join_cons (sep p : str) (ps : list str) :
  join sep (p :: ps)
  = p ++ match ps with
         | [] => []
         | _ => sep ++ join sep ps
         end.
Proof.
  destruct ps; simpl; [now rewrite app_nil_r | reflexivity].
Qed.

Lemma digit_head_clash (x : N) (t q : str) (ps : list str) (tail : str) :
  Unicode.isdigit x = false -> ten_digits q ->
  x :: t = join [44; 32]%N (q :: ps) ++ tail -> False.
Proof.
  intros Hx Hq Heq. destruct (phone_head Hq) as (c & rest & -> & Hc).
  rewrite join_cons in Heq. simpl in Heq. injection Heq as -> _. congruence.
Qed.

Lemma join_phones_determined (t1 t2 : str) :
  forall ps1 ps2 : list str,
    Forall ten_digits ps1 -> Forall ten_digits ps2 ->
    join [44; 32]%N ps1 ++ [44; 32; 66]%N ++ t1
    = join [44; 32]%N ps2 ++ [44; 32; 66]%N ++ t2 ->
    ps1 = ps2 /\ t1 = t2.
Proof.
  induction ps1 as [|p1 ps1 IH]; intros [|p2 ps2] H1 H2 Heq.
  - simpl in Heq. injection Heq as <-. auto.
  - exfalso. inversion H2 as [|? ? Hp2 _]; subst.
    now apply (@digit_head_clash 44%N ([32; 66]%N ++ t1) p2 ps2 _ eq_refl Hp2) in Heq.
  - exfalso. inversion H1 as [|? ? Hp1 _]; subst. symmetry in Heq.
    now apply (@digit_head_clash 44%N ([32; 66]%N ++ t2) p1 ps1 _ eq_refl Hp1) in Heq.
  - inversion H1 as [|? ? Hp1 Hps1]; subst. inversion H2 as [|? ? Hp2 Hps2]; subst.
    rewrite !join_cons, <- !app_assoc in Heq.
    apply app_same_length in Heq as [<- Heq];
      [|destruct Hp1 as [-> _]; destruct Hp2 as [-> _]; reflexivity].
    destruct ps1 as [|q1 ps1]; destruct ps2 as [|q2 ps2].
    + simpl in Heq. injection Heq as <-. auto.
    + exfalso. inversion Hps2 as [|? ? Hq2 _]; subst.
      rewrite <- app_assoc in Heq. cbn [app] in Heq. injection Heq as Heq.
      now apply (@digit_head_clash 66%N t1 q2 ps2 _ eq_refl Hq2) in Heq.
    + exfalso. inversion Hps1 as [|? ? Hq1 _]; subst.
      rewrite <- app_assoc in Heq. cbn [app] in Heq. injection Heq as Heq.
      symmetry in Heq.
      now apply (@digit_head_clash 66%N t2 q1 ps1 _ eq_refl Hq1) in Heq.
    + rewrite <- !app_assoc in Heq. apply app_inv_head in Heq.
      destruct (IH (q2 :: ps2) Hps1 Hps2 Heq) as [Hps ->].
      split; [now f_equal | reflexivity].
Qed.

Lemma show_birthday_determined (r1 r2 : Record.t) :
  record_invariant r1 -> record_invariant r2 ->
  Record.show_birthday r1 = Record.show_birthday r2 ->
  Record.birthday r1 = Record.birthday r2.
Proof.
  intros (_ & _ & Hb1) (_ & _ & Hb2). unfold Record.show_birthday.
  destruct (Record.birthday r1) as [b1|]; destruct (Record.birthday r2) as [b2|];
    intros Heq.
  - now subst.
  - specialize (Hb1 b1 eq_refl). subst b1. vm_compute in Hb1. discriminate.
  - specialize (Hb2 b2 eq_refl). subst b2. vm_compute in Hb2. discriminate.
  - reflexivity.
Qed.

Lemma to_str_determined (r1 r2 : Record.t) :
  record_invariant r1 -> record_invariant r2 ->
  Record.to_str r1 = Record.to_str r2 -> r1 = r2.
Proof.
  intros Hr1 Hr2 Heq.
  assert (Hb := fun H => show_birthday_determined Hr1 Hr2 H).
  destruct Hr1 as (Hn1 & Hp1 & _). destruct Hr2 as (Hn2 & Hp2 & _).
  apply Name_accepted_iff, alpha_without_comma in Hn1, Hn2.
  assert (Hten : forall ps, Forall (accepted Phone.validate) ps -> Forall ten_digits ps).
  { intros ps. apply Forall_impl. intros p. apply Phone_accepted_iff. }
  apply Hten in Hp1, Hp2.
  unfold Record.to_str in Heq. apply app_inv_head in Heq.
  change (u ", phones: ") with (44%N :: u " phones: ") in Heq.
  apply split_at_first in Heq as [Hname Heq]; try assumption.
  apply app_inv_head in Heq.
  change (u ", ") with [44; 32]%N in Heq.
  change (u ", Birthday: ") with ([44; 32; 66]%N ++ u "irthday: ") in Heq.
  unfold Field.to_str in Heq. rewrite !map_id, <- !app_assoc in Heq.
  apply join_phones_determined in Heq as [Hphones Heq]; try assumption.
  apply app_inv_head in Heq. apply Hb in Heq.
  destruct r1, r2; simpl in *; subst. reflexivity.
Qed.

(** X20.  The line printed for a contact tells the contact: two valid
    records with the same line have the same name, the same phones in the
    same order, and the same birthday or none. *)
Theorem printed_line_tells_the_record (r1 r2 : Record.t) :
  record_invariant r1 -> record_invariant r2 ->
  Record.to_str r1 = Record.to_str r2 <-> r1 = r2.
Proof.
  intros Hr1 Hr2. split.
  - now apply to_str_determined.
  - now intros ->.
Qed.

(** Witness for X20: Ann and Bob print differently. *)
Lemma ann_and_bob_print_differently :
  Record.to_str (Record.mk (u "Ann") [ones] (Some (u "10/05/2024")))
  <> Record.to_str (Record.mk (u "Bob") [ones; twos] None).
Proof.
  intros H.
  apply (@printed_line_tells_the_record
           (Record.mk (u "Ann") [ones] (Some (u "10/05/2024")))
           (Record.mk (u "Bob") [ones; twos] None)) in H;
    [vm_compute in H; discriminate | check_record | check_record].
Defined.

Lemma lines_determined (l1 l2 : list Record.t) :
  Forall record_invariant l1 -> Forall record_invariant l2 ->
  map Record.to_str l1 = map Record.to_str l2 -> l1 = l2.
Proof.
  intros H1. revert l2. induction H1 as [|r1 l1 Hr1 _ IH]; intros [|r2 l2] H2 Heq;
    try discriminate; [reflexivity|].
  inversion H2 as [|? ? Hr2 Hl2]; subst.
  pose proof (f_equal (hd []) Heq) as Hr. pose proof (f_equal (@tl _) Heq) as Ht.
  cbn [map hd tl] in Hr, Ht.
  apply to_str_determined in Hr; try assumption. subst. f_equal. now apply IH.
Qed.

(** X21.  What "all" prints tells the records of the book, in order: two
    valid books for which [show_all] gives the same lines hold the same
    records; the line for the empty book is the line of no contact. *)
Theorem show_all_tells_the_records (data1 data2 : AddressBook.t) :
  book_invariant data1 -> book_invariant data2 ->
  AddressBook.show_all data1 = AddressBook.show_all data2 ->
  dict_values data1 = dict_values data2.
Proof.
  unfold book_invariant, AddressBook.show_all. intros H1 H2.
  destruct data1 as [|[k1 r1] data1]; destruct data2 as [|[k2 r2] data2];
    cbn [List.length Nat.eqb negb]; intros Heq.
  - reflexivity.
  - exfalso. apply (f_equal (hd [])) in Heq. cbn [dict_values map snd hd] in Heq.
    unfold Record.to_str in Heq.
    change (u "No contacts found.") with (78%N :: u "o contacts found.") in Heq.
    change (u "Contact name: ") with (67%N :: u "ontact name: ") in Heq.
    cbn [app] in Heq. discriminate.
  - exfalso. apply (f_equal (hd [])) in Heq. cbn [dict_values map snd hd] in Heq.
    unfold Record.to_str in Heq.
    change (u "No contacts found.") with (78%N :: u "o contacts found.") in Heq.
    change (u "Contact name: ") with (67%N :: u "ontact name: ") in Heq.
    cbn [app] in Heq. discriminate.
  - now apply lines_determined.
Qed.

(** Witness for X21: the book of Ann and Bob against the book of John. *)
Lemma two_book_and_john_book_print_differently :
  AddressBook.show_all two_book <> AddressBook.show_all john_book.
Proof.
  intros H. apply show_all_tells_the_records in H.
  - vm_compute in H. discriminate.
  - apply two_book_valid.
  - apply Forall_cons; [check_record | apply Forall_nil].
Defined.
